(** * Binary CAZyme / non-CAZyme classification statistics

    A shallow embedding of
    [pyrewton/cazymes/prediction/stats/binary_cazyme_noncazyme_classification.py]
    and the properties of it that the evaluation pipeline relies on.

    Conventions of the embedding:
    - a CAZyme / non-CAZyme classification (the Python ints [0] and [1]) is a
      [bool], [false] for 0 and [true] for 1;
    - Python exceptions are values of [exn]; a function that may raise
      returns a [result];
    - a Python [dict] whose iteration order is observed is an association
      list in insertion order; a [dict] that is only probed is a [gmap];
    - a numpy / Python float is an exact rational, [inf] or [nan]
      ([npfloat]); rounding is not modelled;
    - the two pseudo random generators (Python's [random], numpy's global
      [RandomState]) are one abstract state threaded through the calls. *)

From Stdlib Require Import Ascii QArith Lqa.
From stdpp Require Import base option list gmap strings fin_maps.

(** ** Exceptions and results *)

Inductive exn : Type :=
| KeyError (key : string)
| IndexError
| ValueError.

Inductive result (A : Type) : Type :=
| Ok (a : A)
| Raise (e : exn).
Arguments Ok {A} a.
Arguments Raise {A} e.

Definition result_bind {A B} (f : A → result B) (r : result A) : result B :=
  match r with
  | Ok a => f a
  | Raise e => Raise e
  end.

#[global] Instance result_ret : MRet result := @Ok.
#[global] Instance result_mbind : MBind result := @result_bind.

Definition is_Ok {A} (r : result A) : Prop := ∃ a, r = Ok a.
Definition is_Raise {A} (r : result A) : Prop := ∃ e, r = Raise e.

(** [l[i]] for a non-negative [i]. *)
Definition py_index {A} (l : list A) (i : nat) : result A :=
  match l !! i with
  | Some a => Ok a
  | None => Raise IndexError
  end.

(** [d[k]] on a [dict] that is only probed. *)
Definition py_getitem {V} (d : gmap string V) (k : string) : result V :=
  match d !! k with
  | Some v => Ok v
  | None => Raise (KeyError k)
  end.

(** ** The six prediction tools, in the order the source lists them *)

Definition TOOLS : list string :=
  ["dbCAN"; "HMMER"; "Hotpep"; "DIAMOND"; "CUPP"; "eCAMI"].

(** ** Prediction records *)

(** Modelled from the spec: the class [CazymeProteinPrediction] of the
    parsers is not among the sources. The spec's PredictionRecord gives a
    prediction an accession string and a CAZyme flag; these are the two
    attributes [get_prediction_classifications] reads. *)
Record CazymeProteinPrediction : Type := mkPrediction {
  protein_accession : string;
  cazyme_classification : bool
}.

(** One long-form entry [[accession, tool, classification]]. *)
Definition classification : Type := string * string * bool.

(** ** [str.split(" ")]

    Splitting on an explicit separator cuts at every single occurrence, so
    the result is never empty and may contain empty fields. *)

Definition space : ascii := " "%char.

Fixpoint split_space (s : string) : list string :=
  match s with
  | EmptyString => [EmptyString]
  | String c rest =>
      if decide (c = space) then EmptyString :: split_space rest
      else match split_space rest with
           | field :: fields => String c field :: fields
           | [] => [String c EmptyString]
           end
  end.

(** ** [get_prediction_classifications] *)

Definition get_prediction_classifications
    (tool_predictions : list CazymeProteinPrediction)
    (prediction_tool : string)
    (classifications : list classification) : list classification :=
  if bool_decide (prediction_tool = "eCAMI") || bool_decide (prediction_tool = "CUPP")
  then
    foldl (λ classifications prediction,
             let accession := hd EmptyString (split_space (protein_accession prediction)) in
             classifications ++ [(accession, prediction_tool, cazyme_classification prediction)])
          classifications tool_predictions
  else
    foldl (λ classifications prediction,
             classifications ++
               [(protein_accession prediction, prediction_tool,
                 cazyme_classification prediction)])
          classifications tool_predictions.

(** The accession as the claim words it: the text before the first space,
    the whole text when there is none. *)
Fixpoint before_first_space (s : string) : string :=
  match s with
  | EmptyString => EmptyString
  | String c rest =>
      if decide (c = space) then EmptyString else String c (before_first_space rest)
  end.

Fixpoint has_space (s : string) : bool :=
  match s with
  | EmptyString => false
  | String c rest => bool_decide (c = space) || has_space rest
  end.

Definition stored_accession (prediction_tool : string) (p : CazymeProteinPrediction) : string :=
  if bool_decide (prediction_tool = "eCAMI" ∨ prediction_tool = "CUPP")
  then before_first_space (protein_accession p)
  else protein_accession p.

(** ** Data frames

    A [pandas.DataFrame] restricted to what the module does with one: an
    index of protein accessions and named columns of classifications, in
    column order. *)

Record DataFrame : Type := mkDataFrame {
  df_index : list string;
  df_columns : list (string * list bool)
}.

Fixpoint assoc_get {V} (k : string) (d : list (string * V)) : option V :=
  match d with
  | [] => None
  | (k', v) :: d' => if decide (k = k') then Some v else assoc_get k d'
  end.

(** Assignment to a key keeps the position of a key that is present and
    appends a new one. *)
Fixpoint assoc_set {V} (k : string) (v : V) (d : list (string * V)) : list (string * V) :=
  match d with
  | [] => [(k, v)]
  | (k', v') :: d' =>
      if decide (k = k') then (k, v) :: d' else (k', v') :: assoc_set k v d'
  end.

(** [df[name]] *)
Definition get_column (name : string) (df : DataFrame) : result (list bool) :=
  match assoc_get name (df_columns df) with
  | Some col => Ok col
  | None => Raise (KeyError name)
  end.

(** [df[name] = values]; pandas refuses a list of the wrong length. *)
Definition set_column (name : string) (values : list bool) (df : DataFrame) : result DataFrame :=
  if decide (length values = length (df_index df))
  then Ok (mkDataFrame (df_index df) (assoc_set name values (df_columns df)))
  else Raise ValueError.

(** ** [retrieve_ground_truths] *)

Definition ground_truth {V} (cazy_dict : gmap string V) (protein_accession : string) : bool :=
  match py_getitem cazy_dict protein_accession with
  | Ok _ => true
  | Raise _ => false
  end.

Definition retrieve_ground_truths {V} (classifications_df : DataFrame)
    (cazy_dict : gmap string V) : result DataFrame :=
  let cazy_annotation :=
    foldl (λ cazy_annotation protein_accession,
             cazy_annotation ++ [ground_truth cazy_dict protein_accession])
          [] (df_index classifications_df) in
  set_column "CAZy" cazy_annotation classifications_df.

(** ** Loops that may raise *)

Fixpoint result_foldl {A B} (f : A → B → result A) (a : A) (l : list B) : result A :=
  match l with
  | [] => Ok a
  | x :: l' => a' ← f a x; result_foldl f a' l'
  end.

Fixpoint result_mapM {A B} (f : A → result B) (l : list A) : result (list B) :=
  match l with
  | [] => Ok []
  | x :: l' => y ← f x; ys ← result_mapM f l'; Ok (y :: ys)
  end.

(** ** [build_classification_df]

    [classification_dict] is [{protein_accession : {prediction_tool :
    [classifications]}}]; the outer dictionary is iterated, so its insertion
    order is kept. *)

Definition add_classification
    (classification_dict : list (string * gmap string (list bool)))
    (c : classification) : list (string * gmap string (list bool)) :=
  let '(protein_accession, prediciton_tool, cazyme_classification) := c in
  match assoc_get protein_accession classification_dict with
  | Some tools =>
      match tools !! prediciton_tool with
      | Some classifications =>
          assoc_set protein_accession
            (<[prediciton_tool := classifications ++ [cazyme_classification]]> tools)
            classification_dict
      | None =>
          assoc_set protein_accession
            (<[prediciton_tool := [cazyme_classification]]> tools) classification_dict
      end
  | None =>
      assoc_set protein_accession
        (<[prediciton_tool := [cazyme_classification]]> ∅) classification_dict
  end.

Definition build_classification_dict (classifications : list classification)
    : list (string * gmap string (list bool)) :=
  foldl add_classification [] classifications.

(** The row [new_data] without its leading accession, for occurrence [i]. *)
Definition build_row (tools : gmap string (list bool)) (i : nat) : result (list bool) :=
  result_foldl
    (λ new_data tool,
       classifications ← py_getitem tools tool;
       c ← py_index classifications i;
       Ok (new_data ++ [c]))
    [] TOOLS.

Definition build_rows (data : list (string * list bool))
    (entry : string * gmap string (list bool)) : result (list (string * list bool)) :=
  let '(protein_accession, tools) := entry in
  dbcan ← py_getitem tools "dbCAN";
  result_foldl
    (λ data i, new_data ← build_row tools i; Ok (data ++ [(protein_accession, new_data)]))
    data (seq 0 (length dbcan)).

Definition build_data (classification_dict : list (string * gmap string (list bool)))
    : result (list (string * list bool)) :=
  result_foldl build_rows [] classification_dict.

(** [pd.DataFrame(data, columns=...).set_index("Protein_accession")]; a row
    of the wrong width is refused. *)
Definition frame_column (data : list (string * list bool)) (j : nat) : result (list bool) :=
  result_mapM
    (λ row : string * list bool,
       match row.2 !! j with Some c => Ok c | None => Raise ValueError end)
    data.

Definition frame_of_data (data : list (string * list bool)) : result DataFrame :=
  columns ← result_mapM
               (λ jt : nat * string, col ← frame_column data jt.1; Ok (jt.2, col))
               (imap (λ j tool, (j, tool)) TOOLS);
  Ok (mkDataFrame (map fst data) columns).

Definition build_classification_df (classifications : list classification)
    : result DataFrame :=
  data ← build_data (build_classification_dict classifications);
  frame_of_data data.

(** What the input holds for one accession and one tool, in input order. *)
Definition predictions_of (classifications : list classification)
    (protein_accession tool : string) : list bool :=
  omap (λ c : classification,
          if decide (c.1.1 = protein_accession ∧ c.1.2 = tool) then Some c.2 else None)
       classifications.

(** The accessions of the input in order of first appearance. *)
Fixpoint first_seen (l : list string) : list string :=
  match l with
  | [] => []
  | x :: l' => x :: filter (λ y, y ≠ x) (first_seen l')
  end.

Definition accessions_of (classifications : list classification) : list string :=
  first_seen (map (λ c : classification, c.1.1) classifications).

(** A list held by [classification_dict] is never empty: a tool without a
    classification has no key. *)
Definition nonempty {A} (l : list A) : option (list A) :=
  match l with
  | [] => None
  | _ :: _ => Some l
  end.

(** What [classification_dict] holds once the input has been read. *)
Definition dict_of (classifications : list classification)
    (classification_dict : list (string * gmap string (list bool))) : Prop :=
  map fst classification_dict = accessions_of classifications
  ∧ ∀ protein_accession tools,
      assoc_get protein_accession classification_dict = Some tools →
      ∀ tool, tools !! tool
              = nonempty (predictions_of classifications protein_accession tool).

(** The rows one accession contributes. *)
Definition entry_rows (entry : string * gmap string (list bool))
    : result (list (string * list bool)) :=
  dbcan ← py_getitem entry.2 "dbCAN";
  result_mapM (λ i, new_data ← build_row entry.2 i; Ok (entry.1, new_data))
              (seq 0 (length dbcan)).

(** The number of rows of an accession: its dbCAN classifications. *)
Definition occurrences (classifications : list classification)
    (protein_accession : string) : nat :=
  length (predictions_of classifications protein_accession "dbCAN").

(** Every accession has a dbCAN classification and no tool has fewer
    classifications for it than dbCAN. *)
Definition aligned (classifications : list classification) : Prop :=
  ∀ protein_accession, protein_accession ∈ accessions_of classifications →
  ∀ tool, tool ∈ TOOLS →
    1 ≤ occurrences classifications protein_accession
    ∧ occurrences classifications protein_accession
      ≤ length (predictions_of classifications protein_accession tool).

(** The rows of an aligned input, accession by accession. *)
Definition accession_rows (classifications : list classification)
    (protein_accession : string) : list (string * list bool) :=
  map (λ i, (protein_accession,
             map (λ tool, predictions_of classifications protein_accession tool !!! i)
                 TOOLS))
      (seq 0 (occurrences classifications protein_accession)).

Definition expected_data (classifications : list classification)
    : list (string * list bool) :=
  concat (map (accession_rows classifications) (accessions_of classifications)).

Definition expected_index (classifications : list classification) : list string :=
  concat (map (λ protein_accession,
                 replicate (occurrences classifications protein_accession)
                           protein_accession)
              (accessions_of classifications)).

(** A tool's column: of each accession, as many of the tool's
    classifications as dbCAN has, the first ones. *)
Definition expected_column (classifications : list classification) (tool : string)
    : list bool :=
  concat (map (λ protein_accession,
                 take (occurrences classifications protein_accession)
                      (predictions_of classifications protein_accession tool))
              (accessions_of classifications)).

(** ** Sample inputs of [build_classification_df] *)

Definition one_each (protein_accession : string) : list classification :=
  map (λ tool, (protein_accession, tool, true)) TOOLS.

(** HMMER reports two classifications for [A], every other tool one. *)
Definition surplus_hmmer : list classification :=
  [("A", "dbCAN", true); ("A", "HMMER", true); ("A", "HMMER", false);
   ("A", "Hotpep", true); ("A", "DIAMOND", true); ("A", "CUPP", true);
   ("A", "eCAMI", true)].

(** dbCAN reports two classifications for [A], every other tool one; [B]
    is known to dbCAN only. *)
Definition surplus_dbcan_then_missing : list classification :=
  ("A", "dbCAN", false) :: one_each "A" ++ [("B", "dbCAN", true)].

(** ** Floats *)

Inductive npfloat : Type :=
| Finite (q : Q)
| PosInf
| NaN.

(** True division of two counts, as numpy does it on integer scalars: a
    zero divisor gives a warning and [nan] or [inf], never an exception. *)
Definition np_true_divide (a b : nat) : npfloat :=
  match b with
  | O => match a with O => NaN | S _ => PosInf end
  | S _ => Finite (Z.of_nat a # Pos.of_nat b)
  end.

Definition npfloat_in_unit (x : npfloat) : Prop :=
  match x with
  | Finite q => (0 <= q)%Q ∧ (q <= 1)%Q
  | _ => False
  end.

(** ** scikit-learn metrics on 0/1 label arrays

    The library functions the module calls, after their documentation: all
    of them refuse arrays of different lengths. *)

(** Number of samples whose true label is [t] and predicted label is [p]. *)
Definition count_pairs (t p : bool) (y_true y_pred : list bool) : nat :=
  length (filter (λ tp : bool * bool, tp = (t, p)) (zip y_true y_pred)).

(** The labels that appear at least once in either array, sorted. *)
Definition unique_labels (y_true y_pred : list bool) : list bool :=
  filter (λ b, b ∈ y_true ++ y_pred) [false; true].

(** [confusion_matrix(y_true, y_pred)] with [labels=None]: rows are true
    labels and columns predicted labels, one per label that appears. *)
Definition confusion_matrix (y_true y_pred : list bool) : result (list (list nat)) :=
  if decide (length y_true = length y_pred) then
    let labels := unique_labels y_true y_pred in
    Ok (map (λ t, map (λ p, count_pairs t p y_true y_pred) labels) labels)
  else Raise ValueError.

(** [cm[i][j]] *)
Definition cm_index (cm : list (list nat)) (i j : nat) : result nat :=
  row ← py_index cm i; py_index row j.

(** With the default [zero_division="warn"] an undefined score is 0.0. *)
Definition prf_divide (numerator denominator : nat) : npfloat :=
  match denominator with
  | O => Finite 0
  | S _ => Finite (Z.of_nat numerator # Pos.of_nat denominator)
  end.

Definition recall_score (y_true y_pred : list bool) : result npfloat :=
  if decide (length y_true = length y_pred) then
    let tp := count_pairs true true y_true y_pred in
    let fn := count_pairs true false y_true y_pred in
    Ok (prf_divide tp (tp + fn))
  else Raise ValueError.

Definition precision_score (y_true y_pred : list bool) : result npfloat :=
  if decide (length y_true = length y_pred) then
    let tp := count_pairs true true y_true y_pred in
    let fp := count_pairs false true y_true y_pred in
    Ok (prf_divide tp (tp + fp))
  else Raise ValueError.

Definition f1_score (y_true y_pred : list bool) : result npfloat :=
  if decide (length y_true = length y_pred) then
    let tp := count_pairs true true y_true y_pred in
    let fp := count_pairs false true y_true y_pred in
    let fn := count_pairs true false y_true y_pred in
    Ok (prf_divide (2 * tp) (2 * tp + fp + fn))
  else Raise ValueError.

(** ** [evaluate_binary_classification] *)

Definition stat_record : Type := string * string * string * npfloat.

Definition evaluate_tool (y_true : list bool) (classifications_df : DataFrame)
    (genomic_accession : string) (summary_lists : list stat_record) (tool : string)
    : result (list stat_record) :=
  y_pred ← get_column tool classifications_df;
  cm ← confusion_matrix y_true y_pred;
  tn ← cm_index cm 0 0;
  fn ← cm_index cm 1 0;
  tp ← cm_index cm 1 1;
  fp ← cm_index cm 0 1;
  let specificity_result := np_true_divide tn (tn + fp) in
  let summary_lists :=
    summary_lists ++ [("Specificity", genomic_accession, tool, specificity_result)] in
  recall_result ← recall_score y_true y_pred;
  let summary_lists := summary_lists ++ [("Recall", genomic_accession, tool, recall_result)] in
  precision_result ← precision_score y_true y_pred;
  let summary_lists :=
    summary_lists ++ [("Precision", genomic_accession, tool, precision_result)] in
  f1_result ← f1_score y_true y_pred;
  let summary_lists := summary_lists ++ [("F1-score", genomic_accession, tool, f1_result)] in
  let accuracy := np_true_divide (tp + tn) (tp + fp + fn + tn) in
  Ok (summary_lists ++ [("Accuracy", genomic_accession, tool, accuracy)]).

Definition evaluate_binary_classification (classifications_df : DataFrame)
    (genomic_accession : string) : result (list stat_record) :=
  y_true ← get_column "CAZy" classifications_df;
  result_foldl (evaluate_tool y_true classifications_df genomic_accession) [] TOOLS.

(** The five records one tool contributes, written with the four counts of
    the confusion matrix: true label first, predicted label second. *)
Definition tool_statistics (y_true y_pred : list bool) (genomic_accession tool : string)
    : list stat_record :=
  let tn := count_pairs false false y_true y_pred in
  let fp := count_pairs false true y_true y_pred in
  let fn := count_pairs true false y_true y_pred in
  let tp := count_pairs true true y_true y_pred in
  [("Specificity", genomic_accession, tool, np_true_divide tn (tn + fp));
   ("Recall", genomic_accession, tool, prf_divide tp (tp + fn));
   ("Precision", genomic_accession, tool, prf_divide tp (tp + fp));
   ("F1-score", genomic_accession, tool, prf_divide (2 * tp) (2 * tp + fp + fn));
   ("Accuracy", genomic_accession, tool, np_true_divide (tp + tn) (tp + fp + fn + tn))].

(** A frame the evaluator can work on: every tool column is as long as the
    CAZy column and, together with it, shows both labels. *)
Definition evaluable (classifications_df : DataFrame) (y_true : list bool)
    (columns : string → list bool) : Prop :=
  get_column "CAZy" classifications_df = Ok y_true
  ∧ ∀ tool, tool ∈ TOOLS →
      get_column tool classifications_df = Ok (columns tool)
      ∧ length y_true = length (columns tool)
      ∧ false ∈ y_true ++ columns tool
      ∧ true ∈ y_true ++ columns tool.

(** ** [calc_acc] *)

Definition calc_acc (y_true y_pred : list bool) : result npfloat :=
  cm ← confusion_matrix y_true y_pred;
  tn ← cm_index cm 0 0;
  fn ← cm_index cm 1 0;
  tp ← cm_index cm 1 1;
  fp ← cm_index cm 0 1;
  Ok (np_true_divide (tp + tn) (tp + fp + fn + tn)).

(** ** Pseudo random numbers

    [py_randbelow n] is [random._randbelow(n)] of Python's generator and
    [np_randint n] one draw of numpy's [randint(0, n)]; both answer below
    [n]. Nothing else is assumed of the generators. *)

Class RandomSource : Type := {
  rng_state : Type;
  py_randbelow : nat → rng_state → nat * rng_state;
  np_randint : nat → rng_state → nat * rng_state;
  py_randbelow_lt : ∀ n s, 0 < n → (py_randbelow n s).1 < n;
  np_randint_lt : ∀ n s, 0 < n → (np_randint n s).1 < n
}.

(** A generator that counts: the draws walk through the range. *)
Definition counting_randbelow (n : nat) (s : nat) : nat * nat := (s `mod` n, S s).

Section Bootstrap.
Context `{RandomSource}.

(** [random_state.randint(0, high, size=(size,))] *)
Fixpoint randint_array (high size : nat) (s : rng_state) : list nat * rng_state :=
  match size with
  | O => ([], s)
  | S size' =>
      let '(i, s') := np_randint high s in
      let '(indices, s'') := randint_array high size' s' in
      (i :: indices, s'')
  end.

(** [sklearn.utils.resample(array)]: as many rows as the array has, drawn
    with replacement. *)
Definition resample {A} (array : list A) (s : rng_state) : result (list A * rng_state) :=
  let n_samples := length array in
  let '(indices, s') := randint_array n_samples n_samples s in
  sample ← result_mapM (py_index array) indices;
  Ok (sample, s').

(** ** [bootstrap_acc]; a row of [df_array] is [(predicted, ground truth)] *)
Fixpoint bootstrap_loop (df_array : list (bool * bool)) (iterations : nat)
    (bootstraps : list npfloat) (s : rng_state) : result (list npfloat * rng_state) :=
  match iterations with
  | O => Ok (bootstraps, s)
  | S iterations' =>
      '(sample, s') ← resample df_array s;
      accuracy ← calc_acc (map snd sample) (map fst sample);
      bootstrap_loop df_array iterations' (bootstraps ++ [accuracy]) s'
  end.

Definition bootstrap_acc (df_array : list (bool * bool)) (n : Z) (s : rng_state)
    : result (list npfloat * rng_state) :=
  bootstrap_loop df_array (Z.to_nat n) [] s.

(** The resamples the loop of [bootstrap_acc] draws when none of its
    accuracy computations raises. *)
Fixpoint bootstrap_samples (df_array : list (bool * bool)) (iterations : nat)
    (s : rng_state) : result (list (list (bool * bool))) :=
  match iterations with
  | O => Ok []
  | S iterations' =>
      '(sample, s') ← resample df_array s;
      samples ← bootstrap_samples df_array iterations' s';
      Ok (sample :: samples)
  end.

(** [samples] are the successive answers of [resample df_array], the first
    from the generator state [s], each next one from the state the one
    before left. *)
Fixpoint drawn_from (df_array : list (bool * bool)) (s : rng_state)
    (samples : list (list (bool * bool))) : Prop :=
  match samples with
  | [] => True
  | sample :: samples' =>
      ∃ s', resample df_array s = Ok (sample, s') ∧ drawn_from df_array s' samples'
  end.

(** ** [random.sample(population, k)]

    The selection loop over a pool copy of the population. (CPython
    switches to rejection sampling of positions when the population is
    much larger than [k]; that branch picks pairwise distinct positions
    as well.) *)
Definition sample_step {A} (n : nat) (st : list A * list A * rng_state) (i : nat)
    : result (list A * list A * rng_state) :=
  let '(selected, pool, s) := st in
  let '(j, s') := py_randbelow (n - i) s in
  x ← py_index pool j;
  y ← py_index pool (n - i - 1);
  Ok (selected ++ [x], <[j := y]> pool, s').

Definition random_sample {A} (population : list A) (k : Z) (s : rng_state)
    : result (list A * rng_state) :=
  let n := length population in
  if decide (0 ≤ k ≤ Z.of_nat n)%Z then
    '(selected, _, s') ← result_foldl (sample_step n) ([], population, s)
                                      (seq 0 (Z.to_nat k));
    Ok (selected, s')
  else Raise ValueError.

(** ** [ClassificationDF] and [bootstrap_binary_classifications] *)

Record ClassificationDF : Type := mkClassificationDF {
  genome_id : string;
  df : DataFrame
}.

Definition bootstrap_record : Type := string * string * nat * npfloat.

(** [pd.concat([df.df[tool], df.df["CAZy"]], axis=1)] of two columns of
    one frame. *)
Definition concat_columns (a b : list bool) : list (bool * bool) := zip a b.

Definition bootstrap_df (bs_resampling : Z) (tool : string)
    (st : list bootstrap_record * rng_state) (cdf : ClassificationDF)
    : result (list bootstrap_record * rng_state) :=
  let '(bootstrap_results, s) := st in
  predicted ← get_column tool (df cdf);
  truth ← get_column "CAZy" (df cdf);
  let temp_df := concat_columns predicted truth in
  '(bs_acc, s') ← bootstrap_acc temp_df bs_resampling s;
  Ok (bootstrap_results
        ++ imap (λ i result, (genome_id cdf, tool, 1 + i, result)) bs_acc, s').

Definition bootstrap_tool (bs_resampling : Z) (binary_dfs : list ClassificationDF)
    (st : list bootstrap_record * rng_state) (tool : string)
    : result (list bootstrap_record * rng_state) :=
  result_foldl (bootstrap_df bs_resampling tool) st binary_dfs.

(** The rows of the table written to
    [bootstrap_accuracy_evaluation_<time_stamp>.csv]. *)
Definition bootstrap_binary_classifications (all_binary_dfs : list ClassificationDF)
    (bs_sample_size bs_resampling : Z) (s : rng_state)
    : result (list bootstrap_record) :=
  '(binary_dfs, s') ← random_sample all_binary_dfs bs_sample_size s;
  '(bootstrap_results, _) ←
     result_foldl (bootstrap_tool bs_resampling binary_dfs) ([], s') TOOLS;
  Ok bootstrap_results.

End Bootstrap.

Definition counting_source : RandomSource := {|
  rng_state := nat;
  py_randbelow := counting_randbelow;
  np_randint := counting_randbelow;
  py_randbelow_lt := λ n s Hn, Nat.mod_upper_bound s n (proj2 (Nat.neq_0_lt_0 n) Hn);
  np_randint_lt := λ n s Hn, Nat.mod_upper_bound s n (proj2 (Nat.neq_0_lt_0 n) Hn)
|}.

(** The (genome, tool, bootstrap number) keys of the table for the drawn
    test sets, in the order the loops write them. *)
Definition bootstrap_keys (binary_dfs : list ClassificationDF) (n : nat)
    : list (string * string * nat) :=
  concat (map (λ tool,
                 concat (map (λ cdf, map (λ i, (genome_id cdf, tool, i)) (seq 1 n))
                             binary_dfs))
              TOOLS).

Definition bootstrap_key (r : bootstrap_record) : string * string * nat := r.1.

(** A test set whose frame has the six tool columns and the CAZy column. *)
Definition has_columns (cdf : ClassificationDF) : Prop :=
  ∀ name, name ∈ TOOLS ++ ["CAZy"] → is_Ok (get_column name (df cdf)).

(** A generator that always answers 0: every resample repeats the first
    row. *)
Definition constant_source : RandomSource := {|
  rng_state := unit;
  py_randbelow := λ _ s, (0, s);
  np_randint := λ _ s, (0, s);
  py_randbelow_lt := λ n s Hn, Hn;
  np_randint_lt := λ n s Hn, Hn
|}.

(** ** Sample frames *)

Definition frame_of_columns (index : list string) (cazy : list bool)
    (predicted : list bool) : DataFrame :=
  mkDataFrame index (map (λ tool, (tool, predicted)) TOOLS ++ [("CAZy", cazy)]).

(** One CAZyme that every tool recognises. *)
Definition all_positive_df : DataFrame := frame_of_columns ["A"] [true] [true].

(** Two CAZymes, no negative; every tool misses the first. *)
Definition no_negatives_df : DataFrame :=
  frame_of_columns ["A"; "B"] [true; true] [false; true].

(** Two proteins, one of each kind; every tool is right on both. *)
Definition mixed_df : DataFrame :=
  frame_of_columns ["A"; "B"] [true; false] [true; false].

(** Two test sets with the frame [mixed_df]. *)
Definition two_test_sets : list ClassificationDF :=
  [mkClassificationDF "GCA_1" mixed_df; mkClassificationDF "GCA_2" mixed_df].

(** ** The six tools' output as one input of [build_classification_df]

    The classifications of the six tools collected into one list, tool by
    tool in the order of [TOOLS], each call handing its result to the
    next. *)
Definition collect_classifications (outputs : string → list CazymeProteinPrediction)
    : list classification :=
  foldl (λ classifications tool,
           get_prediction_classifications (outputs tool) tool classifications)
        [] TOOLS.

(** A float that is the rational [q]. *)
Definition npfloat_is (x : npfloat) (q : Q) : Prop :=
  match x with
  | Finite p => (p == q)%Q
  | _ => False
  end.

(** Predictions of the six tools on two proteins; eCAMI and CUPP report the
    header line of the protein, the others its accession. *)
Definition sample_outputs (tool : string) : list CazymeProteinPrediction :=
  if bool_decide (tool = "eCAMI" ∨ tool = "CUPP")
  then [mkPrediction "P1 hypothetical protein" true; mkPrediction "P2 kinase" false]
  else [mkPrediction "P1" true; mkPrediction "P2" true].

(** * [Section2_CAZy_genbank_summary/CAZy_genbank_summary.py] *)

(** ** Strings *)

(** [s.split(sep)] for a non-empty separator: cut at the leftmost
    occurrences, which do not overlap. [skip] counts the characters of a
    separator still to pass over. *)
Fixpoint split_go (sep : string) (skip : nat) (s : string) : list string :=
  match s with
  | EmptyString => [EmptyString]
  | String c rest =>
      match skip with
      | S skip' => split_go sep skip' rest
      | O =>
          if String.prefix sep s
          then EmptyString :: split_go sep (String.length sep - 1) rest
          else match split_go sep 0 rest with
               | field :: fields => String c field :: fields
               | [] => [String c EmptyString]
               end
      end
  end.

Definition py_split (sep s : string) : list string := split_go sep 0 s.

(** [s.replace(old, new)] for single characters. *)
Fixpoint replace_char (old new : ascii) (s : string) : string :=
  match s with
  | EmptyString => EmptyString
  | String c rest =>
      String (if decide (c = old) then new else c) (replace_char old new rest)
  end.

(** The characters of a string, as Python hands them out: strings of
    length one. *)
Fixpoint characters (s : string) : list string :=
  match s with
  | EmptyString => []
  | String c rest => String c EmptyString :: characters rest
  end.

(** ** GenBank features

    A feature of a GenBank record as far as the script reads it: its type,
    [str] of each part of its location ([None] for a feature whose location
    has no [parts] to ask for) and its qualifiers, each a list of values. *)
Record SeqFeature : Type := mkFeature {
  feature_type : string;
  location_parts : option (list string);
  feature_qualifiers : gmap string (list string)
}.

(** ** [get_record_feature] *)

Definition get_record_feature (feature : SeqFeature) (qualifier : string) : result string :=
  if decide (qualifier = "location") then
    match location_parts feature with
    | Some parts =>
        let location_list := foldl (λ location_list item, location_list ++ [item]) [] parts in
        Ok (String.concat "," location_list)
    | None => Ok "NA"
    end
  else
    match feature_qualifiers feature !! qualifier with
    | Some values => py_index values 0
    | None => Ok "NA"
    end.

(** ** [get_protein_data]

    What the function returns is a list of protein data, each a list of
    four strings, or, when it gives up, a bare list of four strings. *)
Inductive protein_item : Type :=
| Field (value : string)
| Protein (protein_data : list string).

Definition NA_DATA : list protein_item :=
  [Field "NA"; Field "NA"; Field "NA"; Field "NA"].

Definition feature_step (all_protein_data : list protein_item) (feature : SeqFeature)
    : result (list protein_item) :=
  if decide (feature_type feature = "CDS") then
    protein_id ← get_record_feature feature "protein_id";
    locus_tag ← get_record_feature feature "locus_tag";
    location ← get_record_feature feature "location";
    product ← get_record_feature feature "product";
    let protein_data := [protein_id; locus_tag; location; product] in
    if decide (protein_data ≠ ["NA"; "NA"; "NA"; "NA"])
    then Ok (all_protein_data ++ [Protein protein_data])
    else Ok all_protein_data
  else Ok all_protein_data.

(** [genbank_input] stands for the directory: it gives, for a file stem, the
    files that [glob] finds for it, each parsed into its records, a record
    being its list of features. The files are taken as [gzip.open] and
    [SeqIO.parse] read them: a file that cannot be opened or parsed, whose
    exception the source lets through, is not among the directories this
    function is defined on. *)
Definition get_protein_data (accession_number : string)
    (genbank_input : string → list (list (list SeqFeature)))
    : result (list protein_item) :=
  if decide (accession_number = "NA") then Ok NA_DATA
  else
    let file_stem := replace_char "."%char "_"%char accession_number in
    let gb_file := genbank_input file_stem in
    if decide (1 < length gb_file ∨ length gb_file = 0) then Ok NA_DATA
    else
      handle ← py_index gb_file 0;
      result_foldl (λ all_protein_data gb_record,
                      result_foldl feature_step all_protein_data gb_record)
                   [] handle.

(** ** [get_df_foundation_data] *)

(** A row of the input frame: genus, species, taxonomy id and the
    accession numbers as one human readable string. *)
Record SpeciesRow : Type := mkSpeciesRow {
  row_genus : string;
  row_species : string;
  row_taxonomy_id : Z;
  row_accessions : string
}.

Inductive cell : Type :=
| Text (s : string)
| Number (z : Z).

(** [len(item)] and [item[i]] for an item that is a string or a list. *)
Definition item_length (item : protein_item) : nat :=
  match item with
  | Field value => String.length value
  | Protein protein_data => length protein_data
  end.

Definition item_index (item : protein_item) (i : nat) : result string :=
  match item with
  | Field value => py_index (characters value) i
  | Protein protein_data => py_index protein_data i
  end.

Definition add_protein_cell (protein_data : list protein_item) (tuple_index : nat)
    (row_data : list cell) (list_index : nat) : list cell :=
  match item ← py_index protein_data tuple_index; item_index item list_index with
  | Ok value => row_data ++ [Text value]
  | Raise _ => row_data ++ [Text "NA"]
  end.

Definition add_protein_row (df_row : SpeciesRow) (protein_data : list protein_item)
    (all_rows_data : list (list cell)) (tuple_index : nat) : result (list (list cell)) :=
  let row_data := [] in
  let row_data := row_data ++ [Text (row_genus df_row)] in
  let row_data := row_data ++ [Text (row_species df_row)] in
  let row_data := row_data ++ [Number (row_taxonomy_id df_row)] in
  let row_data := row_data ++ [Text (row_accessions df_row)] in
  item ← py_index protein_data tuple_index;
  let row_data :=
    foldl (add_protein_cell protein_data tuple_index) row_data (seq 0 (item_length item)) in
  Ok (all_rows_data ++ [row_data]).

Definition get_df_foundation_data (df_row : SpeciesRow)
    (genbank_input : string → list (list (list SeqFeature)))
    : result (list (list cell)) :=
  _ ← py_index (characters (row_genus df_row)) 0;
  let accession_list := py_split ", " (row_accessions df_row) in
  result_foldl
    (λ all_rows_data accession,
       protein_data ← get_protein_data accession genbank_input;
       result_foldl (add_protein_row df_row protein_data) all_rows_data
                    (seq 0 (length protein_data)))
    [] accession_list.

(** The cells of a row that come from one item of the protein data. *)
Definition item_cells (item : protein_item) : list string :=
  match item with
  | Field value => characters value
  | Protein protein_data => protein_data
  end.

Definition row_prefix (df_row : SpeciesRow) : list cell :=
  [Text (row_genus df_row); Text (row_species df_row); Number (row_taxonomy_id df_row);
   Text (row_accessions df_row)].

(** The four strings kept for a protein encoding feature, read off the
    feature: the first value of a qualifier, the joined location, ["NA"]
    for what is not there. *)
Definition first_value (feature : SeqFeature) (qualifier : string) : string :=
  match feature_qualifiers feature !! qualifier with
  | Some (value :: _) => value
  | _ => "NA"
  end.

Definition cds_row (feature : SeqFeature) : list string :=
  [first_value feature "protein_id"; first_value feature "locus_tag";
   match location_parts feature with
   | Some parts => String.concat "," parts
   | None => "NA"
   end;
   first_value feature "product"].

(** No qualifier the script reads is there with an empty list of values. *)
Definition values_present (feature : SeqFeature) : Prop :=
  ∀ qualifier, qualifier ∈ ["protein_id"; "locus_tag"; "product"] →
    feature_qualifiers feature !! qualifier ≠ Some [].

(** ** [make_output_directory]

    The output path is missing, with or without the directory it would
    lie in, or it is a directory with some content, or a file. *)
Inductive path_state : Type :=
| NoParent
| Absent
| Directory (content : list string)
| RegularFile.

Inductive os_error : Type :=
| FileNotFoundError
| FileExistsError
| NotADirectoryError.

(** How a call ends: it returns, the program exits, or an exception
    escapes. *)
Inductive ending : Type :=
| Returned
| Exited
| Escaped (e : os_error).

Definition path_exists (st : path_state) : bool :=
  match st with
  | Directory _ | RegularFile => true
  | NoParent | Absent => false
  end.

(** [shutil.rmtree(path)] of a path that exists. *)
Definition rmtree (st : path_state) : os_error + path_state :=
  match st with
  | Directory _ => inr Absent
  | RegularFile => inl NotADirectoryError
  | NoParent | Absent => inl FileNotFoundError
  end.

(** [path.mkdir(exist_ok=True)] *)
Definition mkdir_exist_ok (st : path_state) : os_error + path_state :=
  match st with
  | Absent => inr (Directory [])
  | Directory content => inr (Directory content)
  | RegularFile => inl FileExistsError
  | NoParent => inl FileNotFoundError
  end.

Definition make_directory (force : bool) (st : path_state) : ending * path_state :=
  match mkdir_exist_ok st with
  | inr st' => (Returned, st')
  | inl _ => if force then (Returned, st) else (Exited, st)
  end.

Definition make_output_directory (force nodelete : bool) (st : path_state)
    : ending * path_state :=
  if path_exists st then
    if negb force then (Exited, st)
    else if negb nodelete then
      match rmtree st with
      | inr st' => make_directory force st'
      | inl e => (Escaped e, st)
      end
    else make_directory force st
  else make_directory force st.

(** ** Sample GenBank data *)

Definition sample_cds : SeqFeature :=
  mkFeature "CDS" (Some ["[0:10](+)"; "[20:30](+)"])
            {["protein_id" := ["QBC1.1"]; "product" := ["glycoside hydrolase"]]}.

Definition sample_gene : SeqFeature :=
  mkFeature "gene" (Some ["[0:30](+)"]) {["locus_tag" := ["T1"]]}.

(** A protein encoding feature of which nothing can be read. *)
Definition bare_cds : SeqFeature := mkFeature "CDS" None ∅.

(** A directory that holds one file for [GCA_1.1] and none for anything
    else. *)
Definition sample_genbank (file_stem : string) : list (list (list SeqFeature)) :=
  if decide (file_stem = "GCA_1_1") then [[[sample_gene; sample_cds; bare_cds]]] else [].

Definition sample_species : SpeciesRow :=
  mkSpeciesRow "Trichoderma" "reesei" 51453 "GCA_1.1, NA".

(** * Properties *)

(** ** Generic facts about the loops *)

Ltac result_simpl := cbn [mbind mret result_mbind result_ret result_bind].

Lemma foldl_snoc {A B} (f : B → A) (l : list B) (a : list A) :
  foldl (λ acc x, acc ++ [f x]) a l = a ++ map f l.
Proof.
  revert a. induction l as [|x l IH]; intros a; simpl.
  - by rewrite app_nil_r.
  - by rewrite IH, <- app_assoc.
Qed.

Lemma result_mapM_Ok {A B} (f : A → result B) (l : list A) (k : list B) :
  result_mapM f l = Ok k ↔ Forall2 (λ x y, f x = Ok y) l k.
Proof.
  split.
  - revert k. induction l as [|x l IH]; intros k; simpl.
    + intros [= <-]. constructor.
    + destruct (f x) as [y|e] eqn:Hx; simpl; [|done].
      destruct (result_mapM f l) as [ys|e]; simpl; [|done].
      intros [= <-]. constructor; auto.
  - induction 1 as [|x y l k Hx _ IH]; simpl; [done|].
    by rewrite Hx, IH.
Qed.

Lemma result_mapM_total {A B} (f : A → result B) (g : A → B) (l : list A) :
  Forall (λ x, f x = Ok (g x)) l → result_mapM f l = Ok (map g l).
Proof.
  induction 1 as [|x l Hx _ IH]; simpl; [done|]. by rewrite Hx, IH.
Qed.

(** ** [get_prediction_classifications] *)

Lemma split_space_nonempty s : split_space s ≠ [].
Proof.
  destruct s as [|c s]; simpl; [done|].
  destruct (decide (c = space)); [done|]. by destruct (split_space s).
Qed.

Lemma hd_split_space s : hd EmptyString (split_space s) = before_first_space s.
Proof.
  induction s as [|c s IH]; simpl; [done|].
  destruct (decide (c = space)); [done|].
  destruct (split_space s) as [|field fields] eqn:Hs.
  - by destruct (split_space_nonempty s).
  - simpl in *. by rewrite IH.
Qed.

Lemma before_first_space_prefix s :
  ∃ rest, s = before_first_space s +:+ rest
          ∧ has_space (before_first_space s) = false
          ∧ (rest = EmptyString ∨ ∃ r, rest = String space r).
Proof.
  induction s as [|c s (rest & Hs & Hno & Hrest)]; simpl.
  - exists EmptyString. auto.
  - destruct (decide (c = space)) as [->|Hc].
    + exists (String space s). simpl. eauto.
    + exists rest. simpl. rewrite Hno, bool_decide_eq_false_2 by done.
      split; [|auto].
      change (String c s = String c (before_first_space s +:+ rest)). by rewrite <- Hs.
Qed.

(** C10. The accession stored for eCAMI and CUPP is the text of
    [protein_accession] before its first space (no space in it, and what
    follows it is nothing or starts with a space); for every other tool it
    is [protein_accession] itself. Either way the accumulator comes back
    extended, in order, by one [[accession, tool, classification]] entry
    per prediction. *)
Theorem get_prediction_classifications_spec
    (tool_predictions : list CazymeProteinPrediction) (prediction_tool : string)
    (classifications : list classification) :
  get_prediction_classifications tool_predictions prediction_tool classifications
  = classifications
      ++ map (λ p, (stored_accession prediction_tool p, prediction_tool,
                    cazyme_classification p)) tool_predictions
  ∧ length (get_prediction_classifications tool_predictions prediction_tool classifications)
    = length classifications + length tool_predictions
  ∧ Forall (λ p,
      if bool_decide (prediction_tool = "eCAMI" ∨ prediction_tool = "CUPP")
      then ∃ rest,
             protein_accession p = stored_accession prediction_tool p +:+ rest
             ∧ has_space (stored_accession prediction_tool p) = false
             ∧ (rest = EmptyString ∨ ∃ r, rest = String space r)
      else stored_accession prediction_tool p = protein_accession p) tool_predictions.
Proof.
  assert (get_prediction_classifications tool_predictions prediction_tool classifications
    = classifications
      ++ map (λ p, (stored_accession prediction_tool p, prediction_tool,
                    cazyme_classification p)) tool_predictions) as Heq.
  { unfold get_prediction_classifications, stored_accession.
    destruct (decide (prediction_tool = "eCAMI" ∨ prediction_tool = "CUPP")) as [Ht|Ht].
    - rewrite (bool_decide_eq_true_2 _ Ht).
      replace (bool_decide (prediction_tool = "eCAMI") || bool_decide (prediction_tool = "CUPP"))
        with true by (destruct Ht as [->| ->]; done).
      rewrite (foldl_snoc (λ p, (hd EmptyString (split_space (protein_accession p)),
                                 prediction_tool, cazyme_classification p))).
      f_equal. apply map_ext. intros p. by rewrite hd_split_space.
    - rewrite (bool_decide_eq_false_2 _ Ht).
      rewrite !bool_decide_eq_false_2 by tauto. simpl.
      by rewrite (foldl_snoc (λ p, (protein_accession p, prediction_tool,
                                    cazyme_classification p))). }
  split; [done|]. split.
  - rewrite Heq, length_app, length_map. done.
  - apply Forall_forall. intros p _. unfold stored_accession.
    destruct (bool_decide (prediction_tool = "eCAMI" ∨ prediction_tool = "CUPP")); [|done].
    apply before_first_space_prefix.
Qed.

Example get_prediction_classifications_ecami :
  get_prediction_classifications
    [mkPrediction "WP_1.1 hypothetical protein" true; mkPrediction " x" false]
    "eCAMI" [("A", "dbCAN", true)]
  = [("A", "dbCAN", true); ("WP_1.1", "eCAMI", true); ("", "eCAMI", false)].
Proof. reflexivity. Qed.

Example get_prediction_classifications_hmmer :
  get_prediction_classifications [mkPrediction "WP_1.1 hypothetical protein" true] "HMMER" []
  = [("WP_1.1 hypothetical protein", "HMMER", true)].
Proof. reflexivity. Qed.

(** ** Data frames and [retrieve_ground_truths] *)

Lemma assoc_get_set_eq {V} (k : string) (v : V) (d : list (string * V)) :
  assoc_get k (assoc_set k v d) = Some v.
Proof.
  induction d as [|[k' v'] d IH]; simpl.
  - by rewrite decide_True.
  - destruct (decide (k = k')) as [->|Hk]; simpl.
    + by rewrite decide_True.
    + by rewrite decide_False.
Qed.

Lemma assoc_get_set_ne {V} (k k0 : string) (v : V) (d : list (string * V)) :
  k0 ≠ k → assoc_get k0 (assoc_set k v d) = assoc_get k0 d.
Proof.
  intros Hne. induction d as [|[k' v'] d IH]; simpl.
  - by rewrite decide_False.
  - destruct (decide (k = k')) as [->|Hk]; simpl.
    + by rewrite !decide_False.
    + by rewrite IH.
Qed.

Lemma ground_truth_true {V} (cazy_dict : gmap string V) (accession : string) :
  ground_truth cazy_dict accession = true ↔ is_Some (cazy_dict !! accession).
Proof.
  unfold ground_truth, py_getitem.
  destruct (cazy_dict !! accession) as [v|]; split; try done; eauto.
Qed.

Lemma retrieve_ground_truths_Ok {V} (classifications_df : DataFrame)
    (cazy_dict : gmap string V) :
  retrieve_ground_truths classifications_df cazy_dict
  = Ok (mkDataFrame (df_index classifications_df)
          (assoc_set "CAZy" (map (ground_truth cazy_dict) (df_index classifications_df))
                     (df_columns classifications_df))).
Proof.
  unfold retrieve_ground_truths, set_column.
  rewrite (foldl_snoc (ground_truth cazy_dict)). simpl.
  by rewrite decide_True by apply length_map.
Qed.

(** C2. The ground truth written into the CAZy column for a row is 1
    exactly when the row's accession is a key of the ground-truth
    dictionary and 0 exactly when it is not, whatever the prediction columns
    of the frame hold and whatever families the dictionary maps to. *)
Theorem retrieve_ground_truths_spec {V} (classifications_df : DataFrame)
    (cazy_dict : gmap string V) (i : nat) (accession : string) :
  df_index classifications_df !! i = Some accession →
  ∃ df' cazy b,
    retrieve_ground_truths classifications_df cazy_dict = Ok df'
    ∧ df_index df' = df_index classifications_df
    ∧ get_column "CAZy" df' = Ok cazy
    ∧ length cazy = length (df_index classifications_df)
    ∧ cazy !! i = Some b
    ∧ (b = true ↔ is_Some (cazy_dict !! accession))
    ∧ (b = false ↔ cazy_dict !! accession = None).
Proof.
  intros Hi. eexists _, _, (ground_truth cazy_dict accession).
  split; [apply retrieve_ground_truths_Ok|]. split; [done|].
  unfold get_column. simpl. rewrite assoc_get_set_eq.
  split; [done|]. split; [apply length_map|].
  split; [by rewrite list_lookup_fmap, Hi|].
  split; [apply ground_truth_true|].
  rewrite <- not_true_iff_false, ground_truth_true, <- eq_None_not_Some. done.
Qed.

Lemma retrieve_ground_truths_spec_witness :
  ∃ df' cazy b,
    retrieve_ground_truths
      (mkDataFrame ["A"; "B"] [("dbCAN", [false; true])])
      ({["A" := ["GH1"]]} : gmap string (list string)) = Ok df'
    ∧ df_index df' = ["A"; "B"]
    ∧ get_column "CAZy" df' = Ok cazy
    ∧ length cazy = 2
    ∧ cazy !! 1 = Some b
    ∧ (b = true ↔ is_Some (({["A" := ["GH1"]]} : gmap string (list string)) !! "B"))
    ∧ (b = false ↔ ({["A" := ["GH1"]]} : gmap string (list string)) !! "B" = None).
Proof.
  apply (retrieve_ground_truths_spec
           (mkDataFrame ["A"; "B"] [("dbCAN", [false; true])])
           ({["A" := ["GH1"]]} : gmap string (list string)) 1 "B").
  reflexivity.
Defined.

Example retrieve_ground_truths_example :
  retrieve_ground_truths
    (mkDataFrame ["A"; "B"] [("dbCAN", [false; true])])
    ({["A" := ["GH1"]]} : gmap string (list string))
  = Ok (mkDataFrame ["A"; "B"] [("dbCAN", [false; true]); ("CAZy", [true; false])]).
Proof. vm_compute. reflexivity. Qed.

(** ** Confusion matrices *)

Lemma count_pairs_total (l : list (bool * bool)) :
  length (filter (λ tp : bool * bool, tp = (false, false)) l)
  + length (filter (λ tp : bool * bool, tp = (false, true)) l)
  + length (filter (λ tp : bool * bool, tp = (true, false)) l)
  + length (filter (λ tp : bool * bool, tp = (true, true)) l)
  = length l.
Proof.
  induction l as [|[[] []] l IH]; [done|..];
    rewrite !filter_cons; simpl;
    repeat (first [rewrite decide_True by done | rewrite decide_False by done]);
    simpl; lia.
Qed.

Lemma count_pairs_sum (y_true y_pred : list bool) :
  length y_true = length y_pred →
  count_pairs false false y_true y_pred + count_pairs false true y_true y_pred
  + count_pairs true false y_true y_pred + count_pairs true true y_true y_pred
  = length y_true.
Proof.
  intros Hlen. unfold count_pairs. rewrite count_pairs_total.
  rewrite length_zip_with. lia.
Qed.

Lemma unique_labels_both (y_true y_pred : list bool) :
  false ∈ y_true ++ y_pred → true ∈ y_true ++ y_pred →
  unique_labels y_true y_pred = [false; true].
Proof.
  intros Hf Ht. unfold unique_labels.
  rewrite filter_cons, decide_True by done.
  rewrite filter_cons, decide_True by done. done.
Qed.

Lemma unique_labels_single (b : bool) (y_true y_pred : list bool) :
  Forall (λ x, x = b) (y_true ++ y_pred) →
  unique_labels y_true y_pred = [] ∨ unique_labels y_true y_pred = [b].
Proof.
  intros Hall. unfold unique_labels.
  assert (negb b ∉ y_true ++ y_pred) as Hnot.
  { intros Hin. rewrite Forall_forall in Hall. apply Hall in Hin. by destruct b. }
  destruct b; simpl in Hnot.
  - rewrite filter_cons, decide_False by done.
    rewrite filter_cons. destruct (decide (true ∈ y_true ++ y_pred)); auto.
  - rewrite filter_cons. destruct (decide (false ∈ y_true ++ y_pred)).
    + rewrite filter_cons, decide_False by done. auto.
    + rewrite filter_cons, decide_False by done. auto.
Qed.

Lemma confusion_matrix_both (y_true y_pred : list bool) :
  length y_true = length y_pred →
  false ∈ y_true ++ y_pred → true ∈ y_true ++ y_pred →
  confusion_matrix y_true y_pred
  = Ok [[count_pairs false false y_true y_pred; count_pairs false true y_true y_pred];
        [count_pairs true false y_true y_pred; count_pairs true true y_true y_pred]].
Proof.
  intros Hlen Hf Ht. unfold confusion_matrix.
  rewrite decide_True by done. by rewrite unique_labels_both.
Qed.

(** With a single label in both arrays the matrix is 1×1 (0×0 for empty
    arrays) and [cm[1][0]] (resp. [cm[0][0]]) is out of bounds. *)
Lemma calc_acc_single_label (b : bool) (y_true y_pred : list bool) :
  length y_true = length y_pred →
  Forall (λ x, x = b) (y_true ++ y_pred) →
  calc_acc y_true y_pred = Raise IndexError.
Proof.
  intros Hlen Hall. unfold calc_acc, confusion_matrix.
  rewrite decide_True by done.
  destruct (unique_labels_single b y_true y_pred Hall) as [-> | ->]; done.
Qed.

Lemma Zpos_of_nat (n : nat) : 0 < n → Z.pos (Pos.of_nat n) = Z.of_nat n.
Proof.
  intros Hn. rewrite <- (Nat2Pos.id n) at 2 by lia. by rewrite positive_nat_Z.
Qed.

Lemma np_true_divide_unit (a b : nat) :
  a ≤ b → 0 < b → npfloat_in_unit (np_true_divide a b).
Proof.
  intros Hab Hb. destruct b as [|b]; [lia|]. simpl. split.
  - unfold Qle. simpl. lia.
  - unfold Qle. cbn [Qnum Qden]. rewrite Zpos_of_nat by lia. lia.
Qed.

(** When both labels occur, accuracy is the fraction of matching rows. *)
Lemma calc_acc_both_labels (y_true y_pred : list bool) :
  length y_true = length y_pred →
  false ∈ y_true ++ y_pred → true ∈ y_true ++ y_pred →
  calc_acc y_true y_pred
  = Ok (np_true_divide
          (count_pairs true true y_true y_pred + count_pairs false false y_true y_pred)
          (length y_true))
  ∧ npfloat_in_unit
      (np_true_divide
         (count_pairs true true y_true y_pred + count_pairs false false y_true y_pred)
         (length y_true)).
Proof.
  intros Hlen Hf Ht. pose proof (count_pairs_sum y_true y_pred Hlen) as Hsum. split.
  - unfold calc_acc. rewrite confusion_matrix_both by done. simpl.
    do 2 f_equal. lia.
  - apply np_true_divide_unit; [lia|].
    destruct y_true as [|x y_true]; [|simpl; lia].
    destruct y_pred; [|done]. by apply elem_of_nil in Hf.
Qed.

(** ** [evaluate_binary_classification] *)

Lemma evaluate_tool_both (y_true y_pred : list bool) (classifications_df : DataFrame)
    (genomic_accession tool : string) (summary_lists : list stat_record) :
  get_column tool classifications_df = Ok y_pred →
  length y_true = length y_pred →
  false ∈ y_true ++ y_pred → true ∈ y_true ++ y_pred →
  evaluate_tool y_true classifications_df genomic_accession summary_lists tool
  = Ok (summary_lists ++ tool_statistics y_true y_pred genomic_accession tool).
Proof.
  intros Hcol Hlen Hf Ht. unfold evaluate_tool. rewrite Hcol. simpl.
  rewrite confusion_matrix_both by done. simpl.
  unfold recall_score, precision_score, f1_score.
  rewrite !decide_True by done. simpl.
  rewrite <- !app_assoc. simpl. unfold tool_statistics. repeat f_equal.
Qed.

Lemma evaluate_tools_Ok (y_true : list bool) (columns : string → list bool)
    (classifications_df : DataFrame) (genomic_accession : string)
    (tools : list string) (summary_lists : list stat_record) :
  (∀ tool, tool ∈ tools →
     get_column tool classifications_df = Ok (columns tool)
     ∧ length y_true = length (columns tool)
     ∧ false ∈ y_true ++ columns tool
     ∧ true ∈ y_true ++ columns tool) →
  result_foldl (evaluate_tool y_true classifications_df genomic_accession)
               summary_lists tools
  = Ok (summary_lists
          ++ concat (map (λ tool, tool_statistics y_true (columns tool)
                                    genomic_accession tool) tools)).
Proof.
  revert summary_lists. induction tools as [|tool tools IH]; intros summary_lists Hall; simpl.
  - by rewrite app_nil_r.
  - destruct (Hall tool) as (Hcol & Hlen & Hf & Ht); [by left|].
    rewrite (evaluate_tool_both y_true (columns tool)) by done. simpl.
    rewrite IH by (intros t Hin; apply Hall; by right).
    by rewrite <- app_assoc.
Qed.

Lemma evaluate_binary_classification_Ok (classifications_df : DataFrame)
    (genomic_accession : string) (y_true : list bool) (columns : string → list bool) :
  evaluable classifications_df y_true columns →
  evaluate_binary_classification classifications_df genomic_accession
  = Ok (concat (map (λ tool, tool_statistics y_true (columns tool) genomic_accession tool)
                    TOOLS)).
Proof.
  intros [Htrue Hall]. unfold evaluate_binary_classification. rewrite Htrue. result_simpl.
  by rewrite (evaluate_tools_Ok y_true columns).
Qed.

Lemma concat_tool_statistics_lookup (y_true : list bool) (columns : string → list bool)
    (genomic_accession : string) (tools : list string) (k j : nat) (tool : string) :
  tools !! k = Some tool → j < 5 →
  concat (map (λ tool, tool_statistics y_true (columns tool) genomic_accession tool) tools)
    !! (5 * k + j)
  = tool_statistics y_true (columns tool) genomic_accession tool !! j.
Proof.
  revert k. induction tools as [|t tools IH]; intros k Hk Hj; [done|].
  destruct k as [|k]; simpl in Hk.
  - injection Hk as ->. cbn [map concat]. rewrite lookup_app_l; [done|]. simpl. lia.
  - cbn [map concat]. rewrite lookup_app_r by (simpl; lia).
    replace (5 * S k + j - length (tool_statistics y_true (columns t) genomic_accession t))
      with (5 * k + j) by (simpl; lia).
    by apply IH.
Qed.

(** Reading of a score against the plain quotient. *)
Lemma prf_divide_defined (a b : nat) : 0 < b → prf_divide a b = np_true_divide a b.
Proof. by destruct b; [lia|]. Qed.

Lemma np_true_divide_pos (a b : nat) :
  0 < b → np_true_divide a b = Finite (Z.of_nat a # Pos.of_nat b).
Proof. by destruct b; [lia|]. Qed.

Lemma Qmake_of_nat (a b : nat) :
  0 < b → (Z.of_nat a # Pos.of_nat b == inject_Z (Z.of_nat a) / inject_Z (Z.of_nat b))%Q.
Proof. intros Hb. rewrite Qmake_Qdiv. by rewrite Zpos_of_nat. Qed.

(** The F1 value scikit-learn reports, 2·TP / (2·TP + FP + FN), is
    2·Precision·Recall / (Precision + Recall) whenever TP is positive. *)
Lemma f1_harmonic_mean (tp fp fn : nat) :
  0 < tp →
  (Z.of_nat (2 * tp) # Pos.of_nat (2 * tp + fp + fn)
   == 2 * (Z.of_nat tp # Pos.of_nat (tp + fp)) * (Z.of_nat tp # Pos.of_nat (tp + fn))
      / ((Z.of_nat tp # Pos.of_nat (tp + fp)) + (Z.of_nat tp # Pos.of_nat (tp + fn))))%Q.
Proof.
  intros Htp. rewrite !Qmake_of_nat by lia.
  rewrite !Nat2Z.inj_add, !Nat2Z.inj_mul, !inject_Z_plus, !inject_Z_mult.
  assert (0 < inject_Z (Z.of_nat tp))%Q as Hp.
  { rewrite <- (Zlt_Qlt 0). lia. }
  assert (0 <= inject_Z (Z.of_nat fp))%Q as Hfp.
  { rewrite <- (Zle_Qle 0). lia. }
  assert (0 <= inject_Z (Z.of_nat fn))%Q as Hfn.
  { rewrite <- (Zle_Qle 0). lia. }
  set (p := inject_Z (Z.of_nat tp)) in *.
  set (x := inject_Z (Z.of_nat fp)) in *.
  set (y := inject_Z (Z.of_nat fn)) in *.
  change (inject_Z (Z.of_nat 2)) with 2%Q.
  field. repeat split; try lra.
  assert (0 < p * (p + y) + p * (p + x))%Q by nra. lra.
Qed.

(** C1. The evaluator is meant to return five records per tool for every
    classification matrix, but it reads a 2×2 confusion matrix that
    scikit-learn only builds when both labels occur: for the one-protein
    test set whose CAZyme every tool recognises, the matrix is [[1]], the
    read of [cm[1][0]] raises and no record is returned. Where both labels
    occur the thirty records and their values are those of
    [evaluate_binary_classification_Ok]. *)
Theorem evaluate_binary_classification_all_positive :
  get_column "CAZy" all_positive_df = Ok [true]
  ∧ Forall (λ tool, get_column tool all_positive_df = Ok [true]) TOOLS
  ∧ confusion_matrix [true] [true] = Ok [[1]]
  ∧ evaluate_binary_classification all_positive_df "GCA_1" = Raise IndexError.
Proof.
  split; [reflexivity|]. split; [by repeat constructor|]. split; reflexivity.
Qed.

(** C4. Accuracy is meant to be defined on every non-empty 0/1 sample,
    but [calc_acc] raises on a sample that shows a single label in both
    columns: its confusion matrix is 1×1. A bootstrap resample can be such
    a sample although the source array is not: the generator that always
    draws row 0 turns [[(1, 1); (0, 1)]] into two copies of [(1, 1)]. *)
Theorem calc_acc_single_label_raises :
  calc_acc [true] [true] = Raise IndexError
  ∧ calc_acc [false; false] [false; false] = Raise IndexError
  ∧ @resample constant_source _ [(true, true); (false, true)] tt
    = Ok ([(true, true); (true, true)], tt)
  ∧ @bootstrap_acc constant_source [(true, true); (false, true)] 1 tt = Raise IndexError.
Proof. repeat split; reflexivity. Qed.

(** X4. Away from the single-label case: on a frame whose every tool column
    shows both labels together with the CAZy column, the evaluator returns
    thirty records, five per tool in the order Specificity, Recall,
    Precision, F1-score, Accuracy, each the stated quotient of counts when
    its denominator is positive. *)
Lemma evaluate_binary_classification_formulas (classifications_df : DataFrame)
    (genomic_accession : string) (y_true : list bool) (columns : string → list bool)
    (k : nat) (tool : string) :
  evaluable classifications_df y_true columns →
  TOOLS !! k = Some tool →
  let tn := count_pairs false false y_true (columns tool) in
  let fp := count_pairs false true y_true (columns tool) in
  let fn := count_pairs true false y_true (columns tool) in
  let tp := count_pairs true true y_true (columns tool) in
  ∃ records specificity recall precision f1 accuracy,
    evaluate_binary_classification classifications_df genomic_accession = Ok records
    ∧ length records = 30
    ∧ records !! (5 * k) = Some ("Specificity", genomic_accession, tool, specificity)
    ∧ records !! (5 * k + 1) = Some ("Recall", genomic_accession, tool, recall)
    ∧ records !! (5 * k + 2) = Some ("Precision", genomic_accession, tool, precision)
    ∧ records !! (5 * k + 3) = Some ("F1-score", genomic_accession, tool, f1)
    ∧ records !! (5 * k + 4) = Some ("Accuracy", genomic_accession, tool, accuracy)
    ∧ (0 < tn + fp → specificity = Finite (Z.of_nat tn # Pos.of_nat (tn + fp)))
    ∧ (0 < tp + fn → recall = Finite (Z.of_nat tp # Pos.of_nat (tp + fn)))
    ∧ (0 < tp + fp → precision = Finite (Z.of_nat tp # Pos.of_nat (tp + fp)))
    ∧ (0 < tp →
       ∃ q, f1 = Finite q
            ∧ (q == 2 * (Z.of_nat tp # Pos.of_nat (tp + fp))
                     * (Z.of_nat tp # Pos.of_nat (tp + fn))
                   / ((Z.of_nat tp # Pos.of_nat (tp + fp))
                      + (Z.of_nat tp # Pos.of_nat (tp + fn))))%Q)
    ∧ accuracy = Finite (Z.of_nat (tp + tn) # Pos.of_nat (tp + fp + fn + tn))
    ∧ npfloat_in_unit accuracy.
Proof.
  intros Hev Hk tn fp fn tp.
  pose proof (evaluate_binary_classification_Ok _ genomic_accession _ _ Hev) as Hrun.
  destruct Hev as [Htrue Hall].
  destruct (Hall tool) as (Hcol & Hlen & Hf & Ht); [by eapply list_elem_of_lookup_2|].
  pose proof (count_pairs_sum y_true (columns tool) Hlen) as Hsum.
  assert (0 < length y_true) as Hpos.
  { destruct y_true as [|x y_true]; [|simpl; lia].
    destruct (columns tool); [|done]. by apply elem_of_nil in Hf. }
  fold tn fp fn tp in Hsum.
  eexists _, _, _, _, _, _. split; [exact Hrun|].
  split; [reflexivity|].
  rewrite <- (Nat.add_0_r (5 * k)) at 1.
  rewrite !(concat_tool_statistics_lookup y_true columns genomic_accession TOOLS k _ tool)
    by (done || lia).
  cbn [tool_statistics lookup list_lookup]. fold tn fp fn tp.
  repeat (split; [reflexivity|]).
  split; [by intros; apply np_true_divide_pos|].
  split; [by intros; rewrite prf_divide_defined by done; apply np_true_divide_pos|].
  split; [by intros; rewrite prf_divide_defined by done; apply np_true_divide_pos|].
  split.
  { intros Htp. eexists. split.
    - rewrite prf_divide_defined by lia. apply np_true_divide_pos. lia.
    - by apply f1_harmonic_mean. }
  split.
  - apply np_true_divide_pos. lia.
  - apply np_true_divide_unit; lia.
Qed.

(** C5 (as the code has it). A zero denominator is not detected: on every
    frame the evaluator can work on it still returns all thirty records.
    With TN + FP = 0 the Specificity record of the tool holds NaN; with
    TP + FN = 0, TP + FP = 0 or TP = 0 the Recall, Precision and F1-score
    records hold 0.0. *)
Theorem evaluate_binary_classification_zero_denominator (classifications_df : DataFrame)
    (genomic_accession : string) (y_true : list bool) (columns : string → list bool)
    (k : nat) (tool : string) :
  evaluable classifications_df y_true columns →
  TOOLS !! k = Some tool →
  let tn := count_pairs false false y_true (columns tool) in
  let fp := count_pairs false true y_true (columns tool) in
  let fn := count_pairs true false y_true (columns tool) in
  let tp := count_pairs true true y_true (columns tool) in
  ∃ records,
    evaluate_binary_classification classifications_df genomic_accession = Ok records
    ∧ length records = 30
    ∧ (tn + fp = 0 →
       records !! (5 * k) = Some ("Specificity", genomic_accession, tool, NaN))
    ∧ (tp + fn = 0 →
       records !! (5 * k + 1) = Some ("Recall", genomic_accession, tool, Finite 0))
    ∧ (tp + fp = 0 →
       records !! (5 * k + 2) = Some ("Precision", genomic_accession, tool, Finite 0))
    ∧ (tp = 0 →
       ∃ q, records !! (5 * k + 3) = Some ("F1-score", genomic_accession, tool, Finite q)
            ∧ (q == 0)%Q).
Proof.
  intros Hev Hk tn fp fn tp.
  pose proof (evaluate_binary_classification_Ok _ genomic_accession _ _ Hev) as Hrun.
  eexists. split; [exact Hrun|]. split; [reflexivity|].
  rewrite <- (Nat.add_0_r (5 * k)) at 1.
  rewrite !(concat_tool_statistics_lookup y_true columns genomic_accession TOOLS k _ tool)
    by (done || lia).
  cbn [tool_statistics lookup list_lookup]. fold tn fp fn tp.
  split; [intros E; assert (tn = 0) as -> by lia; by rewrite E|].
  split; [by intros ->|]. split; [by intros ->|].
  intros ->. rewrite Nat.mul_0_r. destruct (0 + fp + fn) eqn:E.
  - by exists 0%Q.
  - eexists. split; [reflexivity|]. reflexivity.
Qed.

Lemma evaluable_no_negatives :
  evaluable no_negatives_df [true; true] (λ _, [false; true]).
Proof.
  split; [reflexivity|]. intros tool Htool.
  split; [|split; [done|split; simpl; repeat constructor]].
  unfold TOOLS in Htool. repeat (apply elem_of_cons in Htool as [->|Htool]; [reflexivity|]).
  by apply elem_of_nil in Htool.
Qed.

Lemma evaluate_binary_classification_zero_denominator_witness :
  ∃ records,
    evaluate_binary_classification no_negatives_df "GCA_1" = Ok records
    ∧ length records = 30
    ∧ (0 + 0 = 0 → records !! (5 * 0) = Some ("Specificity", "GCA_1", "dbCAN", NaN))
    ∧ (1 + 1 = 0 → records !! (5 * 0 + 1) = Some ("Recall", "GCA_1", "dbCAN", Finite 0))
    ∧ (1 + 0 = 0 → records !! (5 * 0 + 2) = Some ("Precision", "GCA_1", "dbCAN", Finite 0))
    ∧ (1 = 0 →
       ∃ q, records !! (5 * 0 + 3) = Some ("F1-score", "GCA_1", "dbCAN", Finite q)
            ∧ (q == 0)%Q).
Proof.
  exact (evaluate_binary_classification_zero_denominator no_negatives_df "GCA_1"
           [true; true] (λ _, [false; true]) 0 "dbCAN"
           evaluable_no_negatives eq_refl).
Defined.

(** C5 as stated fails: the test set without negatives has TN + FP = 0 for
    dbCAN, yet the run returns thirty records and the first of them is
    dbCAN's Specificity, holding NaN. *)
Lemma evaluate_binary_classification_keeps_undefined :
  count_pairs false false [true; true] [false; true]
  + count_pairs false true [true; true] [false; true] = 0
  ∧ ∃ records,
      evaluate_binary_classification no_negatives_df "GCA_1" = Ok records
      ∧ length records = 30
      ∧ records !! 0 = Some ("Specificity", "GCA_1", "dbCAN", NaN)
      ∧ records !! 1 = Some ("Recall", "GCA_1", "dbCAN", Finite (1 # 2)).
Proof.
  split; [reflexivity|]. eexists. split; [reflexivity|]. repeat split.
Qed.

(** ** [build_classification_df]: reading the input *)

Lemma elem_of_first_seen (x : string) (l : list string) : x ∈ first_seen l ↔ x ∈ l.
Proof.
  induction l as [|y l IH]; simpl; [done|].
  rewrite !elem_of_cons, list_elem_of_filter, IH.
  destruct (decide (x = y)); tauto.
Qed.

Lemma first_seen_snoc (l : list string) (x : string) :
  first_seen (l ++ [x]) = first_seen l ++ (if decide (x ∈ l) then [] else [x]).
Proof.
  induction l as [|y l IH]; simpl.
  - done.
  - rewrite IH, filter_app. f_equal. f_equal.
    destruct (decide (x ∈ y :: l)) as [Hin|Hin]; destruct (decide (x ∈ l)) as [Hl|Hl];
      try done.
    + apply elem_of_cons in Hin as [->|?]; [|done].
      rewrite filter_cons, decide_False by tauto. done.
    + destruct Hin. by right.
    + rewrite filter_cons, decide_True; [done|]. intros ->. apply Hin. by left.
Qed.

Lemma assoc_get_None {V} (k : string) (d : list (string * V)) :
  assoc_get k d = None ↔ k ∉ map fst d.
Proof.
  induction d as [|[k' v] d IH]; simpl.
  - split; [intros _; apply not_elem_of_nil|done].
  - rewrite not_elem_of_cons. destruct (decide (k = k')); [split; [done|tauto]|].
    rewrite IH. tauto.
Qed.

Lemma assoc_get_Some_elem {V} (k : string) (v : V) (d : list (string * V)) :
  assoc_get k d = Some v → (k, v) ∈ d.
Proof.
  induction d as [|[k' v'] d IH]; simpl; [done|].
  destruct (decide (k = k')) as [->|Hk].
  - intros [= ->]. by left.
  - intros Hget. right. auto.
Qed.

Lemma assoc_set_keys_present {V} (k : string) (v : V) (d : list (string * V)) :
  k ∈ map fst d → map fst (assoc_set k v d) = map fst d.
Proof.
  induction d as [|[k' v'] d IH]; simpl.
  - intros Hin. by apply elem_of_nil in Hin.
  - destruct (decide (k = k')) as [->|Hk]; simpl; [done|].
    rewrite elem_of_cons. intros [?|Hin]; [done|]. by rewrite IH.
Qed.

Lemma assoc_set_keys_absent {V} (k : string) (v : V) (d : list (string * V)) :
  k ∉ map fst d → map fst (assoc_set k v d) = map fst d ++ [k].
Proof.
  induction d as [|[k' v'] d IH]; simpl; [done|].
  rewrite not_elem_of_cons. intros [Hk Hin].
  rewrite decide_False by done. simpl. by rewrite IH.
Qed.

Lemma predictions_of_snoc (classifications : list classification) (c : classification)
    (protein_accession tool : string) :
  predictions_of (classifications ++ [c]) protein_accession tool
  = predictions_of classifications protein_accession tool
    ++ (if decide (c.1.1 = protein_accession ∧ c.1.2 = tool) then [c.2] else []).
Proof.
  unfold predictions_of. rewrite omap_app. f_equal. simpl.
  by destruct (decide (c.1.1 = protein_accession ∧ c.1.2 = tool)).
Qed.

Lemma predictions_of_unseen (classifications : list classification)
    (protein_accession tool : string) :
  protein_accession ∉ map (λ c : classification, c.1.1) classifications →
  predictions_of classifications protein_accession tool = [].
Proof.
  induction classifications as [|c cs IH]; simpl; [done|].
  rewrite not_elem_of_cons. intros [Hne Hin]. unfold predictions_of in *. simpl.
  rewrite decide_False by (intros [? _]; congruence). auto.
Qed.

Lemma accessions_of_snoc (classifications : list classification) (c : classification) :
  accessions_of (classifications ++ [c])
  = accessions_of classifications
    ++ (if decide (c.1.1 ∈ accessions_of classifications) then [] else [c.1.1]).
Proof.
  unfold accessions_of. rewrite map_app. cbn [map]. rewrite first_seen_snoc. f_equal.
  destruct (decide (c.1.1 ∈ map (λ c0 : classification, c0.1.1) classifications)) as [Hin|Hin];
    destruct (decide (c.1.1 ∈ first_seen (map (λ c0 : classification, c0.1.1) classifications)))
      as [Hs|Hs]; try done; rewrite elem_of_first_seen in Hs; done.
Qed.

Lemma nonempty_snoc {A} (l : list A) (x : A) : nonempty (l ++ [x]) = Some (l ++ [x]).
Proof. by destruct l. Qed.

Lemma nonempty_Some {A} (l k : list A) : nonempty l = Some k → k = l ∧ l ≠ [].
Proof. destruct l; [done|]. by intros [= <-]. Qed.

Lemma add_classification_dict_of (classifications : list classification)
    (c : classification) (classification_dict : list (string * gmap string (list bool))) :
  dict_of classifications classification_dict →
  dict_of (classifications ++ [c]) (add_classification classification_dict c).
Proof.
  intros [Hkeys Hvals]. destruct c as [[a t] b]. unfold add_classification.
  assert (∀ acc tool,
            predictions_of (classifications ++ [(a, t, b)]) acc tool
            = predictions_of classifications acc tool
              ++ (if decide (a = acc ∧ t = tool) then [b] else [])) as Hsnoc.
  { intros acc tool. by rewrite predictions_of_snoc. }
  destruct (assoc_get a classification_dict) as [tools|] eqn:Hget.
  - assert (a ∈ map fst classification_dict) as Hin.
    { destruct (decide (a ∈ map fst classification_dict)) as [|Hn]; [done|].
      apply assoc_get_None in Hn. congruence. }
    assert (map fst (assoc_set a
              (<[t := default [] (tools !! t) ++ [b]]> tools) classification_dict)
            = accessions_of (classifications ++ [(a, t, b)])
            ∧ ∀ acc tools',
                assoc_get acc (assoc_set a
                  (<[t := default [] (tools !! t) ++ [b]]> tools) classification_dict)
                = Some tools' →
                ∀ tool, tools' !! tool
                        = nonempty (predictions_of (classifications ++ [(a, t, b)]) acc tool))
      as Hgoal.
    { split.
      - rewrite assoc_set_keys_present by done. rewrite Hkeys.
        rewrite accessions_of_snoc. cbn [fst].
        rewrite decide_True; [by rewrite app_nil_r|]. by rewrite <- Hkeys.
      - intros acc tools' Hacc tool. rewrite Hsnoc.
        destruct (decide (acc = a)) as [->|Hne].
        + rewrite assoc_get_set_eq in Hacc. injection Hacc as <-.
          specialize (Hvals a tools Hget).
          destruct (decide (t = tool)) as [->|Htool].
          * rewrite lookup_insert_eq, decide_True by done.
            rewrite Hvals. rewrite nonempty_snoc. f_equal. f_equal.
            by destruct (predictions_of classifications a tool).
          * rewrite lookup_insert_ne by done. rewrite decide_False by tauto.
            by rewrite app_nil_r.
        + rewrite assoc_get_set_ne in Hacc by done.
          rewrite decide_False by (intros [? _]; congruence).
          rewrite app_nil_r. by apply Hvals. }
    destruct (tools !! t); exact Hgoal.
  - apply assoc_get_None in Hget. split.
    + rewrite assoc_set_keys_absent by done. rewrite Hkeys.
      rewrite accessions_of_snoc. cbn [fst].
      rewrite decide_False; [done|]. by rewrite <- Hkeys.
    + intros acc tools' Hacc tool. rewrite Hsnoc.
      destruct (decide (acc = a)) as [->|Hne].
      * rewrite assoc_get_set_eq in Hacc. injection Hacc as <-.
        rewrite predictions_of_unseen; [|].
        2:{ unfold accessions_of in Hkeys. rewrite Hkeys in Hget.
            by rewrite elem_of_first_seen in Hget. }
        destruct (decide (t = tool)) as [->|Htool].
        -- by rewrite lookup_insert_eq, decide_True.
        -- rewrite lookup_insert_ne by done. by rewrite decide_False by tauto.
      * rewrite assoc_get_set_ne in Hacc by done.
        rewrite decide_False by (intros [? _]; congruence).
        rewrite app_nil_r. by apply Hvals.
Qed.

Lemma build_classification_dict_of (classifications : list classification) :
  dict_of classifications (build_classification_dict classifications).
Proof.
  induction classifications as [|c cs IH] using rev_ind.
  - split; [done|]. intros acc tools Hget. done.
  - unfold build_classification_dict. rewrite foldl_app. simpl.
    by apply add_classification_dict_of.
Qed.

(** ** [build_classification_df]: writing the rows *)

Lemma result_foldl_snoc_map {A B C} (f : B → result C) (g : C → A) (l : list B)
    (a : list A) :
  result_foldl (λ acc x, y ← f x; Ok (acc ++ [g y])) a l
  = ys ← result_mapM f l; Ok (a ++ map g ys).
Proof.
  revert a. induction l as [|x l IH]; intros a; simpl.
  - by rewrite app_nil_r.
  - destruct (f x) as [y|e]; simpl; [|done].
    rewrite IH. destruct (result_mapM f l) as [ys|e]; simpl; [|done].
    by rewrite <- app_assoc.
Qed.

Lemma result_foldl_concat {A B} (f : B → result (list A)) (step : list A → B → result (list A))
    (l : list B) (a : list A) :
  (∀ acc x, step acc x = ys ← f x; Ok (acc ++ ys)) →
  result_foldl step a l = yss ← result_mapM f l; Ok (a ++ concat yss).
Proof.
  intros Hstep. revert a. induction l as [|x l IH]; intros a; simpl.
  - by rewrite app_nil_r.
  - rewrite Hstep. destruct (f x) as [ys|e]; simpl; [|done].
    rewrite IH. destruct (result_mapM f l) as [yss|e]; simpl; [|done].
    by rewrite <- app_assoc.
Qed.

(** The first element that raises decides a loop. *)
Lemma result_mapM_Raise {A B} (f : A → result B) (l : list A) (e : exn) :
  result_mapM f l = Raise e ↔
  ∃ l1 x l2, l = l1 ++ x :: l2 ∧ Forall (λ y, is_Ok (f y)) l1 ∧ f x = Raise e.
Proof.
  split.
  - induction l as [|x l IH]; simpl; [done|].
    destruct (f x) as [y|e'] eqn:Hx; simpl.
    + destruct (result_mapM f l) as [ys|e'] eqn:Hl; simpl; [done|].
      intros [= ->]. destruct IH as (l1 & x' & l2 & -> & Hok & Hx'); [done|].
      exists (x :: l1), x', l2. split; [done|]. split; [|done].
      constructor; [by exists y|done].
    + intros [= ->]. exists [], x, l. by repeat split.
  - intros (l1 & x & l2 & -> & Hok & Hx).
    induction Hok as [|y l1 [b Hy] _ IH]; simpl.
    + by rewrite Hx.
    + by rewrite Hy, IH.
Qed.

Lemma result_mapM_elem_Raise {A B} (f : A → result B) (l : list A) (x : A) :
  x ∈ l → is_Raise (f x) → is_Raise (result_mapM f l).
Proof.
  intros Hin [e Hx]. induction l as [|y l IH]; [by apply elem_of_nil in Hin|].
  simpl. destruct (f y) as [b|e'] eqn:Hy; simpl; [|by eexists].
  apply elem_of_cons in Hin as [->|Hin]; [congruence|].
  destruct (IH Hin) as [e' ->]. by eexists.
Qed.

Lemma result_foldl_ext {A B} (f g : A → B → result A) (a : A) (l : list B) :
  (∀ a x, f a x = g a x) → result_foldl f a l = result_foldl g a l.
Proof.
  intros Hfg. revert a. induction l as [|x l IH]; intros a; simpl; [done|].
  rewrite Hfg. destruct (g a x); simpl; [apply IH|done].
Qed.

Lemma build_row_eq (tools : gmap string (list bool)) (i : nat) :
  build_row tools i
  = result_mapM (λ tool, classifications ← py_getitem tools tool;
                         py_index classifications i) TOOLS.
Proof.
  unfold build_row.
  rewrite (result_foldl_ext _
             (λ acc x, y ← (classifications ← py_getitem tools x;
                            py_index classifications i); Ok (acc ++ [id y]))).
  - rewrite result_foldl_snoc_map.
    destruct (result_mapM _ TOOLS); simpl; [|done]. by rewrite map_id.
  - intros a x. by destruct (py_getitem tools x).
Qed.

Lemma build_rows_eq (data : list (string * list bool))
    (entry : string * gmap string (list bool)) :
  build_rows data entry = rows ← entry_rows entry; Ok (data ++ rows).
Proof.
  destruct entry as [acc tools]. unfold build_rows, entry_rows. cbn [fst snd].
  destruct (py_getitem tools "dbCAN") as [dbcan|e]; result_simpl; [|done].
  rewrite (result_foldl_ext _
             (λ data i, y ← (new_data ← build_row tools i; Ok (acc, new_data));
                        Ok (data ++ [id y]))).
  - rewrite result_foldl_snoc_map.
    destruct (result_mapM _ (seq 0 (length dbcan))); simpl; [|done]. by rewrite map_id.
  - intros a x. by destruct (build_row tools x).
Qed.

Lemma build_data_eq (classification_dict : list (string * gmap string (list bool))) :
  build_data classification_dict
  = rows ← result_mapM entry_rows classification_dict; Ok (concat rows).
Proof.
  unfold build_data.
  by rewrite (result_foldl_concat entry_rows build_rows _ [] build_rows_eq).
Qed.

(** The values of occurrence [i] of an accession whose lists are [lists]. *)
Lemma build_row_Ok (tools : gmap string (list bool)) (i : nat) :
  (∀ tool, tool ∈ TOOLS → ∃ l, tools !! tool = Some l ∧ i < length l) →
  build_row tools i = Ok (map (λ tool, default [] (tools !! tool) !!! i) TOOLS).
Proof.
  intros Hall. rewrite build_row_eq. apply result_mapM_total.
  apply Forall_forall. intros tool Htool.
  destruct (Hall tool Htool) as (l & Hl & Hi).
  unfold py_getitem, py_index. rewrite Hl. simpl.
  destruct (lookup_lt_is_Some_2 l i Hi) as [b Hb]. rewrite Hb.
  by rewrite (list_lookup_total_correct _ _ _ Hb).
Qed.

Lemma entry_rows_Ok (protein_accession : string) (tools : gmap string (list bool))
    (dbcan : list bool) :
  tools !! "dbCAN" = Some dbcan →
  (∀ tool, tool ∈ TOOLS → ∃ l, tools !! tool = Some l ∧ length dbcan ≤ length l) →
  entry_rows (protein_accession, tools)
  = Ok (map (λ i, (protein_accession,
                   map (λ tool, default [] (tools !! tool) !!! i) TOOLS))
            (seq 0 (length dbcan))).
Proof.
  intros Hdb Hall. unfold entry_rows, py_getitem. cbn [fst snd]. rewrite Hdb. result_simpl.
  apply result_mapM_total. apply Forall_forall. intros i Hi.
  apply elem_of_seq in Hi. rewrite build_row_Ok; [reflexivity|].
  intros tool Htool. destruct (Hall tool Htool) as (l & Hl & Hlen).
  exists l. split; [done|lia].
Qed.

(** A tool without a key raises [KeyError] on the first occurrence, before
    any index can run out. *)
Lemma build_row_Raise (tools : gmap string (list bool)) (i : nat) (e : exn) :
  build_row tools i = Raise e →
  (∃ tool, tool ∈ TOOLS ∧ tools !! tool = None ∧ e = KeyError tool)
  ∨ (∃ tool l, tool ∈ TOOLS ∧ tools !! tool = Some l ∧ length l ≤ i ∧ e = IndexError).
Proof.
  rewrite build_row_eq. intros Hr.
  apply result_mapM_Raise in Hr as (l1 & tool & l2 & Htools & _ & Hx).
  assert (tool ∈ TOOLS) as Hin.
  { rewrite Htools. apply elem_of_app. right. by left. }
  unfold py_getitem, py_index in Hx.
  destruct (tools !! tool) as [l|] eqn:Hl; simpl in Hx.
  - right. exists tool, l. destruct (l !! i) eqn:Hi; [done|].
    apply lookup_ge_None in Hi. injection Hx as <-. done.
  - left. exists tool. injection Hx as <-. done.
Qed.


Lemma TOOLS_dbCAN : "dbCAN" ∈ TOOLS.
Proof. by left. Qed.

Lemma entry_rows_Raise (protein_accession : string) (tools : gmap string (list bool))
    (e : exn) :
  entry_rows (protein_accession, tools) = Raise e →
  (∃ tool, tool ∈ TOOLS ∧ tools !! tool = None ∧ e = KeyError tool)
  ∨ (e = IndexError
     ∧ ∃ tool l dbcan, tool ∈ TOOLS ∧ tools !! tool = Some l
                       ∧ tools !! "dbCAN" = Some dbcan ∧ length l < length dbcan).
Proof.
  unfold entry_rows, py_getitem. cbn [fst snd].
  destruct (tools !! "dbCAN") as [dbcan|] eqn:Hdb; result_simpl.
  - intros Hr. apply result_mapM_Raise in Hr as (l1 & i & l2 & Hseq & _ & Hi).
    assert (i < length dbcan) as Hlt.
    { assert (i ∈ seq 0 (length dbcan)) as Hin
        by (rewrite Hseq; apply elem_of_app; right; by left).
      apply elem_of_seq in Hin. lia. }
    destruct (build_row tools i) as [row|e'] eqn:Hrow; [done|].
    injection Hi as ->.
    apply build_row_Raise in Hrow as [(tool & ? & ? & ?)|(tool & l & ? & ? & ? & ?)].
    + left. by exists tool.
    + right. split; [done|]. exists tool, l, dbcan. repeat split; [done..|lia].
  - intros [= <-]. left. exists "dbCAN". split; [apply TOOLS_dbCAN|done].
Qed.

Lemma build_row_missing (tools : gmap string (list bool)) (i : nat) (tool : string) :
  tool ∈ TOOLS → default [] (tools !! tool) !! i = None → is_Raise (build_row tools i).
Proof.
  intros Htool Hnone. rewrite build_row_eq.
  apply (result_mapM_elem_Raise _ _ tool Htool).
  unfold py_getitem, py_index.
  destruct (tools !! tool) as [l|]; simpl in *; [|by eexists].
  rewrite Hnone. by eexists.
Qed.

(** An accession some tool of which has fewer classifications than dbCAN
    (none at all included) cannot be written. *)
Lemma entry_rows_short (protein_accession : string) (tools : gmap string (list bool))
    (tool : string) (dbcan : list bool) :
  tool ∈ TOOLS → tools !! "dbCAN" = Some dbcan →
  length (default [] (tools !! tool)) < length dbcan →
  is_Raise (entry_rows (protein_accession, tools)).
Proof.
  intros Htool Hdb Hlen. unfold entry_rows, py_getitem. cbn [fst snd].
  rewrite Hdb. result_simpl.
  apply (result_mapM_elem_Raise _ _ (length (default [] (tools !! tool)))).
  - apply elem_of_seq. lia.
  - destruct (build_row_missing tools (length (default [] (tools !! tool))) tool Htool)
      as [e He].
    + by apply lookup_ge_None.
    + rewrite He. by eexists.
Qed.

Lemma build_data_Raise (classification_dict : list (string * gmap string (list bool)))
    (e : exn) :
  build_data classification_dict = Raise e →
  ∃ entry, entry ∈ classification_dict ∧ entry_rows entry = Raise e.
Proof.
  rewrite build_data_eq.
  destruct (result_mapM entry_rows classification_dict) as [rows|e'] eqn:Hr; [done|].
  intros [= ->]. apply result_mapM_Raise in Hr as (l1 & entry & l2 & -> & _ & He).
  exists entry. split; [|done]. apply elem_of_app. right. by left.
Qed.

Lemma build_data_elem_Raise (classification_dict : list (string * gmap string (list bool)))
    (entry : string * gmap string (list bool)) :
  entry ∈ classification_dict → is_Raise (entry_rows entry) →
  is_Raise (build_data classification_dict).
Proof.
  intros Hin Hr. rewrite build_data_eq.
  destruct (result_mapM_elem_Raise entry_rows _ entry Hin Hr) as [e ->]. by eexists.
Qed.

Lemma NoDup_first_seen (l : list string) : NoDup (first_seen l).
Proof.
  induction l as [|x l IH]; simpl; [constructor|].
  constructor; [|by apply NoDup_filter].
  rewrite list_elem_of_filter. tauto.
Qed.

Lemma assoc_get_elem {V} (k : string) (v : V) (d : list (string * V)) :
  NoDup (map fst d) → (k, v) ∈ d → assoc_get k d = Some v.
Proof.
  induction d as [|[k' v'] d IH]; simpl.
  - intros _ Hin. by apply elem_of_nil in Hin.
  - rewrite NoDup_cons. intros [Hk' Hnd]. rewrite elem_of_cons. intros [[= -> ->]|Hin].
    + by rewrite decide_True.
    + rewrite decide_False; [auto|]. intros ->. apply Hk'.
      apply list_elem_of_fmap. by exists (k', v).
Qed.

Lemma assoc_get_is_Some {V} (k : string) (d : list (string * V)) :
  k ∈ map fst d → ∃ v, assoc_get k d = Some v.
Proof.
  intros Hin. destruct (assoc_get k d) as [v|] eqn:Hget; [by exists v|].
  by apply assoc_get_None in Hget.
Qed.

(** What the dictionary holds for an accession of the input. *)
Lemma dict_of_entry (classifications : list classification)
    (classification_dict : list (string * gmap string (list bool)))
    (protein_accession : string) (tools : gmap string (list bool)) :
  dict_of classifications classification_dict →
  (protein_accession, tools) ∈ classification_dict →
  protein_accession ∈ accessions_of classifications
  ∧ ∀ tool, default [] (tools !! tool)
            = predictions_of classifications protein_accession tool.
Proof.
  intros [Hkeys Hvals] Hin. split.
  - rewrite <- Hkeys. apply list_elem_of_fmap. by exists (protein_accession, tools).
  - intros tool. rewrite (Hvals protein_accession tools).
    + by destruct (predictions_of classifications protein_accession tool).
    + apply assoc_get_elem; [|done]. rewrite Hkeys. apply NoDup_first_seen.
Qed.

Lemma dict_of_lookup (classifications : list classification)
    (classification_dict : list (string * gmap string (list bool)))
    (protein_accession : string) :
  dict_of classifications classification_dict →
  protein_accession ∈ accessions_of classifications →
  ∃ tools, (protein_accession, tools) ∈ classification_dict
           ∧ ∀ tool, tools !! tool
                     = nonempty (predictions_of classifications protein_accession tool).
Proof.
  intros [Hkeys Hvals] Hin. rewrite <- Hkeys in Hin.
  destruct (assoc_get_is_Some _ _ Hin) as [tools Hget].
  exists tools. split; [by apply assoc_get_Some_elem|]. by apply Hvals.
Qed.

(** ** [build_classification_df]: the frame of an aligned input *)

Lemma lookup_total_seq_take {A} `{Inhabited A} (l : list A) (n : nat) :
  n ≤ length l → map (λ i, l !!! i) (seq 0 n) = take n l.
Proof.
  induction n as [|n IH]; intros Hn; [done|].
  rewrite seq_S, map_app, IH by lia. simpl.
  destruct (lookup_lt_is_Some_2 l n) as [x Hx]; [lia|].
  by rewrite (take_S_r _ _ _ Hx), (list_lookup_total_correct _ _ _ Hx).
Qed.

Lemma build_data_aligned (classifications : list classification) :
  aligned classifications →
  build_data (build_classification_dict classifications)
  = Ok (expected_data classifications).
Proof.
  intros Hal. pose proof (build_classification_dict_of classifications) as Hd.
  rewrite build_data_eq.
  rewrite (result_mapM_total _ (λ entry, accession_rows classifications entry.1)).
  - result_simpl. unfold expected_data. destruct Hd as [<- _].
    by rewrite <- list_fmap_compose.
  - apply Forall_forall. intros [acc tools] Hin.
    destruct (dict_of_entry _ _ _ _ Hd Hin) as [Hacc Hvals].
    destruct (dict_of_lookup _ _ _ Hd Hacc) as (tools' & Hin' & Hlook).
    assert (tools' = tools) as ->.
    { destruct Hd as [Hkeys _].
      pose proof (NoDup_first_seen (map (λ c : classification, c.1.1) classifications)) as Hnd.
      fold (accessions_of classifications) in Hnd. rewrite <- Hkeys in Hnd.
      pose proof (assoc_get_elem _ _ _ Hnd Hin). pose proof (assoc_get_elem _ _ _ Hnd Hin').
      congruence. }
    assert (∀ tool, tool ∈ TOOLS →
              tools !! tool = Some (predictions_of classifications acc tool)) as Hsome.
    { intros tool Htool. rewrite Hlook.
      destruct (Hal acc Hacc tool Htool) as [H1 H2].
      destruct (predictions_of classifications acc tool); [simpl in H2; lia|done]. }
    rewrite (entry_rows_Ok acc tools (predictions_of classifications acc "dbCAN")).
    + f_equal. unfold accession_rows, occurrences. cbn [fst].
      apply map_ext. intros i. f_equal. apply map_ext_in. intros tool Htool.
      by rewrite Hvals.
    + apply Hsome, TOOLS_dbCAN.
    + intros tool Htool. exists (predictions_of classifications acc tool).
      split; [by apply Hsome|]. by apply Hal.
Qed.

Lemma frame_column_Ok (data : list (string * list bool)) (j : nat) :
  Forall (λ row : string * list bool, j < length row.2) data →
  frame_column data j = Ok (map (λ row : string * list bool, row.2 !!! j) data).
Proof.
  intros Hall. apply result_mapM_total.
  eapply Forall_impl; [exact Hall|]. intros row Hj. simpl in *.
  destruct (lookup_lt_is_Some_2 _ _ Hj) as [b Hb].
  by rewrite Hb, (list_lookup_total_correct _ _ _ Hb).
Qed.

Lemma expected_data_width (classifications : list classification) (j : nat) :
  j < 6 →
  Forall (λ row : string * list bool, j < length row.2) (expected_data classifications).
Proof.
  intros Hj. unfold expected_data. apply Forall_concat, Forall_map.
  apply Forall_forall. intros acc _. unfold accession_rows. apply Forall_map.
  apply Forall_forall. intros i _. simpl. lia.
Qed.

Lemma expected_data_column (classifications : list classification) (j : nat)
    (tool : string) :
  aligned classifications → TOOLS !! j = Some tool →
  map (λ row : string * list bool, row.2 !!! j) (expected_data classifications)
  = expected_column classifications tool.
Proof.
  intros Hal Hj. unfold expected_data, expected_column.
  rewrite concat_map, map_map. f_equal. apply map_ext_in. intros acc Hacc.
  apply list_elem_of_In in Hacc. unfold accession_rows. rewrite map_map. cbn [snd].
  rewrite <- (lookup_total_seq_take (predictions_of classifications acc tool)).
  - apply map_ext. intros i.
    apply list_lookup_total_correct. rewrite list_lookup_fmap, Hj. done.
  - apply Hal; [done|]. by eapply list_elem_of_lookup_2.
Qed.

Lemma expected_data_index (classifications : list classification) :
  map fst (expected_data classifications) = expected_index classifications.
Proof.
  unfold expected_data, expected_index.
  rewrite concat_map, map_map. f_equal. apply map_ext. intros acc.
  unfold accession_rows. rewrite map_map. cbn [fst].
  generalize (occurrences classifications acc). intros n.
  generalize 0. induction n as [|n IH]; intros start; simpl; [done|]. by rewrite IH.
Qed.

Lemma frame_of_expected_data (classifications : list classification) :
  aligned classifications →
  frame_of_data (expected_data classifications)
  = Ok (mkDataFrame (expected_index classifications)
          (map (λ tool, (tool, expected_column classifications tool)) TOOLS)).
Proof.
  intros Hal. unfold frame_of_data.
  change (imap (λ j tool, (j, tool)) TOOLS)
    with [(0, "dbCAN"); (1, "HMMER"); (2, "Hotpep"); (3, "DIAMOND"); (4, "CUPP");
          (5, "eCAMI")].
  cbn [result_mapM fst snd].
  assert (∀ j tool, TOOLS !! j = Some tool →
            frame_column (expected_data classifications) j
            = Ok (expected_column classifications tool)) as Hcol.
  { intros j tool Hj. rewrite frame_column_Ok.
    - by rewrite (expected_data_column classifications j tool).
    - apply expected_data_width. apply lookup_lt_Some in Hj. simpl in Hj. lia. }
  rewrite (Hcol 0 "dbCAN") by reflexivity. result_simpl.
  rewrite (Hcol 1 "HMMER") by reflexivity. result_simpl.
  rewrite (Hcol 2 "Hotpep") by reflexivity. result_simpl.
  rewrite (Hcol 3 "DIAMOND") by reflexivity. result_simpl.
  rewrite (Hcol 4 "CUPP") by reflexivity. result_simpl.
  rewrite (Hcol 5 "eCAMI") by reflexivity. result_simpl.
  by rewrite expected_data_index.
Qed.

(** The frame of an aligned input. *)
Lemma build_classification_df_aligned (classifications : list classification) :
  aligned classifications →
  build_classification_df classifications
  = Ok (mkDataFrame (expected_index classifications)
          (map (λ tool, (tool, expected_column classifications tool)) TOOLS)).
Proof.
  intros Hal. unfold build_classification_df.
  rewrite build_data_aligned by done. result_simpl.
  by apply frame_of_expected_data.
Qed.

(** An input that is not aligned raises, with [KeyError] on a tool that
    has no classification for some accession or [IndexError] on an
    accession for which some tool has fewer classifications than dbCAN. *)
Lemma build_classification_df_Raise (classifications : list classification) (e : exn) :
  build_classification_df classifications = Raise e →
  (∃ protein_accession tool,
     protein_accession ∈ accessions_of classifications ∧ tool ∈ TOOLS
     ∧ predictions_of classifications protein_accession tool = []
     ∧ e = KeyError tool)
  ∨ (e = IndexError
     ∧ ∃ protein_accession tool,
         protein_accession ∈ accessions_of classifications ∧ tool ∈ TOOLS
         ∧ length (predictions_of classifications protein_accession tool)
           < occurrences classifications protein_accession)
  ∨ (∃ data, build_data (build_classification_dict classifications) = Ok data
             ∧ frame_of_data data = Raise e).
Proof.
  intros Hr. pose proof (build_classification_dict_of classifications) as Hd.
  unfold build_classification_df in Hr.
  destruct (build_data (build_classification_dict classifications)) as [data|e'] eqn:Hdata.
  { right. right. by exists data. }
  injection Hr as ->. apply build_data_Raise in Hdata as ([acc tools] & Hin & He).
  destruct (dict_of_entry _ _ _ _ Hd Hin) as [Hacc Hvals].
  apply entry_rows_Raise in He
    as [(tool & Htool & Hnone & ->)|(-> & tool & l & dbcan & Htool & Hl & Hdb & Hlt)].
  - left. exists acc, tool. repeat split; [done..|].
    by rewrite <- Hvals, Hnone.
  - right. left. split; [done|]. exists acc, tool. repeat split; [done..|].
    unfold occurrences. by rewrite <- !Hvals, Hl, Hdb.
Qed.

Lemma build_classification_df_entry_Raise (classifications : list classification)
    (protein_accession : string) (tools : gmap string (list bool)) :
  (protein_accession, tools) ∈ build_classification_dict classifications →
  is_Raise (entry_rows (protein_accession, tools)) →
  ∃ e, build_classification_df classifications = Raise e
       ∧ ((∃ protein_accession tool,
             protein_accession ∈ accessions_of classifications ∧ tool ∈ TOOLS
             ∧ predictions_of classifications protein_accession tool = []
             ∧ e = KeyError tool)
          ∨ (e = IndexError
             ∧ ∃ protein_accession tool,
                 protein_accession ∈ accessions_of classifications ∧ tool ∈ TOOLS
                 ∧ length (predictions_of classifications protein_accession tool)
                   < occurrences classifications protein_accession)).
Proof.
  intros Hin Hr.
  destruct (build_data_elem_Raise _ _ Hin Hr) as [e He].
  exists e. assert (build_classification_df classifications = Raise e) as Hb.
  { unfold build_classification_df. by rewrite He. }
  split; [done|].
  destruct (build_classification_df_Raise _ _ Hb) as [?|[?|(data & Hdata & _)]];
    [by left|by right|congruence].
Qed.

(** The build returns a frame on aligned inputs only. *)
Lemma build_classification_df_Ok_aligned (classifications : list classification)
    (frame : DataFrame) :
  build_classification_df classifications = Ok frame → aligned classifications.
Proof.
  intros Hok acc Hacc tool Htool.
  destruct (decide (1 ≤ occurrences classifications acc
                    ∧ occurrences classifications acc
                      ≤ length (predictions_of classifications acc tool)))
    as [|Hnot]; [done|].
  exfalso. pose proof (build_classification_dict_of classifications) as Hd.
  destruct (dict_of_lookup _ _ _ Hd Hacc) as (tools & Hin & Hlook).
  assert (is_Raise (entry_rows (acc, tools))) as Hr.
  { destruct (tools !! "dbCAN") as [dbcan|] eqn:Hdb.
    - apply (entry_rows_short acc tools tool dbcan); [done..|].
      rewrite Hlook in Hdb. apply nonempty_Some in Hdb as [-> Hne].
      rewrite Hlook. unfold occurrences in Hnot.
      assert (predictions_of classifications acc "dbCAN" ≠ [] →
              1 ≤ length (predictions_of classifications acc "dbCAN")) as Hpos
        by (destruct (predictions_of classifications acc "dbCAN"); [done|simpl; lia]).
      specialize (Hpos Hne).
      destruct (predictions_of classifications acc tool); simpl in *; lia.
    - unfold entry_rows, py_getitem. cbn [fst snd]. rewrite Hdb. by eexists. }
  destruct (build_data_elem_Raise _ _ Hin Hr) as [e He].
  unfold build_classification_df in Hok. by rewrite He in Hok.
Qed.

(** C3 (as the code has it). The number of rows of an accession is the
    number of its dbCAN classifications and nothing compares the counts of
    the tools. When every accession has a dbCAN classification and no tool
    has fewer classifications for it than dbCAN, the build succeeds and
    each tool's column keeps, per accession, only as many of the tool's
    classifications as dbCAN has: the surplus is dropped. When some tool
    has fewer classifications for an accession than dbCAN, the build
    raises: an [IndexError], or a [KeyError] that carries a tool name;
    neither reports an accession or a count. *)
Theorem build_classification_df_counts (classifications : list classification) :
  (aligned classifications →
   build_classification_df classifications
   = Ok (mkDataFrame (expected_index classifications)
           (map (λ tool, (tool, expected_column classifications tool)) TOOLS)))
  ∧ (∀ protein_accession tool,
       protein_accession ∈ accessions_of classifications → tool ∈ TOOLS →
       length (predictions_of classifications protein_accession tool)
       < occurrences classifications protein_accession →
       ∃ e, build_classification_df classifications = Raise e
            ∧ (e = IndexError ∨ ∃ tool', tool' ∈ TOOLS ∧ e = KeyError tool')).
Proof.
  split; [apply build_classification_df_aligned|].
  intros acc tool Hacc Htool Hlt.
  pose proof (build_classification_dict_of classifications) as Hd.
  destruct (dict_of_lookup _ _ _ Hd Hacc) as (tools & Hin & Hlook).
  destruct (build_classification_df_entry_Raise classifications acc tools Hin)
    as (e & He & Hkind).
  - unfold occurrences in Hlt.
    apply (entry_rows_short acc tools tool
             (predictions_of classifications acc "dbCAN")); [done| |].
    + rewrite Hlook.
      destruct (predictions_of classifications acc "dbCAN"); [simpl in Hlt; lia|done].
    + rewrite Hlook.
      by destruct (predictions_of classifications acc tool).
  - exists e. split; [done|].
    destruct Hkind as [(_ & tool' & _ & Htool' & _ & ->)|[-> _]]; [right|by left].
    by exists tool'.
Qed.

Lemma aligned_surplus_hmmer : aligned surplus_hmmer.
Proof.
  intros acc Hacc tool Htool.
  change (accessions_of surplus_hmmer) with ["A"] in Hacc.
  apply list_elem_of_singleton in Hacc as ->.
  unfold TOOLS in Htool.
  repeat (apply elem_of_cons in Htool as [->|Htool]; [vm_compute; lia|]).
  by apply elem_of_nil in Htool.
Qed.

Lemma build_classification_df_counts_witness :
  build_classification_df surplus_hmmer
  = Ok (mkDataFrame (expected_index surplus_hmmer)
          (map (λ tool, (tool, expected_column surplus_hmmer tool)) TOOLS)).
Proof.
  exact (proj1 (build_classification_df_counts surplus_hmmer) aligned_surplus_hmmer).
Defined.

(** C3 as stated fails: HMMER has two classifications for [A] and dbCAN
    one, yet the build returns a frame, with one row, from which HMMER's
    second classification is missing. *)
Lemma build_classification_df_truncates :
  predictions_of surplus_hmmer "A" "dbCAN" = [true]
  ∧ predictions_of surplus_hmmer "A" "HMMER" = [true; false]
  ∧ build_classification_df surplus_hmmer
    = Ok (mkDataFrame ["A"] (map (λ tool, (tool, [true])) TOOLS)).
Proof. repeat split; vm_compute; reflexivity. Qed.

(** C6 (as the code has it). When an accession of the input has no
    classification from one of the six tools, the build raises and no frame
    is returned, so nothing stands in for the missing value. What is raised
    is a [KeyError] carrying the name of a tool without classification for
    some accession, the accession itself is not reported, or, when the rows
    of another accession run out first, an [IndexError]. *)
Theorem build_classification_df_missing_tool (classifications : list classification)
    (protein_accession tool : string) :
  protein_accession ∈ accessions_of classifications → tool ∈ TOOLS →
  predictions_of classifications protein_accession tool = [] →
  ∃ e, build_classification_df classifications = Raise e
       ∧ ((∃ protein_accession' tool',
             protein_accession' ∈ accessions_of classifications ∧ tool' ∈ TOOLS
             ∧ predictions_of classifications protein_accession' tool' = []
             ∧ e = KeyError tool')
          ∨ (e = IndexError
             ∧ ∃ protein_accession' tool',
                 protein_accession' ∈ accessions_of classifications ∧ tool' ∈ TOOLS
                 ∧ length (predictions_of classifications protein_accession' tool')
                   < occurrences classifications protein_accession')).
Proof.
  intros Hacc Htool Hnone.
  pose proof (build_classification_dict_of classifications) as Hd.
  destruct (dict_of_lookup _ _ _ Hd Hacc) as (tools & Hin & Hlook).
  apply (build_classification_df_entry_Raise classifications protein_accession tools Hin).
  destruct (tools !! "dbCAN") as [dbcan|] eqn:Hdb.
  - apply (entry_rows_short protein_accession tools tool dbcan); [done..|].
    rewrite Hlook, Hnone. simpl.
    rewrite Hlook in Hdb. apply nonempty_Some in Hdb as [-> Hne].
    destruct (predictions_of classifications protein_accession "dbCAN"); [done|simpl; lia].
  - unfold entry_rows, py_getitem. cbn [fst snd]. rewrite Hdb. by eexists.
Qed.

Lemma build_classification_df_missing_tool_witness :
  ∃ e, build_classification_df [("A", "dbCAN", true)] = Raise e
       ∧ ((∃ protein_accession' tool',
             protein_accession' ∈ accessions_of [("A", "dbCAN", true)] ∧ tool' ∈ TOOLS
             ∧ predictions_of [("A", "dbCAN", true)] protein_accession' tool' = []
             ∧ e = KeyError tool')
          ∨ (e = IndexError
             ∧ ∃ protein_accession' tool',
                 protein_accession' ∈ accessions_of [("A", "dbCAN", true)] ∧ tool' ∈ TOOLS
                 ∧ length (predictions_of [("A", "dbCAN", true)] protein_accession' tool')
                   < occurrences [("A", "dbCAN", true)] protein_accession')).
Proof.
  apply (build_classification_df_missing_tool [("A", "dbCAN", true)] "A" "HMMER").
  - vm_compute. by left.
  - vm_compute. right. by left.
  - reflexivity.
Defined.

(** C6 as stated fails: the error raised for a missing tool names no
    accession, it is the same for [A] and for [B], and it need not be about
    the missing tool at all: [B] has no HMMER classification, but the build
    stops on [A], whose HMMER classifications run out, with [IndexError]. *)
Lemma build_classification_df_missing_tool_error :
  build_classification_df [("A", "dbCAN", true)] = Raise (KeyError "HMMER")
  ∧ build_classification_df [("B", "dbCAN", true)] = Raise (KeyError "HMMER")
  ∧ predictions_of surplus_dbcan_then_missing "B" "dbCAN" = [true]
  ∧ predictions_of surplus_dbcan_then_missing "B" "HMMER" = []
  ∧ build_classification_df surplus_dbcan_then_missing = Raise IndexError.
Proof. repeat split; vm_compute; reflexivity. Qed.

(** ** Resampling *)

Section BootstrapProperties.
Context `{RandomSource}.

Lemma randint_array_spec (high size : nat) (s : rng_state) :
  0 < high ∨ size = 0 →
  length (randint_array high size s).1 = size
  ∧ Forall (λ i, i < high) (randint_array high size s).1.
Proof.
  revert s. induction size as [|size IH]; intros s Hpos; simpl; [by split|].
  destruct Hpos as [Hpos|?]; [|done].
  pose proof (np_randint_lt high s Hpos) as Hlt.
  destruct (np_randint high s) as [i s1]. simpl in Hlt.
  destruct (IH s1 (or_introl Hpos)) as [Hlen Hall].
  destruct (randint_array high size s1) as [indices s2]. simpl in *.
  split; [by rewrite Hlen|by constructor].
Qed.

Lemma index_rows_Ok {A} (array : list A) (indices : list nat) :
  Forall (λ i, i < length array) indices →
  ∃ sample, result_mapM (py_index array) indices = Ok sample
            ∧ length sample = length indices
            ∧ Forall (λ row, row ∈ array) sample.
Proof.
  induction 1 as [|i indices Hi _ (sample & Hs & Hlen & Hin)]; cbn [result_mapM].
  - by exists [].
  - destruct (lookup_lt_is_Some_2 array i Hi) as [row Hrow].
    assert (py_index array i = Ok row) as -> by (unfold py_index; by rewrite Hrow).
    rewrite Hs. result_simpl.
    exists (row :: sample). split; [done|]. split; [simpl; by rewrite Hlen|].
    constructor; [by eapply list_elem_of_lookup_2|done].
Qed.

(** A resample has as many rows as the array, all of them rows of it. *)
Lemma resample_Ok {A} (array : list A) (s : rng_state) :
  ∃ sample s', resample array s = Ok (sample, s')
               ∧ length sample = length array
               ∧ Forall (λ row, row ∈ array) sample.
Proof.
  unfold resample.
  destruct (randint_array_spec (length array) (length array) s) as [Hlen Hall].
  { destruct array; [by right|left; simpl; lia]. }
  destruct (randint_array (length array) (length array) s) as [indices s1].
  simpl in *. destruct (index_rows_Ok array indices Hall) as (sample & -> & Hl & Hin).
  exists sample, s1. simpl. split; [done|]. split; [congruence|done].
Qed.

Lemma bootstrap_samples_Ok (df_array : list (bool * bool)) (iterations : nat)
    (s : rng_state) :
  ∃ samples, bootstrap_samples df_array iterations s = Ok samples
             ∧ length samples = iterations
             ∧ Forall (λ sample, length sample = length df_array) samples.
Proof.
  revert s. induction iterations as [|iterations IH]; intros s; simpl.
  - by exists [].
  - destruct (resample_Ok df_array s) as (sample & s1 & -> & Hlen & _). result_simpl.
    destruct (IH s1) as (samples & -> & Hn & Hall). result_simpl.
    exists (sample :: samples). split; [done|]. split; [simpl; by rewrite Hn|by constructor].
Qed.

(** The loop of [bootstrap_acc] scores exactly those resamples. *)
Lemma bootstrap_loop_samples (df_array : list (bool * bool)) (iterations : nat)
    (bootstraps results : list npfloat) (s s' : rng_state) :
  bootstrap_loop df_array iterations bootstraps s = Ok (results, s') →
  ∃ samples accuracies,
    bootstrap_samples df_array iterations s = Ok samples
    ∧ results = bootstraps ++ accuracies
    ∧ Forall2 (λ sample accuracy,
                 calc_acc (map snd sample) (map fst sample) = Ok accuracy)
              samples accuracies.
Proof.
  revert bootstraps s. induction iterations as [|iterations IH]; intros bootstraps s; simpl.
  - intros [= <- <-]. exists [], []. by rewrite app_nil_r.
  - destruct (resample df_array s) as [[sample s1]|e]; result_simpl; [|done].
    destruct (calc_acc (map snd sample) (map fst sample)) as [accuracy|e] eqn:Hacc;
      result_simpl; [|done].
    intros Hloop. destruct (IH _ _ Hloop) as (samples & accuracies & -> & -> & Hall).
    result_simpl. exists (sample :: samples), (accuracy :: accuracies).
    split; [done|]. split; [by rewrite <- app_assoc|by constructor].
Qed.

Lemma bootstrap_acc_length (df_array : list (bool * bool)) (n : Z)
    (results : list npfloat) (s s' : rng_state) :
  bootstrap_acc df_array n s = Ok (results, s') → length results = Z.to_nat n.
Proof.
  unfold bootstrap_acc. intros Hloop.
  destruct (bootstrap_loop_samples _ _ _ _ _ _ Hloop) as (samples & accuracies & Hs & -> & Hall).
  destruct (bootstrap_samples_Ok df_array (Z.to_nat n) s) as (samples' & Hs' & Hlen & _).
  rewrite Hs in Hs'. injection Hs' as <-.
  simpl. by rewrite <- (Forall2_length _ _ _ Hall).
Qed.

(** The iterations the loop of [bootstrap_acc] runs: each draws its
    resample from the state the one before left and scores it; the loop
    ends after [iterations] of them or at the first accuracy that cannot be
    computed. *)
Lemma bootstrap_loop_draws (df_array : list (bool * bool)) (iterations : nat)
    (bootstraps : list npfloat) (s : rng_state) :
  ∃ samples,
    drawn_from df_array s samples
    ∧ Forall (λ sample, length sample = length df_array
                        ∧ Forall (λ row, row ∈ df_array) sample) samples
    ∧ match bootstrap_loop df_array iterations bootstraps s with
      | Ok (results, _) =>
          length samples = iterations
          ∧ ∃ accuracies,
              results = bootstraps ++ accuracies
              ∧ Forall2 (λ sample accuracy,
                           calc_acc (map snd sample) (map fst sample) = Ok accuracy)
                        samples accuracies
      | Raise e =>
          ∃ scored sample,
            samples = scored ++ [sample]
            ∧ length samples ≤ iterations
            ∧ Forall (λ sample, is_Ok (calc_acc (map snd sample) (map fst sample)))
                     scored
            ∧ calc_acc (map snd sample) (map fst sample) = Raise e
      end.
Proof.
  revert bootstraps s.
  induction iterations as [|iterations IH]; intros bootstraps s; cbn [bootstrap_loop].
  - exists []. repeat split; [done|]. exists []. by rewrite app_nil_r.
  - destruct (resample_Ok df_array s) as (sample & s1 & Hdraw & Hlen & Hrows).
    rewrite Hdraw. result_simpl.
    destruct (calc_acc (map snd sample) (map fst sample)) as [accuracy|e] eqn:Hacc;
      result_simpl.
    + destruct (IH (bootstraps ++ [accuracy]) s1) as (samples & Hdrawn & Hall & Hrun).
      exists (sample :: samples). split; [by exists s1|]. split; [by constructor|].
      destruct (bootstrap_loop df_array iterations (bootstraps ++ [accuracy]) s1)
        as [[results s2]|e].
      * destruct Hrun as (Hn & accuracies & -> & Hscores). split; [simpl; by rewrite Hn|].
        exists (accuracy :: accuracies). split; [by rewrite <- app_assoc|by constructor].
      * destruct Hrun as (scored & last & -> & Hn & Hscored & Hlast).
        exists (sample :: scored), last. split; [done|]. split; [simpl in *; lia|].
        split; [|done]. constructor; [by exists accuracy|done].
    + exists [sample]. split; [by exists s1|]. split; [by repeat constructor|].
      exists [], sample. repeat split; [simpl; lia|done|done].
Qed.

(** C7. Every resample [bootstrap_acc] draws has exactly as many rows as
    the source array, each of them a row of it. A run of [bootstrap_acc]
    draws its resamples one after the other with [resample], from the
    generator state the one before left, and scores each: when it returns,
    the [n] accuracies are those of [n] such resamples; when it raises, the
    resamples drawn so far all have the row count of the source too, and
    the exception is that of scoring the last one. *)
Theorem bootstrap_resample_row_count (df_array : list (bool * bool)) (n : Z)
    (s : rng_state) :
  ∃ samples,
    drawn_from df_array s samples
    ∧ Forall (λ sample, length sample = length df_array
                        ∧ Forall (λ row, row ∈ df_array) sample) samples
    ∧ match bootstrap_acc df_array n s with
      | Ok (bootstraps, _) =>
          length samples = Z.to_nat n
          ∧ Forall2 (λ sample accuracy,
                       calc_acc (map snd sample) (map fst sample) = Ok accuracy)
                    samples bootstraps
      | Raise e =>
          ∃ scored sample,
            samples = scored ++ [sample]
            ∧ length samples ≤ Z.to_nat n
            ∧ Forall (λ sample, is_Ok (calc_acc (map snd sample) (map fst sample)))
                     scored
            ∧ calc_acc (map snd sample) (map fst sample) = Raise e
      end.
Proof.
  unfold bootstrap_acc.
  destruct (bootstrap_loop_draws df_array (Z.to_nat n) [] s)
    as (samples & Hdrawn & Hall & Hrun).
  exists samples. split; [done|]. split; [done|].
  destruct (bootstrap_loop df_array (Z.to_nat n) [] s) as [[results s']|e]; [|done].
  destruct Hrun as (Hn & accuracies & -> & Hscores). by split.
Qed.

End BootstrapProperties.

Example bootstrap_acc_mixed :
  @bootstrap_acc counting_source [(true, true); (false, true); (false, false)] 2 0
  = Ok ([Finite (2 # 3); Finite (2 # 3)], 6).
Proof. reflexivity. Qed.

(** ** Sampling without replacement *)

(** Taking element [j] out of a list and moving the last element into the
    vacancy leaves the other elements. *)
Lemma swap_remove_Permutation {A} (l : list A) (j m : nat) (x y : A) :
  length l = S m → l !! j = Some x → l !! m = Some y →
  x :: take m (<[j := y]> l) ≡ₚ l.
Proof.
  intros Hlen Hj Hm.
  assert (l = take m l ++ [y]) as Hl.
  { rewrite <- (take_S_r _ _ _ Hm). symmetry. apply take_ge. lia. }
  assert (j ≤ m) as Hle by (apply lookup_lt_Some in Hj; lia).
  destruct (decide (j = m)) as [->|Hne].
  - rewrite list_insert_id by done.
    assert (x = y) as -> by congruence.
    rewrite Hl at 2. apply Permutation_cons_append.
  - assert (j < m) as Hlt by lia.
    rewrite take_insert_lt by done.
    assert (take m l !! j = Some x) as Hj'.
    { rewrite lookup_take_lt by done. done. }
    rewrite Hl at 2.
    rewrite insert_take_drop by (rewrite length_take; lia).
    rewrite <- (take_drop_middle (take m l) j x Hj') at 3.
    generalize (take j (take m l)) (drop (S j) (take m l)). intros front back.
    rewrite <- Permutation_cons_append, <- !Permutation_middle. apply perm_swap.
Qed.

Section SamplingProperties.
Context `{RandomSource}.

Lemma sample_step_Ok {A} (n : nat) (selected pool : list A) (s : rng_state)
    (i j : nat) (s1 : rng_state) (x y : A) :
  py_randbelow (n - i) s = (j, s1) → pool !! j = Some x → pool !! (n - i - 1) = Some y →
  sample_step n (selected, pool, s) i = Ok (selected ++ [x], <[j := y]> pool, s1).
Proof.
  intros Hdraw Hx Hy. unfold sample_step, py_index. by rewrite Hdraw, Hx, Hy.
Qed.

Lemma sample_loop_spec {A} (population : list A) (k i : nat)
    (selected pool : list A) (s : rng_state) :
  i + k ≤ length population →
  length pool = length population →
  selected ++ take (length population - i) pool ≡ₚ population →
  ∃ selected' pool' s',
    result_foldl (sample_step (length population)) (selected, pool, s) (seq i k)
    = Ok (selected', pool', s')
    ∧ length selected' = length selected + k
    ∧ selected' ++ take (length population - i - k) pool' ≡ₚ population.
Proof.
  revert i selected pool s. induction k as [|k IH]; intros i selected pool s Hik Hlen Hperm.
  - simpl. exists selected, pool, s. split; [done|]. split; [lia|].
    by rewrite Nat.sub_0_r.
  - cbn [seq result_foldl].
    set (n := length population) in *.
    pose proof (py_randbelow_lt (n - i) s) as Hj.
    destruct (py_randbelow (n - i) s) as [j s1] eqn:Hdraw. simpl in Hj.
    assert (j < n - i) as Hlt by (apply Hj; lia).
    destruct (lookup_lt_is_Some_2 pool j) as [x Hx]; [lia|].
    destruct (lookup_lt_is_Some_2 pool (n - i - 1)) as [y Hy]; [lia|].
    rewrite (sample_step_Ok n selected pool s i j s1 x y) by done. result_simpl.
    destruct (IH (S i) (selected ++ [x]) (<[j := y]> pool) s1)
      as (selected' & pool' & s' & Hrun & Hlen' & Hperm').
    + lia.
    + by rewrite length_insert.
    + rewrite <- Hperm, <- app_assoc. apply Permutation_app_head. simpl.
      replace (n - S i) with (n - i - 1) by lia.
      rewrite <- (swap_remove_Permutation (take (n - i) pool) j (n - i - 1) x y).
      * constructor. rewrite <- take_insert_lt by lia.
        rewrite take_take. by rewrite Nat.min_l by lia.
      * rewrite length_take. lia.
      * rewrite lookup_take_lt by lia. done.
      * rewrite lookup_take_lt by lia. done.
    + exists selected', pool', s'. split; [done|]. split.
      * rewrite Hlen', length_app. simpl. lia.
      * by replace (n - i - S k) with (n - S i - k) by lia.
Qed.

(** [random.sample] answers for every [0 ≤ k ≤ len(population)], with [k]
    elements taken from pairwise distinct positions. *)
Lemma random_sample_Ok {A} (population : list A) (k : Z) (s : rng_state) :
  (0 ≤ k ≤ Z.of_nat (length population))%Z →
  ∃ selected rest s',
    random_sample population k s = Ok (selected, s')
    ∧ length selected = Z.to_nat k
    ∧ selected ++ rest ≡ₚ population.
Proof.
  intros Hk. unfold random_sample. rewrite decide_True by done.
  destruct (sample_loop_spec population (Z.to_nat k) 0 [] population s)
    as (selected & pool & s' & -> & Hlen & Hperm).
  - lia.
  - done.
  - simpl. rewrite Nat.sub_0_r, take_ge by done. done.
  - result_simpl. exists selected, (take (length population - 0 - Z.to_nat k) pool), s'.
    by repeat split.
Qed.

Lemma random_sample_Raise {A} (population : list A) (k : Z) (s : rng_state) :
  (k < 0 ∨ Z.of_nat (length population) < k)%Z →
  random_sample population k s = Raise ValueError.
Proof. intros Hk. unfold random_sample. rewrite decide_False by lia. done. Qed.

End SamplingProperties.

(** ** [bootstrap_binary_classifications] *)

Lemma bootstrap_key_imap (genome tool : string) (bs_acc : list npfloat) (start : nat) :
  map bootstrap_key (imap (λ i result, (genome, tool, start + i, result)) bs_acc)
  = map (λ i, (genome, tool, i)) (seq start (length bs_acc)).
Proof.
  revert start. induction bs_acc as [|a bs_acc IH]; intros start; simpl; [done|].
  rewrite Nat.add_0_r. unfold bootstrap_key at 1. simpl. f_equal.
  rewrite <- IH. f_equal. apply imap_ext. intros i x _. simpl. do 2 f_equal. lia.
Qed.

Lemma bootstrap_keys_length (binary_dfs : list ClassificationDF) (n : nat) :
  length (bootstrap_keys binary_dfs n) = length binary_dfs * 6 * n.
Proof.
  assert (∀ tool : string,
            length (concat (map (λ cdf, map (λ i, (genome_id cdf, tool, i)) (seq 1 n))
                                binary_dfs)) = length binary_dfs * n) as Hone.
  { intros tool. induction binary_dfs as [|cdf dfs IH]; simpl; [done|].
    rewrite length_app, IH, length_map, length_seq. done. }
  unfold bootstrap_keys, TOOLS. simpl. rewrite !length_app, !Hone. simpl. lia.
Qed.

Section TableProperties.
Context `{RandomSource}.

Lemma bootstrap_df_keys (bs_resampling : Z) (tool : string) (cdf : ClassificationDF)
    (results results' : list bootstrap_record) (s s' : rng_state) :
  bootstrap_df bs_resampling tool (results, s) cdf = Ok (results', s') →
  map bootstrap_key results'
  = map bootstrap_key results
    ++ map (λ i, (genome_id cdf, tool, i)) (seq 1 (Z.to_nat bs_resampling)).
Proof.
  unfold bootstrap_df.
  destruct (get_column tool (df cdf)) as [predicted|e]; result_simpl; [|done].
  destruct (get_column "CAZy" (df cdf)) as [truth|e]; result_simpl; [|done].
  destruct (bootstrap_acc (concat_columns predicted truth) bs_resampling s)
    as [[bs_acc s1]|e] eqn:Hacc; result_simpl; [|done].
  intros [= <- <-]. rewrite map_app.
  rewrite <- (bootstrap_acc_length _ _ _ _ _ Hacc).
  by rewrite <- (bootstrap_key_imap (genome_id cdf) tool bs_acc 1).
Qed.

Lemma bootstrap_tool_keys (bs_resampling : Z) (tool : string)
    (binary_dfs : list ClassificationDF)
    (results results' : list bootstrap_record) (s s' : rng_state) :
  bootstrap_tool bs_resampling binary_dfs (results, s) tool = Ok (results', s') →
  map bootstrap_key results'
  = map bootstrap_key results
    ++ concat (map (λ cdf, map (λ i, (genome_id cdf, tool, i))
                               (seq 1 (Z.to_nat bs_resampling))) binary_dfs).
Proof.
  unfold bootstrap_tool. revert results s.
  induction binary_dfs as [|cdf dfs IH]; intros results s; cbn [result_foldl map concat].
  - intros [= <- <-]. by rewrite app_nil_r.
  - destruct (bootstrap_df bs_resampling tool (results, s) cdf) as [[r1 s1]|e] eqn:Hdf;
      result_simpl; [|done].
    intros Hrest. rewrite (IH _ _ Hrest), (bootstrap_df_keys _ _ _ _ _ _ _ Hdf).
    by rewrite <- app_assoc.
Qed.

Lemma bootstrap_tools_keys (bs_resampling : Z) (binary_dfs : list ClassificationDF)
    (tools : list string) (results results' : list bootstrap_record) (s s' : rng_state) :
  result_foldl (bootstrap_tool bs_resampling binary_dfs) (results, s) tools
  = Ok (results', s') →
  map bootstrap_key results'
  = map bootstrap_key results
    ++ concat (map (λ tool,
                      concat (map (λ cdf, map (λ i, (genome_id cdf, tool, i))
                                              (seq 1 (Z.to_nat bs_resampling)))
                                  binary_dfs)) tools).
Proof.
  revert results s.
  induction tools as [|tool tools IH]; intros results s; cbn [result_foldl map concat].
  - intros [= <- <-]. by rewrite app_nil_r.
  - destruct (bootstrap_tool bs_resampling binary_dfs (results, s) tool)
      as [[r1 s1]|e] eqn:Htool; result_simpl; [|done].
    intros Hrest. rewrite (IH _ _ Hrest), (bootstrap_tool_keys _ _ _ _ _ _ _ Htool).
    by rewrite <- app_assoc.
Qed.

(** For [0 ≤ k ≤] the number of test sets,
    [random.sample] draws [k] of them from pairwise distinct positions
    (the drawn ones and those left over are a rearrangement of the
    collection). For [n ≥ 0] a run that returns has written exactly
    [k × 6 × n] rows, one per tool, drawn test set and bootstrap number
    [1..n], tool by tool. *)
Theorem bootstrap_binary_classifications_table (all_binary_dfs : list ClassificationDF)
    (bs_sample_size bs_resampling : Z) (s : rng_state) :
  (0 ≤ bs_sample_size ≤ Z.of_nat (length all_binary_dfs))%Z →
  (0 ≤ bs_resampling)%Z →
  ∃ binary_dfs rest s',
    random_sample all_binary_dfs bs_sample_size s = Ok (binary_dfs, s')
    ∧ length binary_dfs = Z.to_nat bs_sample_size
    ∧ binary_dfs ++ rest ≡ₚ all_binary_dfs
    ∧ ∀ bootstrap_results,
        bootstrap_binary_classifications all_binary_dfs bs_sample_size bs_resampling s
        = Ok bootstrap_results →
        map bootstrap_key bootstrap_results
        = bootstrap_keys binary_dfs (Z.to_nat bs_resampling)
        ∧ Z.of_nat (length bootstrap_results)
          = (bs_sample_size * 6 * bs_resampling)%Z.
Proof.
  intros Hk Hn.
  destruct (random_sample_Ok all_binary_dfs bs_sample_size s Hk)
    as (binary_dfs & rest & s' & Hsample & Hlen & Hperm).
  exists binary_dfs, rest, s'. repeat (split; [done|]).
  intros results. unfold bootstrap_binary_classifications. rewrite Hsample. result_simpl.
  destruct (result_foldl (bootstrap_tool bs_resampling binary_dfs) ([], s') TOOLS)
    as [[r1 s1]|e] eqn:Hrun; result_simpl; [|done].
  intros [= <-]. pose proof (bootstrap_tools_keys _ _ _ _ _ _ _ Hrun) as Hkeys.
  change (map bootstrap_key r1 = bootstrap_keys binary_dfs (Z.to_nat bs_resampling))
    in Hkeys.
  split; [done|].
  rewrite <- (length_map bootstrap_key), Hkeys, bootstrap_keys_length, Hlen. lia.
Qed.

(** [bs_sample_size = 0] draws nothing and writes nothing. *)
Lemma bootstrap_binary_classifications_empty_sample
    (all_binary_dfs : list ClassificationDF) (bs_resampling : Z) (s : rng_state) :
  bootstrap_binary_classifications all_binary_dfs 0 bs_resampling s = Ok [].
Proof.
  unfold bootstrap_binary_classifications, random_sample.
  rewrite decide_True by lia. reflexivity.
Qed.

Lemma bootstrap_tool_no_iteration (bs_resampling : Z)
    (binary_dfs : list ClassificationDF) (tool : string) (s : rng_state) :
  (bs_resampling ≤ 0)%Z → Forall has_columns binary_dfs → tool ∈ TOOLS →
  bootstrap_tool bs_resampling binary_dfs ([], s) tool = Ok ([], s).
Proof.
  intros Hn Hcols Htool. unfold bootstrap_tool.
  induction Hcols as [|cdf dfs Hcdf _ IH]; cbn [result_foldl]; [done|].
  assert (bootstrap_df bs_resampling tool ([], s) cdf = Ok ([], s)) as ->;
    [|result_simpl; exact IH].
  unfold bootstrap_df.
  destruct (Hcdf tool) as [predicted ->]; [apply elem_of_app; by left|].
  destruct (Hcdf "CAZy") as [truth ->]; [apply elem_of_app; right; by left|].
  result_simpl. unfold bootstrap_acc.
  replace (Z.to_nat bs_resampling) with 0 by lia. reflexivity.
Qed.

Lemma bootstrap_tools_no_iteration (bs_resampling : Z)
    (binary_dfs : list ClassificationDF) (tools : list string) (s : rng_state) :
  (bs_resampling ≤ 0)%Z → Forall has_columns binary_dfs → tools ⊆ TOOLS →
  result_foldl (bootstrap_tool bs_resampling binary_dfs) ([], s) tools = Ok ([], s).
Proof.
  intros Hn Hcols.
  induction tools as [|tool tools IH]; intros Hsub; cbn [result_foldl]; [done|].
  rewrite bootstrap_tool_no_iteration; [|done|done|apply Hsub; by left].
  result_simpl. apply IH. intros t Ht. apply Hsub. by right.
Qed.

(** C9 (as the code has it). Nothing validates the configuration. The
    only check is [random.sample]'s own, which raises [ValueError], before
    any draw, when [bs_sample_size] is negative or exceeds the number of
    test sets. [bs_sample_size = 0] is accepted and gives an empty table,
    and so does [bs_resampling ≤ 0] on test sets that have their columns. *)
Theorem bootstrap_binary_classifications_configuration
    (all_binary_dfs : list ClassificationDF) (bs_sample_size bs_resampling : Z)
    (s : rng_state) :
  ((bs_sample_size < 0 ∨ Z.of_nat (length all_binary_dfs) < bs_sample_size)%Z →
   random_sample all_binary_dfs bs_sample_size s = Raise ValueError
   ∧ bootstrap_binary_classifications all_binary_dfs bs_sample_size bs_resampling s
     = Raise ValueError)
  ∧ (bs_sample_size = 0%Z →
     bootstrap_binary_classifications all_binary_dfs bs_sample_size bs_resampling s
     = Ok [])
  ∧ ((0 ≤ bs_sample_size ≤ Z.of_nat (length all_binary_dfs))%Z →
     (bs_resampling ≤ 0)%Z → Forall has_columns all_binary_dfs →
     bootstrap_binary_classifications all_binary_dfs bs_sample_size bs_resampling s
     = Ok []).
Proof.
  split; [|split].
  - intros Hk. pose proof (random_sample_Raise all_binary_dfs _ s Hk) as Hr.
    split; [done|]. unfold bootstrap_binary_classifications. by rewrite Hr.
  - intros ->. apply bootstrap_binary_classifications_empty_sample.
  - intros Hk Hn Hcols.
    destruct (random_sample_Ok all_binary_dfs bs_sample_size s Hk)
      as (binary_dfs & rest & s' & Hsample & _ & Hperm).
    unfold bootstrap_binary_classifications. rewrite Hsample. result_simpl.
    rewrite bootstrap_tools_no_iteration; [done|done| |done].
    rewrite <- Hperm in Hcols. by apply Forall_app in Hcols as [? _].
Qed.

End TableProperties.

Lemma bootstrap_binary_classifications_table_witness :
  ∃ binary_dfs rest s',
    @random_sample counting_source _ two_test_sets 1 0 = Ok (binary_dfs, s')
    ∧ length binary_dfs = Z.to_nat 1
    ∧ binary_dfs ++ rest ≡ₚ two_test_sets
    ∧ ∀ bootstrap_results,
        @bootstrap_binary_classifications counting_source two_test_sets 1 2 0
        = Ok bootstrap_results →
        map bootstrap_key bootstrap_results = bootstrap_keys binary_dfs (Z.to_nat 2)
        ∧ Z.of_nat (length bootstrap_results) = (1 * 6 * 2)%Z.
Proof.
  apply (@bootstrap_binary_classifications_table counting_source two_test_sets 1 2 0).
  - vm_compute. split; discriminate.
  - vm_compute. discriminate.
Defined.

(** On that input the run returns: one test set drawn, twelve rows. *)
Example bootstrap_binary_classifications_two_test_sets :
  map bootstrap_key
    <$> (match @bootstrap_binary_classifications counting_source two_test_sets 1 2 0 with
         | Ok rows => Some rows
         | Raise _ => None
         end)
  = Some (bootstrap_keys [mkClassificationDF "GCA_1" mixed_df] 2).
Proof. vm_compute. reflexivity. Qed.

(** C8. A run with a valid configuration that writes no table: of two
    test sets whose frames show both labels in every column, one is drawn
    ([k = 1] of 2) and resampled once ([n = 1]); the generator repeats the
    first row, the resample shows a single label, [calc_acc] raises
    [IndexError] and the run ends without any of the [1 × 6 × 1] rows. *)
Theorem bootstrap_binary_classifications_single_label_raises :
  (0 ≤ 1 ≤ Z.of_nat (length two_test_sets))%Z
  ∧ Forall has_columns two_test_sets
  ∧ @random_sample constant_source _ two_test_sets 1 tt
    = Ok ([mkClassificationDF "GCA_1" mixed_df], tt)
  ∧ (predicted ← get_column "dbCAN" mixed_df;
     truth ← get_column "CAZy" mixed_df;
     Ok (concat_columns predicted truth))
    = Ok [(true, true); (false, false)]
  ∧ @resample constant_source _ [(true, true); (false, false)] tt
    = Ok ([(true, true); (true, true)], tt)
  ∧ calc_acc [true; true] [true; true] = Raise IndexError
  ∧ @bootstrap_acc constant_source [(true, true); (false, false)] 1 tt
    = Raise IndexError
  ∧ @bootstrap_binary_classifications constant_source two_test_sets 1 1 tt
    = Raise IndexError.
Proof.
  split; [vm_compute; split; discriminate|].
  split.
  { repeat constructor; intros name Hname;
      repeat (apply elem_of_cons in Hname as [->|Hname]; [by eexists|]);
      by apply elem_of_nil in Hname. }
  repeat split; vm_compute; reflexivity.
Qed.

Lemma bootstrap_binary_classifications_configuration_witness :
  @bootstrap_binary_classifications counting_source two_test_sets 3 2 0 = Raise ValueError
  ∧ @bootstrap_binary_classifications counting_source two_test_sets 0 2 0 = Ok [].
Proof.
  split.
  - apply (proj1 (@bootstrap_binary_classifications_configuration
                    counting_source two_test_sets 3 2 0)).
    right. vm_compute. reflexivity.
  - apply (proj1 (proj2 (@bootstrap_binary_classifications_configuration
                           counting_source two_test_sets 0 2 0))).
    reflexivity.
Defined.

(** C9 as stated fails: a sample size of 0 and a resample count of 0 or
    below are accepted, the run returns an empty table. *)
Lemma bootstrap_binary_classifications_unvalidated :
  @bootstrap_binary_classifications counting_source two_test_sets 0 2 0 = Ok []
  ∧ @bootstrap_binary_classifications counting_source two_test_sets 1 0 0 = Ok []
  ∧ @bootstrap_binary_classifications counting_source two_test_sets 2 (-5) 0 = Ok [].
Proof. repeat split; vm_compute; reflexivity. Qed.

(** ** Scenarios *)

(** Ground truth [A] CAZyme, [B] not; every tool calls both CAZymes:
    TP = 1, FP = 1, FN = 0, TN = 0. *)
Example evaluate_binary_classification_scenario :
  take 5 <$> (match evaluate_binary_classification
                      (frame_of_columns ["A"; "B"] [true; false] [true; true]) "GCA_1" with
              | Ok records => Some records
              | Raise _ => None
              end)
  = Some [("Specificity", "GCA_1", "dbCAN", Finite (0 # 1));
          ("Recall", "GCA_1", "dbCAN", Finite (1 # 1));
          ("Precision", "GCA_1", "dbCAN", Finite (1 # 2));
          ("F1-score", "GCA_1", "dbCAN", Finite (2 # 3));
          ("Accuracy", "GCA_1", "dbCAN", Finite (1 # 2))].
Proof. vm_compute. reflexivity. Qed.

(** From the long-form entries to the evaluated frame. *)
Example pipeline_scenario :
  (df0 ← build_classification_df (one_each "A" ++ map (λ tool, ("B", tool, false)) TOOLS);
   df1 ← retrieve_ground_truths df0 ({["A" := ["GH1"]]} : gmap string (list string));
   records ← evaluate_binary_classification df1 "GCA_1";
   Ok (df_index df1, get_column "CAZy" df1, length records))
  = Ok (["A"; "B"], Ok [true; false], 30).
Proof. vm_compute. reflexivity. Qed.

(** * Further properties of the module *)

(** ** [calc_acc] by cases *)

Lemma unique_labels_not_both (y_true y_pred : list bool) :
  ¬ (false ∈ y_true ++ y_pred ∧ true ∈ y_true ++ y_pred) →
  ∃ b, Forall (λ x, x = b) (y_true ++ y_pred).
Proof.
  intros Hnot. destruct (decide (false ∈ y_true ++ y_pred)) as [Hf|Hf].
  - exists false. apply Forall_forall. intros [] Hx; [|done]. destruct Hnot. by split.
  - exists true. apply Forall_forall. intros [] Hx; [done|]. by destruct Hf.
Qed.

Lemma calc_acc_trichotomy (y_true y_pred : list bool) :
  (length y_true ≠ length y_pred ∧ calc_acc y_true y_pred = Raise ValueError)
  ∨ (length y_true = length y_pred
     ∧ ¬ (false ∈ y_true ++ y_pred ∧ true ∈ y_true ++ y_pred)
     ∧ calc_acc y_true y_pred = Raise IndexError)
  ∨ (length y_true = length y_pred
     ∧ false ∈ y_true ++ y_pred ∧ true ∈ y_true ++ y_pred
     ∧ calc_acc y_true y_pred
       = Ok (np_true_divide
               (count_pairs true true y_true y_pred + count_pairs false false y_true y_pred)
               (length y_true))
     ∧ npfloat_in_unit
         (np_true_divide
            (count_pairs true true y_true y_pred + count_pairs false false y_true y_pred)
            (length y_true))).
Proof.
  destruct (decide (length y_true = length y_pred)) as [Hlen|Hlen].
  - right.
    destruct (decide (false ∈ y_true ++ y_pred ∧ true ∈ y_true ++ y_pred)) as [[Hf Ht]|Hnot].
    + right. destruct (calc_acc_both_labels y_true y_pred Hlen Hf Ht). by repeat split.
    + left. destruct (unique_labels_not_both _ _ Hnot) as [b Hb].
      repeat split; [done..|]. by apply (calc_acc_single_label b).
  - left. split; [done|]. unfold calc_acc, confusion_matrix. by rewrite decide_False.
Qed.

(** X1. On a sample that is not empty, [calc_acc] answers exactly when the
    two columns have one length and show both labels between them; the
    answer is then the share of rows whose prediction equals the ground
    truth, a number of [0, 1]. Columns of different lengths are refused by
    scikit-learn, and a single label makes the read of the confusion
    matrix run out of bounds. (What scikit-learn makes of two empty
    columns differs between its versions; nothing is said of them.) *)
Theorem calc_acc_cases (y_true y_pred : list bool) :
  y_true ≠ [] ∨ y_pred ≠ [] →
  (length y_true ≠ length y_pred ∧ calc_acc y_true y_pred = Raise ValueError)
  ∨ (length y_true = length y_pred
     ∧ (∃ label, Forall (λ y, y = label) (y_true ++ y_pred))
     ∧ calc_acc y_true y_pred = Raise IndexError)
  ∨ (length y_true = length y_pred
     ∧ false ∈ y_true ++ y_pred ∧ true ∈ y_true ++ y_pred
     ∧ calc_acc y_true y_pred
       = Ok (np_true_divide
               (count_pairs true true y_true y_pred + count_pairs false false y_true y_pred)
               (length y_true))
     ∧ npfloat_in_unit
         (np_true_divide
            (count_pairs true true y_true y_pred + count_pairs false false y_true y_pred)
            (length y_true))).
Proof.
  intros _.
  destruct (calc_acc_trichotomy y_true y_pred) as [Hlen|[(Hlen & Hnot & Hr)|Hboth]];
    [by left| |by right; right].
  right. left. split; [done|]. split; [|done].
  destruct (unique_labels_not_both _ _ Hnot) as [label Hlabel]. by exists label.
Qed.

Lemma calc_acc_cases_witness :
  (length [true; true] ≠ length [true; true]
   ∧ calc_acc [true; true] [true; true] = Raise ValueError)
  ∨ (length [true; true] = length [true; true]
     ∧ (∃ label, Forall (λ y, y = label) ([true; true] ++ [true; true]))
     ∧ calc_acc [true; true] [true; true] = Raise IndexError)
  ∨ (length [true; true] = length [true; true]
     ∧ false ∈ [true; true] ++ [true; true] ∧ true ∈ [true; true] ++ [true; true]
     ∧ calc_acc [true; true] [true; true]
       = Ok (np_true_divide
               (count_pairs true true [true; true] [true; true]
                + count_pairs false false [true; true] [true; true])
               (length [true; true]))
     ∧ npfloat_in_unit
         (np_true_divide
            (count_pairs true true [true; true] [true; true]
             + count_pairs false false [true; true] [true; true])
            (length [true; true]))).
Proof. apply (calc_acc_cases [true; true] [true; true]). left. discriminate. Defined.

Lemma calc_acc_Ok_unit (y_true y_pred : list bool) (accuracy : npfloat) :
  calc_acc y_true y_pred = Ok accuracy → npfloat_in_unit accuracy.
Proof.
  intros Hacc.
  destruct (calc_acc_trichotomy y_true y_pred)
    as [[_ Hr]|[(_ & _ & Hr)|(_ & _ & _ & Hr & Hunit)]]; rewrite Hr in Hacc; try done.
  by injection Hacc as <-.
Qed.

(** ** Predictions that agree or disagree with the ground truth throughout *)

Lemma count_pairs_same (t p : bool) (y : list bool) :
  t ≠ p → count_pairs t p y y = 0.
Proof.
  intros Hne. unfold count_pairs. induction y as [|x y IH]; [done|].
  simpl. rewrite filter_cons, decide_False; [done|]. intros [= <- <-]. done.
Qed.

Lemma count_pairs_opposite (b : bool) (y : list bool) :
  count_pairs b b y (map negb y) = 0.
Proof.
  unfold count_pairs. induction y as [|x y IH]; [done|].
  simpl. rewrite filter_cons, decide_False; [done|]. intros [= <- Hx]. by destruct x.
Qed.

Lemma opposite_labels (y : list bool) :
  y ≠ [] → false ∈ y ++ map negb y ∧ true ∈ y ++ map negb y.
Proof.
  destruct y as [|[] y]; [done|..]; intros _; simpl; split;
    first [by left | right; apply elem_of_app; right; by left].
Qed.

(** X2. A tool that is wrong on every protein has accuracy [0 / rows] on any
    non-empty sample, and a tool that is right on every protein has
    accuracy [rows / rows] as soon as the sample holds a CAZyme and a
    non-CAZyme. *)
Theorem calc_acc_extremes (y_true : list bool) :
  (y_true ≠ [] →
   calc_acc y_true (map negb y_true) = Ok (np_true_divide 0 (length y_true)))
  ∧ (false ∈ y_true → true ∈ y_true →
     calc_acc y_true y_true = Ok (np_true_divide (length y_true) (length y_true))
     ∧ npfloat_is (np_true_divide (length y_true) (length y_true)) 1).
Proof.
  split.
  - intros Hne. destruct (opposite_labels y_true Hne) as [Hf Ht].
    destruct (calc_acc_both_labels y_true (map negb y_true)) as [-> _];
      [by rewrite length_map|done..|].
    by rewrite !count_pairs_opposite.
  - intros Hf Ht.
    destruct (calc_acc_both_labels y_true y_true) as [-> _];
      [done|apply elem_of_app; by left..|].
    pose proof (count_pairs_sum y_true y_true eq_refl) as Hsum.
    rewrite (count_pairs_same false true), (count_pairs_same true false) in Hsum by done.
    split.
    + do 2 f_equal. lia.
    + destruct y_true as [|x y]; [by apply elem_of_nil in Hf|].
      simpl. unfold Qeq. simpl. lia.
Qed.

Lemma calc_acc_extremes_witness :
  calc_acc [true; false; true] [false; true; false] = Ok (np_true_divide 0 3)
  ∧ calc_acc [true; false; true] [true; false; true] = Ok (np_true_divide 3 3)
  ∧ npfloat_is (np_true_divide 3 3) 1.
Proof.
  split.
  - apply (proj1 (calc_acc_extremes [true; false; true])). discriminate.
  - apply (proj2 (calc_acc_extremes [true; false; true])).
    + right. by left.
    + by left.
Defined.

(** ** What [bootstrap_acc] returns *)

Section BootstrapResults.
Context `{RandomSource}.

Lemma bootstrap_samples_rows (df_array : list (bool * bool)) (iterations : nat)
    (s : rng_state) (samples : list (list (bool * bool))) :
  bootstrap_samples df_array iterations s = Ok samples →
  Forall (λ sample, length sample = length df_array
                    ∧ Forall (λ row, row ∈ df_array) sample) samples.
Proof.
  revert s samples. induction iterations as [|iterations IH]; intros s samples; simpl.
  - intros [= <-]. constructor.
  - destruct (resample_Ok df_array s) as (sample & s1 & -> & Hlen & Hrows). result_simpl.
    destruct (bootstrap_samples df_array iterations s1) as [rest|e] eqn:Hrest;
      result_simpl; [|done].
    intros [= <-]. constructor; [done|]. by eapply IH.
Qed.

(** X3. When [bootstrap_acc] returns it returns [n] accuracies ([range(n)] runs
    [n] times, not at all for [n ≤ 0]), every one of them in [0, 1] and
    every one the accuracy of a sample that has the row count of the frame
    and only rows of the frame. *)
Theorem bootstrap_acc_results (df_array : list (bool * bool)) (n : Z)
    (s s' : rng_state) (bootstraps : list npfloat) :
  bootstrap_acc df_array n s = Ok (bootstraps, s') →
  length bootstraps = Z.to_nat n
  ∧ Forall npfloat_in_unit bootstraps
  ∧ ∃ samples,
      Forall2 (λ sample accuracy,
                 length sample = length df_array
                 ∧ Forall (λ row, row ∈ df_array) sample
                 ∧ calc_acc (map snd sample) (map fst sample) = Ok accuracy)
              samples bootstraps.
Proof.
  intros Hrun. split; [by eapply bootstrap_acc_length|].
  unfold bootstrap_acc in Hrun.
  destruct (bootstrap_loop_samples _ _ _ _ _ _ Hrun)
    as (samples & accuracies & Hsamples & -> & Hall).
  pose proof (bootstrap_samples_rows _ _ _ _ Hsamples) as Hrows. simpl. split.
  - clear -Hall. induction Hall as [|sample a samples accs Ha _ IH]; constructor; [|done].
    by eapply calc_acc_Ok_unit.
  - exists samples. clear -Hall Hrows.
    induction Hall as [|sample a samples accs Ha _ IH]; [constructor|].
    apply Forall_cons in Hrows as [[Hlen Hin] Hrows]. constructor; [done|by apply IH].
Qed.

End BootstrapResults.

Lemma bootstrap_acc_results_witness :
  length [Finite (2 # 3); Finite (2 # 3)] = Z.to_nat 2
  ∧ Forall npfloat_in_unit [Finite (2 # 3); Finite (2 # 3)]
  ∧ ∃ samples,
      Forall2 (λ sample accuracy,
                 length sample = length [(true, true); (false, true); (false, false)]
                 ∧ Forall (λ row, row ∈ [(true, true); (false, true); (false, false)]) sample
                 ∧ calc_acc (map snd sample) (map fst sample) = Ok accuracy)
              samples [Finite (2 # 3); Finite (2 # 3)].
Proof.
  apply (@bootstrap_acc_results counting_source
           [(true, true); (false, true); (false, false)] 2 0 6).
  reflexivity.
Defined.

(** ** The statistics of [evaluate_binary_classification] *)

Lemma count_pairs_same_pos (b : bool) (y : list bool) :
  b ∈ y → 0 < count_pairs b b y y.
Proof.
  unfold count_pairs. induction y as [|x y IH]; intros Hb; [by apply elem_of_nil in Hb|].
  simpl. rewrite filter_cons. apply elem_of_cons in Hb as [->|Hb].
  - rewrite decide_True by done. simpl. lia.
  - specialize (IH Hb). destruct (decide ((x, x) = (b, b))); simpl; lia.
Qed.

Lemma evaluable_mixed : evaluable mixed_df [true; false] (λ _, [true; false]).
Proof.
  split; [reflexivity|]. intros tool Htool.
  split; [|split; [done|split; simpl; repeat constructor]].
  unfold TOOLS in Htool. repeat (apply elem_of_cons in Htool as [->|Htool]; [reflexivity|]).
  by apply elem_of_nil in Htool.
Qed.

(** X5. On a frame whose every tool column shows both labels together with the
    CAZy column, the evaluator returns thirty records, tool by tool in the
    order Specificity, Recall, Precision, F1-score, Accuracy; a tool whose
    column equals the CAZy column scores 1 on all five. *)
Theorem evaluate_binary_classification_perfect_tool (classifications_df : DataFrame)
    (genomic_accession : string) (y_true : list bool) (columns : string → list bool)
    (k : nat) (tool : string) :
  evaluable classifications_df y_true columns →
  TOOLS !! k = Some tool →
  columns tool = y_true →
  ∃ records specificity recall precision f1 accuracy,
    evaluate_binary_classification classifications_df genomic_accession = Ok records
    ∧ length records = 30
    ∧ records !! (5 * k) = Some ("Specificity", genomic_accession, tool, specificity)
    ∧ records !! (5 * k + 1) = Some ("Recall", genomic_accession, tool, recall)
    ∧ records !! (5 * k + 2) = Some ("Precision", genomic_accession, tool, precision)
    ∧ records !! (5 * k + 3) = Some ("F1-score", genomic_accession, tool, f1)
    ∧ records !! (5 * k + 4) = Some ("Accuracy", genomic_accession, tool, accuracy)
    ∧ npfloat_is specificity 1 ∧ npfloat_is recall 1 ∧ npfloat_is precision 1
    ∧ npfloat_is f1 1 ∧ npfloat_is accuracy 1.
Proof.
  intros Hev Hk Hsame.
  pose proof (evaluate_binary_classification_Ok _ genomic_accession _ _ Hev) as Hrun.
  destruct Hev as [Htrue Hall].
  destruct (Hall tool) as (_ & _ & Hf & Ht); [by eapply list_elem_of_lookup_2|].
  rewrite Hsame in Hf, Ht.
  assert (false ∈ y_true) as Hf' by (apply elem_of_app in Hf as [?|?]; done).
  assert (true ∈ y_true) as Ht' by (apply elem_of_app in Ht as [?|?]; done).
  pose proof (count_pairs_same_pos false _ Hf') as Htn.
  pose proof (count_pairs_same_pos true _ Ht') as Htp.
  assert (∀ n, 0 < n → npfloat_is (np_true_divide n n) 1) as Hone.
  { intros [|n] Hn; [lia|]. simpl. unfold Qeq. simpl. lia. }
  eexists _, _, _, _, _, _. split; [exact Hrun|]. split; [reflexivity|].
  rewrite <- (Nat.add_0_r (5 * k)) at 1.
  rewrite !(concat_tool_statistics_lookup y_true columns genomic_accession TOOLS k _ tool)
    by (done || lia).
  cbn [tool_statistics lookup list_lookup]. rewrite Hsame.
  rewrite (count_pairs_same false true), (count_pairs_same true false) by done.
  repeat (split; [reflexivity|]).
  rewrite !Nat.add_0_r.
  rewrite !prf_divide_defined by lia.
  repeat split; apply Hone; lia.
Qed.

Lemma evaluate_binary_classification_perfect_tool_witness :
  ∃ records specificity recall precision f1 accuracy,
    evaluate_binary_classification mixed_df "GCA_1" = Ok records
    ∧ length records = 30
    ∧ records !! (5 * 2) = Some ("Specificity", "GCA_1", "Hotpep", specificity)
    ∧ records !! (5 * 2 + 1) = Some ("Recall", "GCA_1", "Hotpep", recall)
    ∧ records !! (5 * 2 + 2) = Some ("Precision", "GCA_1", "Hotpep", precision)
    ∧ records !! (5 * 2 + 3) = Some ("F1-score", "GCA_1", "Hotpep", f1)
    ∧ records !! (5 * 2 + 4) = Some ("Accuracy", "GCA_1", "Hotpep", accuracy)
    ∧ npfloat_is specificity 1 ∧ npfloat_is recall 1 ∧ npfloat_is precision 1
    ∧ npfloat_is f1 1 ∧ npfloat_is accuracy 1.
Proof.
  exact (evaluate_binary_classification_perfect_tool mixed_df "GCA_1" [true; false]
           (λ _, [true; false]) 2 "Hotpep" evaluable_mixed eq_refl eq_refl).
Defined.

Lemma evaluate_binary_classification_formulas_witness :
  let tn := count_pairs false false [true; false] [true; false] in
  let fp := count_pairs false true [true; false] [true; false] in
  let fn := count_pairs true false [true; false] [true; false] in
  let tp := count_pairs true true [true; false] [true; false] in
  ∃ records specificity recall precision f1 accuracy,
    evaluate_binary_classification mixed_df "GCA_1" = Ok records
    ∧ length records = 30
    ∧ records !! (5 * 0) = Some ("Specificity", "GCA_1", "dbCAN", specificity)
    ∧ records !! (5 * 0 + 1) = Some ("Recall", "GCA_1", "dbCAN", recall)
    ∧ records !! (5 * 0 + 2) = Some ("Precision", "GCA_1", "dbCAN", precision)
    ∧ records !! (5 * 0 + 3) = Some ("F1-score", "GCA_1", "dbCAN", f1)
    ∧ records !! (5 * 0 + 4) = Some ("Accuracy", "GCA_1", "dbCAN", accuracy)
    ∧ (0 < tn + fp → specificity = Finite (Z.of_nat tn # Pos.of_nat (tn + fp)))
    ∧ (0 < tp + fn → recall = Finite (Z.of_nat tp # Pos.of_nat (tp + fn)))
    ∧ (0 < tp + fp → precision = Finite (Z.of_nat tp # Pos.of_nat (tp + fp)))
    ∧ (0 < tp →
       ∃ q, f1 = Finite q
            ∧ (q == 2 * (Z.of_nat tp # Pos.of_nat (tp + fp))
                     * (Z.of_nat tp # Pos.of_nat (tp + fn))
                   / ((Z.of_nat tp # Pos.of_nat (tp + fp))
                      + (Z.of_nat tp # Pos.of_nat (tp + fn))))%Q)
    ∧ accuracy = Finite (Z.of_nat (tp + tn) # Pos.of_nat (tp + fp + fn + tn))
    ∧ npfloat_in_unit accuracy.
Proof.
  exact (evaluate_binary_classification_formulas mixed_df "GCA_1" [true; false]
           (λ _, [true; false]) 0 "dbCAN" evaluable_mixed eq_refl).
Defined.

(** ** [build_classification_df]: frame or exception *)

Lemma build_row_length (tools : gmap string (list bool)) (i : nat) (row : list bool) :
  build_row tools i = Ok row → length row = 6.
Proof.
  rewrite build_row_eq. intros Hrow. apply result_mapM_Ok in Hrow.
  by rewrite <- (Forall2_length _ _ _ Hrow).
Qed.

Lemma entry_rows_width (entry : string * gmap string (list bool))
    (rows : list (string * list bool)) :
  entry_rows entry = Ok rows →
  Forall (λ row : string * list bool, length row.2 = 6) rows.
Proof.
  unfold entry_rows.
  destruct (py_getitem entry.2 "dbCAN") as [dbcan|e]; result_simpl; [|done].
  intros Hrows. apply result_mapM_Ok in Hrows.
  induction Hrows as [|i row l rows Hrow _ IH]; constructor; [|done].
  destruct (build_row entry.2 i) as [new_data|e] eqn:Hnew; [|done].
  injection Hrow as <-. simpl. by eapply build_row_length.
Qed.

Lemma build_data_width (classification_dict : list (string * gmap string (list bool)))
    (data : list (string * list bool)) :
  build_data classification_dict = Ok data →
  Forall (λ row : string * list bool, length row.2 = 6) data.
Proof.
  rewrite build_data_eq.
  destruct (result_mapM entry_rows classification_dict) as [rows|e] eqn:Hrows; [|done].
  intros [= <-]. apply result_mapM_Ok in Hrows. apply Forall_concat.
  induction Hrows as [|entry rs l rows Hentry _ IH]; constructor; [|done].
  by eapply entry_rows_width.
Qed.

Lemma frame_of_data_Ok (data : list (string * list bool)) :
  Forall (λ row : string * list bool, length row.2 = 6) data →
  ∃ frame, frame_of_data data = Ok frame.
Proof.
  intros Hwidth. unfold frame_of_data.
  change (imap (λ j tool, (j, tool)) TOOLS)
    with [(0, "dbCAN"); (1, "HMMER"); (2, "Hotpep"); (3, "DIAMOND"); (4, "CUPP");
          (5, "eCAMI")].
  cbn [result_mapM fst snd].
  assert (∀ j, j < 6 →
            frame_column data j
            = Ok (map (λ row : string * list bool, row.2 !!! j) data)) as Hcol.
  { intros j Hj. apply frame_column_Ok.
    eapply Forall_impl; [exact Hwidth|]. intros row Hrow. simpl in *. lia. }
  rewrite (Hcol 0) by lia. result_simpl. rewrite (Hcol 1) by lia. result_simpl.
  rewrite (Hcol 2) by lia. result_simpl. rewrite (Hcol 3) by lia. result_simpl.
  rewrite (Hcol 4) by lia. result_simpl. rewrite (Hcol 5) by lia. result_simpl.
  by eexists.
Qed.

(** X7. [build_classification_df] returns a frame exactly on the inputs in which
    every accession has a dbCAN classification and at least as many
    classifications of every other tool, and the frame is then the one of
    [build_classification_df_aligned]. On every other input it raises:
    [KeyError] with the name of a tool that has no classification for some
    accession, or [IndexError] for an accession for which some tool has fewer
    classifications than dbCAN; pandas never gets to refuse the rows. *)
Theorem build_classification_df_cases (classifications : list classification) :
  (aligned classifications
   ∧ build_classification_df classifications
     = Ok (mkDataFrame (expected_index classifications)
             (map (λ tool, (tool, expected_column classifications tool)) TOOLS)))
  ∨ (¬ aligned classifications
     ∧ ∃ e, build_classification_df classifications = Raise e
            ∧ ((∃ protein_accession tool,
                  protein_accession ∈ accessions_of classifications ∧ tool ∈ TOOLS
                  ∧ predictions_of classifications protein_accession tool = []
                  ∧ e = KeyError tool)
               ∨ (e = IndexError
                  ∧ ∃ protein_accession tool,
                      protein_accession ∈ accessions_of classifications ∧ tool ∈ TOOLS
                      ∧ length (predictions_of classifications protein_accession tool)
                        < occurrences classifications protein_accession))).
Proof.
  destruct (build_classification_df classifications) as [frame|e] eqn:Hrun.
  - left. pose proof (build_classification_df_Ok_aligned _ _ Hrun) as Hal.
    split; [done|]. by rewrite <- Hrun, build_classification_df_aligned.
  - right. split.
    + intros Hal. by rewrite build_classification_df_aligned in Hrun.
    + exists e. split; [done|].
      destruct (build_classification_df_Raise _ _ Hrun) as [?|[?|(data & Hdata & Hframe)]];
        [by left|by right|].
      destruct (frame_of_data_Ok data (build_data_width _ _ Hdata)) as [frame Hok].
      congruence.
Qed.

(** ** The frame between [build_classification_df] and the evaluator *)

Lemma expected_column_length (classifications : list classification) (tool : string) :
  aligned classifications → tool ∈ TOOLS →
  length (expected_column classifications tool) = length (expected_index classifications).
Proof.
  intros Hal Htool. unfold expected_column, expected_index.
  assert (∀ acc, acc ∈ accessions_of classifications →
            occurrences classifications acc
            ≤ length (predictions_of classifications acc tool)) as Hle.
  { intros acc Hacc. by apply Hal. }
  induction (accessions_of classifications) as [|acc accs IH]; [done|].
  cbn [map concat]. rewrite !length_app, IH.
  - rewrite length_take_le, length_replicate; [done|]. apply Hle. by left.
  - intros a Ha. apply Hle. by right.
Qed.

Lemma assoc_set_keys_fresh {V} (k : string) (v : V) (d : list (string * V)) :
  k ∉ map fst d → assoc_set k v d = d ++ [(k, v)].
Proof.
  induction d as [|[k' v'] d IH]; simpl; [done|].
  rewrite not_elem_of_cons. intros [Hk Hin].
  rewrite decide_False by done. by rewrite IH.
Qed.

(** X8. A frame that [build_classification_df] returns has the six tool columns,
    in the order of [TOOLS], each as long as the index, and no CAZy column:
    the evaluator raises [KeyError] on it. [retrieve_ground_truths] appends
    the CAZy column, of the same length, whatever the ground-truth
    dictionary. *)
Theorem build_classification_df_frame {V} (classifications : list classification)
    (frame : DataFrame) (genomic_accession : string) (cazy_dict : gmap string V) :
  build_classification_df classifications = Ok frame →
  map fst (df_columns frame) = TOOLS
  ∧ Forall (λ column : string * list bool, length column.2 = length (df_index frame))
           (df_columns frame)
  ∧ evaluate_binary_classification frame genomic_accession = Raise (KeyError "CAZy")
  ∧ ∃ frame',
      retrieve_ground_truths frame cazy_dict = Ok frame'
      ∧ df_index frame' = df_index frame
      ∧ map fst (df_columns frame') = TOOLS ++ ["CAZy"]
      ∧ Forall (λ column : string * list bool, length column.2 = length (df_index frame'))
               (df_columns frame').
Proof.
  intros Hrun. pose proof (build_classification_df_Ok_aligned _ _ Hrun) as Hal.
  rewrite build_classification_df_aligned in Hrun by done. injection Hrun as <-.
  assert (Forall (λ column : string * list bool,
                    length column.2 = length (expected_index classifications))
                 (map (λ tool, (tool, expected_column classifications tool)) TOOLS))
    as Hlen.
  { apply Forall_map, Forall_forall. intros tool Htool. simpl.
    by apply expected_column_length. }
  split; [done|]. split; [done|]. split; [done|].
  eexists. split; [apply retrieve_ground_truths_Ok|]. cbn [df_index df_columns].
  split; [done|]. rewrite assoc_set_keys_fresh.
  - split; [done|]. apply Forall_app. split; [done|].
    constructor; [|constructor]. simpl. by rewrite length_map.
  - unfold TOOLS. simpl. rewrite !not_elem_of_cons. repeat split; try done.
    apply not_elem_of_nil.
Qed.

Lemma build_classification_df_frame_witness :
  map fst (df_columns (mkDataFrame ["A"] (map (λ tool, (tool, [true])) TOOLS))) = TOOLS
  ∧ Forall (λ column : string * list bool,
              length column.2
              = length (df_index (mkDataFrame ["A"] (map (λ tool, (tool, [true])) TOOLS))))
           (df_columns (mkDataFrame ["A"] (map (λ tool, (tool, [true])) TOOLS)))
  ∧ evaluate_binary_classification
      (mkDataFrame ["A"] (map (λ tool, (tool, [true])) TOOLS)) "GCA_1"
    = Raise (KeyError "CAZy")
  ∧ ∃ frame',
      retrieve_ground_truths (mkDataFrame ["A"] (map (λ tool, (tool, [true])) TOOLS))
                             ({["A" := ["GH1"]]} : gmap string (list string))
      = Ok frame'
      ∧ df_index frame' = df_index (mkDataFrame ["A"] (map (λ tool, (tool, [true])) TOOLS))
      ∧ map fst (df_columns frame') = TOOLS ++ ["CAZy"]
      ∧ Forall (λ column : string * list bool, length column.2 = length (df_index frame'))
               (df_columns frame').
Proof.
  apply (build_classification_df_frame surplus_hmmer
           (mkDataFrame ["A"] (map (λ tool, (tool, [true])) TOOLS)) "GCA_1"
           ({["A" := ["GH1"]]} : gmap string (list string))).
  vm_compute. reflexivity.
Defined.

(** ** [retrieve_ground_truths] on any frame *)

Lemma assoc_set_idemp {V} (k : string) (v : V) (d : list (string * V)) :
  assoc_set k v (assoc_set k v d) = assoc_set k v d.
Proof.
  induction d as [|[k' v'] d IH]; simpl.
  - by rewrite decide_True.
  - destruct (decide (k = k')) as [->|Hk]; simpl.
    + by rewrite decide_True.
    + by rewrite decide_False, IH.
Qed.

(** X6. [retrieve_ground_truths] never raises; it leaves the index and every
    column but CAZy as they are, overwrites a CAZy column that is there
    already, and run a second time with the same dictionary changes
    nothing. *)
Theorem retrieve_ground_truths_frame {V} (classifications_df : DataFrame)
    (cazy_dict : gmap string V) :
  ∃ frame,
    retrieve_ground_truths classifications_df cazy_dict = Ok frame
    ∧ df_index frame = df_index classifications_df
    ∧ (∀ name, name ≠ "CAZy" →
         get_column name frame = get_column name classifications_df)
    ∧ get_column "CAZy" frame
      = Ok (map (ground_truth cazy_dict) (df_index classifications_df))
    ∧ retrieve_ground_truths frame cazy_dict = Ok frame.
Proof.
  eexists. split; [apply retrieve_ground_truths_Ok|]. split; [done|]. split; [|split].
  - intros name Hname. unfold get_column. cbn [df_columns].
    by rewrite assoc_get_set_ne.
  - unfold get_column. cbn [df_columns]. by rewrite assoc_get_set_eq.
  - rewrite retrieve_ground_truths_Ok. cbn [df_index df_columns].
    by rewrite assoc_set_idemp.
Qed.

(** ** What of its input [build_classification_df] looks at *)

Lemma assoc_list_ext {V} (d1 d2 : list (string * V)) :
  NoDup (map fst d1) → map fst d1 = map fst d2 →
  (∀ k v1 v2, assoc_get k d1 = Some v1 → assoc_get k d2 = Some v2 → v1 = v2) →
  d1 = d2.
Proof.
  revert d2. induction d1 as [|[k v1] d1 IH]; intros [|[k2 v2] d2]; simpl; try done.
  rewrite NoDup_cons. intros [Hk Hnd] [= <- Hkeys] Hval. f_equal.
  - f_equal. apply (Hval k); by rewrite decide_True.
  - apply IH; [done..|]. intros k' w1 w2 H1 H2.
    assert (k' ≠ k) as Hne.
    { intros ->. apply Hk. apply list_elem_of_fmap. exists (k, w1).
      split; [done|]. by apply assoc_get_Some_elem. }
    apply (Hval k'); by rewrite decide_False.
Qed.

(** X9. The frame, or the exception, depends on the input only through the
    order in which the accessions first appear and, per accession and tool,
    the sequence of its classifications: how the entries of different
    accessions or tools are interleaved makes no difference. *)
Theorem build_classification_df_interleaving (classifications1 classifications2
    : list classification) :
  accessions_of classifications1 = accessions_of classifications2 →
  (∀ protein_accession tool,
     predictions_of classifications1 protein_accession tool
     = predictions_of classifications2 protein_accession tool) →
  build_classification_df classifications1 = build_classification_df classifications2.
Proof.
  intros Hacc Hpred.
  destruct (build_classification_dict_of classifications1) as [Hkeys1 Hvals1].
  destruct (build_classification_dict_of classifications2) as [Hkeys2 Hvals2].
  unfold build_classification_df. f_equal. f_equal. apply assoc_list_ext.
  - rewrite Hkeys1. apply NoDup_first_seen.
  - congruence.
  - intros acc tools1 tools2 H1 H2. apply map_eq. intros tool.
    by rewrite (Hvals1 _ _ H1), (Hvals2 _ _ H2), Hpred.
Qed.

Lemma build_classification_df_interleaving_witness :
  build_classification_df
    [("A", "dbCAN", true); ("B", "dbCAN", false); ("A", "HMMER", false)]
  = build_classification_df
      [("A", "dbCAN", true); ("A", "HMMER", false); ("B", "dbCAN", false)].
Proof.
  apply build_classification_df_interleaving.
  - reflexivity.
  - intros acc tool. unfold predictions_of. cbn [omap list_omap fst snd].
    repeat case_decide; try reflexivity; destruct_and?; simplify_eq.
Defined.

(** ** From the tools' predictions to the frame *)

Lemma get_prediction_classifications_eq
    (tool_predictions : list CazymeProteinPrediction) (prediction_tool : string)
    (classifications : list classification) :
  get_prediction_classifications tool_predictions prediction_tool classifications
  = classifications
      ++ map (λ p, (stored_accession prediction_tool p, prediction_tool,
                    cazyme_classification p)) tool_predictions.
Proof.
  unfold get_prediction_classifications, stored_accession.
  destruct (decide (prediction_tool = "eCAMI" ∨ prediction_tool = "CUPP")) as [Ht|Ht].
  - rewrite (bool_decide_eq_true_2 _ Ht).
    replace (bool_decide (prediction_tool = "eCAMI") || bool_decide (prediction_tool = "CUPP"))
      with true by (destruct Ht as [->| ->]; done).
    rewrite (foldl_snoc (λ p, (hd EmptyString (split_space (protein_accession p)),
                               prediction_tool, cazyme_classification p))).
    f_equal. apply map_ext. intros p. by rewrite hd_split_space.
  - rewrite (bool_decide_eq_false_2 _ Ht).
    rewrite !bool_decide_eq_false_2 by tauto. simpl.
    by rewrite (foldl_snoc (λ p, (protein_accession p, prediction_tool,
                                  cazyme_classification p))).
Qed.

Lemma collect_classifications_eq (outputs : string → list CazymeProteinPrediction) :
  collect_classifications outputs
  = concat (map (λ tool, map (λ p, (stored_accession tool p, tool,
                                    cazyme_classification p)) (outputs tool)) TOOLS).
Proof.
  unfold collect_classifications.
  assert (∀ tools start,
            foldl (λ classifications tool,
                     get_prediction_classifications (outputs tool) tool classifications)
                  start tools
            = start ++ concat (map (λ tool, map (λ p, (stored_accession tool p, tool,
                                                        cazyme_classification p))
                                                 (outputs tool)) tools)) as Hfold.
  { induction tools as [|tool tools IH]; intros start; simpl.
    - by rewrite app_nil_r.
    - by rewrite IH, get_prediction_classifications_eq, <- app_assoc. }
  by rewrite Hfold.
Qed.

Lemma filter_other (x : string) (l : list string) :
  x ∉ l → filter (λ y, y ≠ x) l = l.
Proof.
  induction l as [|y l IH]; [done|].
  rewrite not_elem_of_cons. intros [Hxy Hx].
  rewrite filter_cons, decide_True by congruence. f_equal. by apply IH.
Qed.

Lemma first_seen_NoDup (l : list string) : NoDup l → first_seen l = l.
Proof.
  induction 1 as [|x l Hx _ IH]; simpl; [done|]. by rewrite IH, filter_other.
Qed.

Lemma first_seen_app_seen (l k : list string) :
  k ⊆ l → first_seen (l ++ k) = first_seen l.
Proof.
  induction k as [|x k IH] using rev_ind; intros Hsub.
  - by rewrite app_nil_r.
  - rewrite app_assoc, first_seen_snoc, IH.
    + rewrite decide_True; [by rewrite app_nil_r|].
      apply elem_of_app. left. apply Hsub. apply elem_of_app. right. by left.
    + intros y Hy. apply Hsub. apply elem_of_app. by left.
Qed.

Lemma predictions_of_app (l k : list classification) (protein_accession tool : string) :
  predictions_of (l ++ k) protein_accession tool
  = predictions_of l protein_accession tool ++ predictions_of k protein_accession tool.
Proof. unfold predictions_of. apply omap_app. Qed.

Lemma predictions_of_cons (c : classification) (l : list classification)
    (protein_accession tool : string) :
  predictions_of (c :: l) protein_accession tool
  = (if decide (c.1.1 = protein_accession ∧ c.1.2 = tool) then [c.2] else [])
    ++ predictions_of l protein_accession tool.
Proof.
  unfold predictions_of. simpl.
  by destruct (decide (c.1.1 = protein_accession ∧ c.1.2 = tool)).
Qed.

Lemma predictions_of_block (tool_predictions : list CazymeProteinPrediction)
    (prediction_tool protein_accession tool : string) :
  predictions_of (map (λ p, (stored_accession prediction_tool p, prediction_tool,
                             cazyme_classification p)) tool_predictions)
                 protein_accession tool
  = if decide (prediction_tool = tool)
    then map cazyme_classification
             (filter (λ p, stored_accession prediction_tool p = protein_accession)
                     tool_predictions)
    else [].
Proof.
  induction tool_predictions as [|p ps IH]; cbn [map].
  - by destruct (decide (prediction_tool = tool)).
  - rewrite predictions_of_cons, IH, filter_cons. cbn [fst snd].
    destruct (decide (prediction_tool = tool)) as [->|Hne].
    + destruct (decide (stored_accession tool p = protein_accession)) as [Hp|Hp].
      * by rewrite decide_True.
      * by rewrite decide_False by tauto.
    + by rewrite decide_False by tauto.
Qed.

Lemma predictions_of_blocks (outputs : string → list CazymeProteinPrediction)
    (tools : list string) (protein_accession tool : string) :
  NoDup tools → tool ∈ tools →
  predictions_of
    (concat (map (λ tool, map (λ p, (stored_accession tool p, tool,
                                     cazyme_classification p)) (outputs tool)) tools))
    protein_accession tool
  = map cazyme_classification
        (filter (λ p, stored_accession tool p = protein_accession) (outputs tool)).
Proof.
  assert (∀ tools, tool ∉ tools →
            predictions_of
              (concat (map (λ tool, map (λ p, (stored_accession tool p, tool,
                                               cazyme_classification p)) (outputs tool))
                           tools))
              protein_accession tool = []) as Hout.
  { clear. induction tools as [|t tools IH]; [done|].
    rewrite not_elem_of_cons. intros [Hne Hin]. cbn [map concat].
    rewrite predictions_of_app, predictions_of_block, IH by done.
    by rewrite decide_False. }
  induction 1 as [|t tools Ht _ IH]; [by intros ?%elem_of_nil|].
  rewrite elem_of_cons. cbn [map concat]. rewrite predictions_of_app, predictions_of_block.
  intros [<-|Hin].
  - rewrite decide_True, Hout by done. by rewrite app_nil_r.
  - rewrite decide_False by (intros ->; done). by apply IH.
Qed.

Lemma filter_key_absent {A} (f : A → string) (l : list A) (x : string) :
  x ∉ map f l → filter (λ p, f p = x) l = [].
Proof.
  induction l as [|p l IH]; simpl; [done|].
  rewrite not_elem_of_cons. intros [Hp Hx].
  rewrite filter_cons, decide_False by congruence. by apply IH.
Qed.

(** With distinct keys, reading the entries key by key gives them back in
    order. *)
Lemma concat_filter_keys {A B} (f : A → string) (g : A → B) (n : nat) (l : list A) :
  NoDup (map f l) → 0 < n →
  concat (map (λ x, take n (map g (filter (λ p, f p = x) l))) (map f l)) = map g l.
Proof.
  intros Hnd Hn. induction l as [|p l IH]; [done|].
  simpl in Hnd. apply NoDup_cons in Hnd as [Hp Hnd].
  cbn [map concat]. rewrite filter_cons, decide_True by done.
  rewrite (filter_key_absent f l (f p)) by done.
  destruct n as [|n]; [lia|]. cbn [map take app]. rewrite take_nil. cbn [app]. f_equal.
  rewrite <- IH by done. f_equal. apply map_ext_in. intros x Hx.
  apply list_elem_of_In in Hx.
  rewrite filter_cons, decide_False; [done|]. intros Heq. apply Hp. by rewrite Heq.
Qed.

Lemma filter_key_length {A} (f : A → string) (l : list A) (x : string) :
  NoDup (map f l) → x ∈ map f l → length (filter (λ p, f p = x) l) = 1.
Proof.
  induction l as [|p l IH]; simpl; [by intros _ ?%elem_of_nil|].
  rewrite NoDup_cons, elem_of_cons, filter_cons. intros [Hp Hnd] [->|Hx].
  - rewrite decide_True by done. simpl. by rewrite filter_key_absent.
  - rewrite decide_False; [by apply IH|]. intros Heq. apply Hp. by rewrite Heq.
Qed.

Lemma NoDup_TOOLS : NoDup TOOLS.
Proof. apply (bool_decide_unpack _). by vm_compute. Qed.

(** X10. Six tools that each report one prediction per protein, on the same
    proteins in the same order (for eCAMI and CUPP up to what follows the
    first space of their accessions), give a frame with one row per protein,
    in that order, whose tool columns are the tools' classifications. *)
Theorem build_classification_df_of_predictions
    (outputs : string → list CazymeProteinPrediction) (accessions : list string) :
  NoDup accessions →
  (∀ tool, tool ∈ TOOLS → map (stored_accession tool) (outputs tool) = accessions) →
  build_classification_df (collect_classifications outputs)
  = Ok (mkDataFrame accessions
          (map (λ tool, (tool, map cazyme_classification (outputs tool))) TOOLS)).
Proof.
  intros Hnd Hsame. rewrite collect_classifications_eq.
  set (classifications :=
         concat (map (λ tool, map (λ p, (stored_accession tool p, tool,
                                         cazyme_classification p)) (outputs tool)) TOOLS)).
  pose proof NoDup_TOOLS as Htools.
  assert (∀ acc tool, tool ∈ TOOLS →
            predictions_of classifications acc tool
            = map cazyme_classification
                  (filter (λ p, stored_accession tool p = acc) (outputs tool))) as Hpred.
  { intros acc tool Htool. by apply predictions_of_blocks. }
  assert (accessions_of classifications = accessions) as Hacc.
  { unfold accessions_of, classifications, TOOLS. cbn [map concat].
    rewrite !map_app, !map_map. cbn [fst]. rewrite app_nil_r.
    assert (∀ tool, tool ∈ TOOLS →
              map (λ x, stored_accession tool x) (outputs tool) = accessions) as Heta
      by exact Hsame.
    assert (∀ tool, tool ∈ [("dbCAN" : string); "HMMER"; "Hotpep"; "DIAMOND"; "CUPP"; "eCAMI"]
                    → tool ∈ TOOLS) as Hin by done.
    rewrite ?(Hsame "dbCAN"), ?(Heta "dbCAN"), (Heta "HMMER"), (Heta "Hotpep"),
      (Heta "DIAMOND"), (Heta "CUPP"), (Heta "eCAMI")
      by (apply Hin; repeat first [by left | right]).
    rewrite first_seen_app_seen; [by apply first_seen_NoDup|].
    intros x Hx. rewrite !elem_of_app in Hx. tauto. }
  assert (∀ acc tool, acc ∈ accessions → tool ∈ TOOLS →
            length (predictions_of classifications acc tool) = 1) as Hone.
  { intros acc tool Hin Htool. rewrite Hpred, length_map by done.
    apply filter_key_length; by rewrite Hsame. }
  assert (aligned classifications) as Hal.
  { intros acc Hin tool Htool. rewrite Hacc in Hin. unfold occurrences.
    rewrite !Hone by (done || apply TOOLS_dbCAN). lia. }
  rewrite build_classification_df_aligned by done. do 2 f_equal.
  - unfold expected_index. rewrite Hacc.
    assert (∀ acc, acc ∈ accessions → occurrences classifications acc = 1) as Hocc.
    { intros acc Hin. apply Hone; [done|apply TOOLS_dbCAN]. }
    clear -Hocc. induction accessions as [|acc accs IH]; [done|].
    cbn [map concat]. rewrite Hocc by (by left). simpl. f_equal.
    apply IH. intros a Ha. apply Hocc. by right.
  - apply map_ext_in. intros tool Htool. apply list_elem_of_In in Htool. f_equal.
    unfold expected_column. rewrite Hacc.
    rewrite <- (concat_filter_keys (stored_accession tool) cazyme_classification 1
                  (outputs tool)) by (rewrite ?Hsame; done || lia).
    rewrite Hsame by done. f_equal. apply map_ext_in. intros acc Hin.
    apply list_elem_of_In in Hin. unfold occurrences.
    by rewrite Hone, Hpred by (done || apply TOOLS_dbCAN).
Qed.

Lemma build_classification_df_of_predictions_witness :
  build_classification_df (collect_classifications sample_outputs)
  = Ok (mkDataFrame ["P1"; "P2"]
          (map (λ tool, (tool, map cazyme_classification (sample_outputs tool))) TOOLS)).
Proof.
  apply (build_classification_df_of_predictions sample_outputs ["P1"; "P2"]).
  - apply (bool_decide_unpack _). by vm_compute.
  - intros tool Htool. unfold TOOLS in Htool.
    repeat (apply elem_of_cons in Htool as [->|Htool]; [reflexivity|]).
    by apply elem_of_nil in Htool.
Defined.

(** ** The keys of the bootstrap table *)

Lemma NoDup_concat_keyed {A B K} (F : A → list B) (key : B → K) (id : A → K)
    (l : list A) :
  NoDup (map id l) → (∀ x, NoDup (F x)) → (∀ x b, b ∈ F x → key b = id x) →
  NoDup (concat (map F l)).
Proof.
  intros Hnd HF Hkey. induction l as [|x l IH]; simpl; [constructor|].
  simpl in Hnd. apply NoDup_cons in Hnd as [Hx Hnd].
  apply NoDup_app. split; [by apply HF|]. split; [|by apply IH].
  intros b Hb Hb'. apply list_elem_of_In, in_concat in Hb' as (bs & Hbs & Hin).
  apply in_map_iff in Hbs as (y & <- & Hy). apply Hx.
  apply list_elem_of_fmap. exists y. split; [|by apply list_elem_of_In].
  rewrite <- (Hkey x b Hb). apply Hkey. by apply list_elem_of_In.
Qed.

Lemma bootstrap_keys_NoDup (binary_dfs : list ClassificationDF) (n : nat) :
  NoDup (map genome_id binary_dfs) → NoDup (bootstrap_keys binary_dfs n).
Proof.
  intros Hnd. unfold bootstrap_keys.
  apply (NoDup_concat_keyed _ (λ key : string * string * nat, key.1.2) id).
  - rewrite map_id. apply NoDup_TOOLS.
  - intros tool.
    apply (NoDup_concat_keyed _ (λ key : string * string * nat, key.1.1) genome_id);
      [done| |].
    + intros cdf. apply NoDup_fmap_2; [|apply NoDup_seq]. by intros i j [= ->].
    + intros cdf key Hkey. by apply list_elem_of_fmap in Hkey as (i & -> & _).
  - intros tool key Hkey.
    apply list_elem_of_In, in_concat in Hkey as (keys & Hkeys & Hin).
    apply in_map_iff in Hkeys as (cdf & <- & _).
    by apply list_elem_of_In, list_elem_of_fmap in Hin as (i & -> & _).
Qed.

Lemma bootstrap_keys_elem (binary_dfs : list ClassificationDF) (n : nat)
    (key : string * string * nat) :
  key ∈ bootstrap_keys binary_dfs n →
  key.1.1 ∈ map genome_id binary_dfs ∧ key.1.2 ∈ TOOLS ∧ 1 ≤ key.2 ≤ n.
Proof.
  unfold bootstrap_keys. intros Hkey.
  apply list_elem_of_In, in_concat in Hkey as (keys & Hkeys & Hin).
  apply in_map_iff in Hkeys as (tool & <- & Htool).
  apply in_concat in Hin as (keys' & Hkeys' & Hin).
  apply in_map_iff in Hkeys' as (cdf & <- & Hcdf).
  apply in_map_iff in Hin as (i & <- & Hi). apply in_seq in Hi. simpl.
  split; [|split; [by apply list_elem_of_In|lia]].
  apply list_elem_of_fmap. exists cdf. split; [done|]. by apply list_elem_of_In.
Qed.

Section TableKeys.
Context `{RandomSource}.

Lemma random_sample_inv {A} (population selected : list A) (k : Z) (s s' : rng_state) :
  random_sample population k s = Ok (selected, s') →
  ∃ rest, length selected = Z.to_nat k ∧ selected ++ rest ≡ₚ population.
Proof.
  intros Hrun.
  destruct (decide (0 ≤ k ≤ Z.of_nat (length population))%Z) as [Hk|Hk].
  - destruct (random_sample_Ok population k s Hk) as (sel & rest & s1 & Hs & Hlen & Hperm).
    rewrite Hs in Hrun. injection Hrun as <- <-. by exists rest.
  - unfold random_sample in Hrun. by rewrite decide_False in Hrun.
Qed.

(** X11. When the test sets have distinct genome ids, no row key (genome id,
    tool, bootstrap number) occurs twice in the table: a test set is drawn
    once at most. Every row names a genome of the collection, one of the six
    tools and a bootstrap number between 1 and [n]. *)
Theorem bootstrap_binary_classifications_keys (all_binary_dfs : list ClassificationDF)
    (bs_sample_size bs_resampling : Z) (s : rng_state)
    (bootstrap_results : list bootstrap_record) :
  NoDup (map genome_id all_binary_dfs) →
  bootstrap_binary_classifications all_binary_dfs bs_sample_size bs_resampling s
  = Ok bootstrap_results →
  NoDup (map bootstrap_key bootstrap_results)
  ∧ Forall (λ r, (bootstrap_key r).1.1 ∈ map genome_id all_binary_dfs
                 ∧ (bootstrap_key r).1.2 ∈ TOOLS
                 ∧ 1 ≤ (bootstrap_key r).2 ≤ Z.to_nat bs_resampling)
           bootstrap_results.
Proof.
  intros Hnd Hrun. unfold bootstrap_binary_classifications in Hrun.
  destruct (random_sample all_binary_dfs bs_sample_size s) as [[binary_dfs s1]|e] eqn:Hs;
    [|done].
  revert Hrun. result_simpl.
  destruct (result_foldl (bootstrap_tool bs_resampling binary_dfs) ([], s1) TOOLS)
    as [[r1 s2]|e] eqn:Hfold; result_simpl; [|done].
  intros [= <-]. pose proof (bootstrap_tools_keys _ _ _ _ _ _ _ Hfold) as Hkeys.
  change (map bootstrap_key r1 = bootstrap_keys binary_dfs (Z.to_nat bs_resampling))
    in Hkeys.
  destruct (random_sample_inv _ _ _ _ _ Hs) as (rest & _ & Hperm).
  assert (map genome_id binary_dfs ++ map genome_id rest ≡ₚ map genome_id all_binary_dfs)
    as Hperm' by (by rewrite <- Hperm, map_app).
  split.
  - rewrite Hkeys. apply bootstrap_keys_NoDup.
    rewrite <- Hperm' in Hnd. by apply NoDup_app in Hnd as [? _].
  - apply Forall_forall. intros r Hr.
    assert (bootstrap_key r ∈ bootstrap_keys binary_dfs (Z.to_nat bs_resampling)) as Hin.
    { rewrite <- Hkeys. apply list_elem_of_fmap. by exists r. }
    apply bootstrap_keys_elem in Hin as (Hg & Ht & Hi). split; [|done].
    rewrite <- Hperm'. apply elem_of_app. by left.
Qed.

End TableKeys.

Lemma bootstrap_binary_classifications_keys_witness :
  ∃ bootstrap_results,
    @bootstrap_binary_classifications counting_source two_test_sets 2 1 0
    = Ok bootstrap_results
    ∧ NoDup (map bootstrap_key bootstrap_results)
    ∧ Forall (λ r, (bootstrap_key r).1.1 ∈ map genome_id two_test_sets
                   ∧ (bootstrap_key r).1.2 ∈ TOOLS
                   ∧ 1 ≤ (bootstrap_key r).2 ≤ Z.to_nat 1)
             bootstrap_results.
Proof.
  eexists. split; [vm_compute; reflexivity|].
  apply (@bootstrap_binary_classifications_keys counting_source two_test_sets 2 1 0).
  - apply (bool_decide_unpack _). by vm_compute.
  - vm_compute. reflexivity.
Defined.

(** * Properties of the GenBank summary script *)

(** ** [get_protein_data] *)

Lemma get_record_feature_qualifier (feature : SeqFeature) (qualifier : string) :
  qualifier ≠ "location" →
  feature_qualifiers feature !! qualifier ≠ Some [] →
  get_record_feature feature qualifier = Ok (first_value feature qualifier).
Proof.
  intros Hq Hne. unfold get_record_feature, first_value. rewrite decide_False by done.
  by destruct (feature_qualifiers feature !! qualifier) as [[|value values]|].
Qed.

Lemma get_record_feature_location (feature : SeqFeature) :
  get_record_feature feature "location"
  = Ok (match location_parts feature with
        | Some parts => String.concat "," parts
        | None => "NA"
        end).
Proof.
  unfold get_record_feature. rewrite decide_True by done.
  destruct (location_parts feature) as [parts|]; [|done].
  by rewrite (foldl_snoc id), map_id.
Qed.

Lemma feature_step_present (all_protein_data : list protein_item) (feature : SeqFeature) :
  (feature_type feature = "CDS" → values_present feature) →
  feature_step all_protein_data feature
  = Ok (all_protein_data
          ++ map Protein
               (filter (λ protein_data, protein_data ≠ ["NA"; "NA"; "NA"; "NA"])
                  (map cds_row (filter (λ f, feature_type f = "CDS") [feature])))).
Proof.
  intros Hpresent. unfold feature_step. rewrite filter_cons, filter_nil.
  destruct (decide (feature_type feature = "CDS")) as [Hcds|Hcds].
  - specialize (Hpresent Hcds).
    rewrite (get_record_feature_qualifier feature "protein_id")
      by (done || (apply Hpresent; by left)). result_simpl.
    rewrite (get_record_feature_qualifier feature "locus_tag")
      by (done || (apply Hpresent; right; by left)). result_simpl.
    rewrite get_record_feature_location. result_simpl.
    rewrite (get_record_feature_qualifier feature "product")
      by (done || (apply Hpresent; right; right; by left)). result_simpl.
    cbn [map]. fold (cds_row feature). rewrite filter_cons, filter_nil.
    destruct (decide (cds_row feature ≠ ["NA"; "NA"; "NA"; "NA"])); [done|].
    by rewrite app_nil_r.
  - by rewrite app_nil_r.
Qed.

Lemma feature_steps_present (features : list SeqFeature)
    (all_protein_data : list protein_item) :
  Forall (λ feature, feature_type feature = "CDS" → values_present feature) features →
  result_foldl feature_step all_protein_data features
  = Ok (all_protein_data
          ++ map Protein
               (filter (λ protein_data, protein_data ≠ ["NA"; "NA"; "NA"; "NA"])
                  (map cds_row (filter (λ f, feature_type f = "CDS") features)))).
Proof.
  intros Hall. revert all_protein_data.
  induction Hall as [|feature features Hf _ IH]; intros all_protein_data;
    cbn [result_foldl].
  - by rewrite app_nil_r.
  - rewrite (feature_step_present _ _ Hf). result_simpl. rewrite IH, <- app_assoc.
    do 2 f_equal. rewrite <- map_app, <- filter_app, <- map_app, <- filter_app. done.
Qed.

(** X12. For an accession with exactly one GenBank file, none of whose protein
    encoding features carries an empty list of values, [get_protein_data]
    returns one list of four strings per feature of type CDS, in the order
    of the file, left out only where all four strings are ["NA"]; features
    of other types contribute nothing. *)
Theorem get_protein_data_rows (accession_number : string)
    (genbank_input : string → list (list (list SeqFeature)))
    (gb_records : list (list SeqFeature)) :
  accession_number ≠ "NA" →
  genbank_input (replace_char "."%char "_"%char accession_number) = [gb_records] →
  Forall (λ feature, feature_type feature = "CDS" → values_present feature)
         (concat gb_records) →
  get_protein_data accession_number genbank_input
  = Ok (map Protein
          (filter (λ protein_data, protein_data ≠ ["NA"; "NA"; "NA"; "NA"])
             (map cds_row (filter (λ f, feature_type f = "CDS") (concat gb_records))))).
Proof.
  intros Hna Hfile Hpresent. unfold get_protein_data.
  rewrite decide_False by done. cbv zeta. rewrite Hfile.
  rewrite decide_False by (simpl; lia).
  unfold py_index. cbn [lookup list_lookup]. result_simpl.
  assert (∀ records start,
            Forall (λ feature, feature_type feature = "CDS" → values_present feature)
                   (concat records) →
            result_foldl (λ all_protein_data gb_record,
                            result_foldl feature_step all_protein_data gb_record)
                         start records
            = Ok (start
                    ++ map Protein
                         (filter (λ protein_data, protein_data ≠ ["NA"; "NA"; "NA"; "NA"])
                            (map cds_row
                               (filter (λ f, feature_type f = "CDS") (concat records))))))
    as Hloop.
  { induction records as [|record records IH]; intros start Hall; cbn [result_foldl].
    - by rewrite app_nil_r.
    - cbn [concat] in Hall. apply Forall_app in Hall as [Hrecord Hrest].
      rewrite (feature_steps_present _ _ Hrecord). result_simpl.
      rewrite IH, <- app_assoc by done. do 2 f_equal. cbn [concat].
      rewrite <- map_app, <- filter_app, <- map_app, <- filter_app. done. }
  by rewrite Hloop.
Qed.

Lemma get_protein_data_rows_witness :
  get_protein_data "GCA_1.1" sample_genbank
  = Ok (map Protein
          (filter (λ protein_data, protein_data ≠ ["NA"; "NA"; "NA"; "NA"])
             (map cds_row (filter (λ f, feature_type f = "CDS")
                                  (concat [[sample_gene; sample_cds; bare_cds]]))))).
Proof.
  apply (get_protein_data_rows "GCA_1.1" sample_genbank [[sample_gene; sample_cds; bare_cds]]).
  - discriminate.
  - reflexivity.
  - repeat constructor; intros _ qualifier Hq;
      repeat (apply elem_of_cons in Hq as [->|Hq]; [by vm_compute|]);
      by apply elem_of_nil in Hq.
Defined.

Example get_protein_data_sample :
  get_protein_data "GCA_1.1" sample_genbank
  = Ok [Protein ["QBC1.1"; "NA"; "[0:10](+),[20:30](+)"; "glycoside hydrolase"]].
Proof. vm_compute. reflexivity. Qed.

Lemma result_foldl_Raise {A B} (f : A → B → result A) (a : A) (l : list B) (e : exn) :
  result_foldl f a l = Raise e → ∃ a' x, x ∈ l ∧ f a' x = Raise e.
Proof.
  revert a. induction l as [|x l IH]; intros a; cbn [result_foldl]; [done|].
  destruct (f a x) as [a1|e1] eqn:Hx; result_simpl.
  - intros Hrest. destruct (IH _ Hrest) as (a' & y & Hy & Hf).
    exists a', y. split; [by right|done].
  - intros [= ->]. exists a, x. split; [by left|done].
Qed.

Lemma get_record_feature_Raise (feature : SeqFeature) (qualifier : string) (e : exn) :
  get_record_feature feature qualifier = Raise e →
  e = IndexError ∧ qualifier ≠ "location"
  ∧ feature_qualifiers feature !! qualifier = Some [].
Proof.
  unfold get_record_feature. destruct (decide (qualifier = "location")) as [->|Hq].
  - by destruct (location_parts feature).
  - destruct (feature_qualifiers feature !! qualifier) as [[|value values]|]; try done.
    by intros [= <-].
Qed.

Lemma get_protein_data_raises (accession_number : string)
    (genbank_input : string → list (list (list SeqFeature))) (e : exn) :
  get_protein_data accession_number genbank_input = Raise e →
  e = IndexError
  ∧ ∃ gb_records feature qualifier,
      genbank_input (replace_char "."%char "_"%char accession_number) = [gb_records]
      ∧ feature ∈ concat gb_records
      ∧ feature_type feature = "CDS"
      ∧ qualifier ∈ ["protein_id"; "locus_tag"; "product"]
      ∧ feature_qualifiers feature !! qualifier = Some [].
Proof.
  unfold get_protein_data. destruct (decide (accession_number = "NA")); [done|]. cbv zeta.
  destruct (genbank_input (replace_char "."%char "_"%char accession_number))
    as [|gb_records [|other files]] eqn:Hfiles.
  - by rewrite decide_True by (right; done).
  - rewrite decide_False by (simpl; lia). unfold py_index. cbn [lookup list_lookup].
    result_simpl. intros Hrun.
    apply result_foldl_Raise in Hrun as (all1 & record & Hrecord & Hrun).
    apply result_foldl_Raise in Hrun as (all2 & feature & Hfeature & Hstep).
    unfold feature_step in Hstep.
    destruct (decide (feature_type feature = "CDS")) as [Hcds|]; [|done].
    assert (∃ qualifier, qualifier ∈ ["protein_id"; "locus_tag"; "product"]
                         ∧ get_record_feature feature qualifier = Raise e)
      as (qualifier & Hq & Hraise).
    { destruct (get_record_feature feature "protein_id") as [v1|e1] eqn:H1.
      - destruct (get_record_feature feature "locus_tag") as [v2|e2] eqn:H2.
        + rewrite get_record_feature_location in Hstep. revert Hstep. result_simpl.
          destruct (get_record_feature feature "product") as [v4|e4] eqn:H4.
          * result_simpl. by case_decide.
          * intros [= ->]. exists "product". split; [|done]. right. right. by left.
        + injection Hstep as ->. exists "locus_tag". split; [|done]. right. by left.
      - injection Hstep as ->. exists "protein_id". split; [|done]. by left. }
    apply get_record_feature_Raise in Hraise as (-> & _ & Hempty).
    split; [done|]. exists gb_records, feature, qualifier. repeat split; try done.
    apply list_elem_of_In, in_concat. exists record. split; by apply list_elem_of_In.
  - by rewrite decide_True by (left; simpl; lia).
Qed.

Lemma result_foldl_Ok_steps {A B} (f : A → B → result A) (a b : A) (l : list B) :
  result_foldl f a l = Ok b → ∀ x, x ∈ l → ∃ a', is_Ok (f a' x).
Proof.
  revert a. induction l as [|y l IH]; intros a; cbn [result_foldl].
  - intros _ x Hx. by apply elem_of_nil in Hx.
  - destruct (f a y) as [a1|e1] eqn:Hy; result_simpl; [|done].
    intros Hrest x Hx. apply elem_of_cons in Hx as [->|Hx].
    + exists a. by exists a1.
    + by apply (IH _ Hrest).
Qed.

Lemma get_record_feature_outcome (feature : SeqFeature) (qualifier : string) :
  is_Ok (get_record_feature feature qualifier)
  ∨ get_record_feature feature qualifier = Raise IndexError.
Proof.
  destruct (get_record_feature feature qualifier) as [value|e] eqn:Hget.
  - left. by exists value.
  - right. by apply get_record_feature_Raise in Hget as (-> & _).
Qed.

Lemma get_record_feature_empty (feature : SeqFeature) (qualifier : string) :
  qualifier ∈ ["protein_id"; "locus_tag"; "product"] →
  feature_qualifiers feature !! qualifier = Some [] →
  get_record_feature feature qualifier = Raise IndexError.
Proof.
  intros Hq Hempty. unfold get_record_feature.
  rewrite decide_False, Hempty; [done|].
  intros ->. repeat (apply elem_of_cons in Hq as [?|Hq]; [done|]).
  by apply elem_of_nil in Hq.
Qed.

(** A protein encoding feature with a qualifier that has no value stops the
    reading, whatever was read so far. *)
Lemma feature_step_empty (all_protein_data : list protein_item) (feature : SeqFeature)
    (qualifier : string) :
  feature_type feature = "CDS" →
  qualifier ∈ ["protein_id"; "locus_tag"; "product"] →
  feature_qualifiers feature !! qualifier = Some [] →
  feature_step all_protein_data feature = Raise IndexError.
Proof.
  intros Hcds Hq Hempty. unfold feature_step. rewrite decide_True by done.
  pose proof (get_record_feature_empty feature qualifier Hq Hempty) as Hraise.
  destruct (get_record_feature_outcome feature "protein_id") as [[v1 H1]|H1];
    rewrite H1; result_simpl; [|done].
  destruct (get_record_feature_outcome feature "locus_tag") as [[v2 H2]|H2];
    rewrite H2; result_simpl; [|done].
  rewrite get_record_feature_location. result_simpl.
  destruct (get_record_feature_outcome feature "product") as [[v4 H4]|H4];
    rewrite H4; result_simpl; [|done].
  repeat (apply elem_of_cons in Hq as [->|Hq]; [congruence|]).
  by apply elem_of_nil in Hq.
Qed.

(** X13. For an accession whose one GenBank file has been read into its
    records, [get_protein_data] raises exactly when a protein encoding
    feature of the file has [protein_id], [locus_tag] or [product] among its
    qualifiers with no value at all, and the exception is then the
    [IndexError] of reading the first value; a qualifier or a location that
    is missing does not raise. *)
Theorem get_protein_data_Raise (accession_number : string)
    (genbank_input : string → list (list (list SeqFeature)))
    (gb_records : list (list SeqFeature)) (e : exn) :
  accession_number ≠ "NA" →
  genbank_input (replace_char "."%char "_"%char accession_number) = [gb_records] →
  get_protein_data accession_number genbank_input = Raise e
  ↔ e = IndexError
    ∧ ∃ feature qualifier,
        feature ∈ concat gb_records
        ∧ feature_type feature = "CDS"
        ∧ qualifier ∈ ["protein_id"; "locus_tag"; "product"]
        ∧ feature_qualifiers feature !! qualifier = Some [].
Proof.
  intros Hna Hfile. split.
  - intros Hraise.
    destruct (get_protein_data_raises _ _ _ Hraise)
      as (-> & records & feature & qualifier & Hrecords & Hrest).
    split; [done|]. rewrite Hfile in Hrecords. injection Hrecords as <-.
    by exists feature, qualifier.
  - intros (-> & feature & qualifier & Hfeature & Hcds & Hq & Hempty).
    destruct (get_protein_data accession_number genbank_input) as [data|e] eqn:Hrun.
    + exfalso. revert Hrun. unfold get_protein_data.
      rewrite decide_False by done. cbv zeta. rewrite Hfile.
      rewrite decide_False by (simpl; lia). unfold py_index. cbn [lookup list_lookup].
      result_simpl. intros Hrun.
      apply list_elem_of_In, in_concat in Hfeature as (record & Hrecord & Hin).
      apply list_elem_of_In in Hrecord, Hin.
      destruct (result_foldl_Ok_steps _ _ _ _ Hrun record Hrecord) as (all1 & all2 & Hinner).
      destruct (result_foldl_Ok_steps _ _ _ _ Hinner feature Hin) as (all3 & all4 & Hstep).
      by rewrite (feature_step_empty all3 feature qualifier) in Hstep.
    + by destruct (get_protein_data_raises _ _ _ Hrun) as [-> _].
Qed.

Lemma get_protein_data_Raise_witness :
  get_protein_data "GCA_2.1" (λ _, [[[sample_cds; mkFeature "CDS" None {["product" := []]}]]])
  = Raise IndexError
  ↔ IndexError = IndexError
    ∧ ∃ feature qualifier,
        feature ∈ concat [[sample_cds; mkFeature "CDS" None {["product" := []]}]]
        ∧ feature_type feature = "CDS"
        ∧ qualifier ∈ ["protein_id"; "locus_tag"; "product"]
        ∧ feature_qualifiers feature !! qualifier = Some [].
Proof.
  apply (get_protein_data_Raise "GCA_2.1"
           (λ _, [[[sample_cds; mkFeature "CDS" None {["product" := []]}]]])
           [[sample_cds; mkFeature "CDS" None {["product" := []]}]] IndexError).
  - discriminate.
  - reflexivity.
Defined.

(** On that file the reading stops at the second feature. *)
Example get_protein_data_empty_product :
  get_protein_data "GCA_2.1" (λ _, [[[sample_cds; mkFeature "CDS" None {["product" := []]}]]])
  = Raise IndexError.
Proof. vm_compute. reflexivity. Qed.

(** ** [get_df_foundation_data] *)

Lemma characters_length (s : string) : length (characters s) = String.length s.
Proof. induction s as [|c s IH]; simpl; [done|]. by rewrite IH. Qed.

Lemma item_cells_length (item : protein_item) :
  length (item_cells item) = item_length item.
Proof. destruct item; simpl; [apply characters_length|done]. Qed.

Lemma add_protein_cells (protein_data : list protein_item) (tuple_index : nat)
    (item : protein_item) (row_data : list cell) (n : nat) :
  protein_data !! tuple_index = Some item → n ≤ item_length item →
  foldl (add_protein_cell protein_data tuple_index) row_data (seq 0 n)
  = row_data ++ map Text (take n (item_cells item)).
Proof.
  intros Hitem. induction n as [|n IH]; intros Hn.
  - by rewrite app_nil_r.
  - rewrite seq_S, foldl_app, IH by lia. cbn [foldl].
    unfold add_protein_cell, py_index at 1. rewrite Hitem. result_simpl.
    destruct (lookup_lt_is_Some_2 (item_cells item) n) as [value Hvalue].
    { rewrite item_cells_length. lia. }
    change (0 + n) with n.
    assert (item_index item n = Ok value) as ->.
    { destruct item; unfold item_index, py_index; simpl in Hvalue; by rewrite Hvalue. }
    rewrite (take_S_r _ _ _ Hvalue), map_app, app_assoc. done.
Qed.

Lemma add_protein_rows (df_row : SpeciesRow) (protein_data : list protein_item)
    (all_rows_data : list (list cell)) (n : nat) :
  n ≤ length protein_data →
  result_foldl (add_protein_row df_row protein_data) all_rows_data (seq 0 n)
  = Ok (all_rows_data
          ++ map (λ item, row_prefix df_row ++ map Text (item_cells item))
                 (take n protein_data)).
Proof.
  revert all_rows_data. induction n as [|n IH]; intros all_rows_data Hn.
  - by rewrite app_nil_r.
  - destruct (lookup_lt_is_Some_2 protein_data n) as [item Hitem]; [lia|].
    rewrite seq_S. simpl.
    assert (∀ l1 l2 start,
              result_foldl (add_protein_row df_row protein_data) start (l1 ++ l2)
              = rows ← result_foldl (add_protein_row df_row protein_data) start l1;
                result_foldl (add_protein_row df_row protein_data) rows l2) as Happ.
    { induction l1 as [|x l1 IHl]; intros l2 start; cbn [app result_foldl]; [done|].
      destruct (add_protein_row df_row protein_data start x); result_simpl; [|done].
      apply IHl. }
    rewrite Happ, IH by lia. result_simpl. cbn [result_foldl].
    unfold add_protein_row, py_index. rewrite Hitem. result_simpl.
    rewrite (add_protein_cells _ _ item) by done.
    rewrite <- item_cells_length, firstn_all.
    rewrite (take_S_r _ _ _ Hitem), map_app, app_assoc. done.
Qed.

Lemma get_df_foundation_data_loop (df_row : SpeciesRow)
    (genbank_input : string → list (list (list SeqFeature)))
    (protein_data : string → list protein_item) :
  row_genus df_row ≠ EmptyString →
  (∀ accession, accession ∈ py_split ", " (row_accessions df_row) →
     get_protein_data accession genbank_input = Ok (protein_data accession)) →
  get_df_foundation_data df_row genbank_input
  = Ok (concat
          (map (λ accession,
                  map (λ item, row_prefix df_row ++ map Text (item_cells item))
                      (protein_data accession))
               (py_split ", " (row_accessions df_row)))).
Proof.
  intros Hgenus Hdata. unfold get_df_foundation_data.
  destruct (row_genus df_row) as [|c genus] eqn:Hg; [done|].
  unfold py_index at 1. cbn [characters lookup list_lookup]. result_simpl. cbv zeta.
  clear Hg Hgenus c genus.
  assert (∀ accessions start,
            (∀ accession, accession ∈ accessions →
               get_protein_data accession genbank_input = Ok (protein_data accession)) →
            result_foldl
              (λ all_rows_data accession,
                 data ← get_protein_data accession genbank_input;
                 result_foldl (add_protein_row df_row data) all_rows_data
                              (seq 0 (length data)))
              start accessions
            = Ok (start
                    ++ concat
                         (map (λ accession,
                                 map (λ item, row_prefix df_row ++ map Text (item_cells item))
                                     (protein_data accession))
                              accessions))) as Hloop.
  { induction accessions as [|accession accessions IH]; intros start Hall;
      cbn [result_foldl map concat].
    - by rewrite app_nil_r.
    - rewrite (Hall accession) by (by left). result_simpl.
      rewrite add_protein_rows by done. result_simpl.
      rewrite firstn_all. rewrite IH by (intros a Ha; apply Hall; by right).
      by rewrite <- app_assoc. }
  by rewrite Hloop.
Qed.

(** X14. When the genus is not empty and the protein data of every accession
    can be read, [get_df_foundation_data] returns, accession by accession
    and item by item, one row per item of the protein data: the four cells
    of the input row, the last of them the whole list of accession numbers
    and not the accession the row belongs to, followed by one cell per
    element of the item. The ["NA"] of the [IndexError] handler is never
    written. *)
Theorem get_df_foundation_data_rows (df_row : SpeciesRow)
    (genbank_input : string → list (list (list SeqFeature)))
    (protein_data : string → list protein_item) :
  row_genus df_row ≠ EmptyString →
  (∀ accession, accession ∈ py_split ", " (row_accessions df_row) →
     get_protein_data accession genbank_input = Ok (protein_data accession)) →
  get_df_foundation_data df_row genbank_input
  = Ok (concat
          (map (λ accession,
                  map (λ item, row_prefix df_row ++ map Text (item_cells item))
                      (protein_data accession))
               (py_split ", " (row_accessions df_row)))).
Proof. apply get_df_foundation_data_loop. Qed.

Lemma get_df_foundation_data_rows_witness :
  get_df_foundation_data sample_species sample_genbank
  = Ok (concat
          (map (λ accession,
                  map (λ item, row_prefix sample_species ++ map Text (item_cells item))
                      ((λ accession : string,
                          if decide (accession = "NA") then NA_DATA
                          else [Protein ["QBC1.1"; "NA"; "[0:10](+),[20:30](+)";
                                         "glycoside hydrolase"]]) accession))
               (py_split ", " (row_accessions sample_species)))).
Proof.
  apply (get_df_foundation_data_rows sample_species sample_genbank
           (λ accession, if decide (accession = "NA") then NA_DATA
                         else [Protein ["QBC1.1"; "NA"; "[0:10](+),[20:30](+)";
                                        "glycoside hydrolase"]])).
  - discriminate.
  - intros accession Haccession. vm_compute in Haccession.
    repeat (apply elem_of_cons in Haccession as [->|Haccession]; [by vm_compute|]).
    by apply elem_of_nil in Haccession.
Defined.

Lemma get_protein_data_NA (accession_number : string)
    (genbank_input : string → list (list (list SeqFeature))) :
  accession_number = "NA"
  ∨ length (genbank_input (replace_char "."%char "_"%char accession_number)) ≠ 1 →
  get_protein_data accession_number genbank_input = Ok NA_DATA.
Proof.
  intros Hgive_up. unfold get_protein_data.
  destruct (decide (accession_number = "NA")) as [|Hna]; [done|]. cbv zeta.
  destruct Hgive_up as [|Hfiles]; [done|].
  rewrite decide_True; [done|]. lia.
Qed.



(** X16. On a row of text cells [get_df_foundation_data] adds one exception of
    its own, the [IndexError] of an empty genus, whose first character the
    log message reads before anything else is done. With a genus that is
    not empty it raises exactly when [get_protein_data] raises for one of
    the accession numbers, and the exception is the one [get_protein_data]
    raised for the first such accession: building the rows never raises. *)
Theorem get_df_foundation_data_Raise (df_row : SpeciesRow)
    (genbank_input : string → list (list (list SeqFeature))) (e : exn) :
  get_df_foundation_data df_row genbank_input = Raise e
  ↔ (row_genus df_row = EmptyString ∧ e = IndexError)
    ∨ (row_genus df_row ≠ EmptyString
       ∧ ∃ earlier accession later,
           py_split ", " (row_accessions df_row) = earlier ++ accession :: later
           ∧ Forall (λ accession, is_Ok (get_protein_data accession genbank_input))
                    earlier
           ∧ get_protein_data accession genbank_input = Raise e).
Proof.
  unfold get_df_foundation_data.
  destruct (row_genus df_row) as [|c genus] eqn:Hg.
  { unfold py_index. cbn [characters lookup list_lookup]. result_simpl. split.
    - intros [= <-]. by left.
    - by intros [[_ ->]|[? _]]. }
  unfold py_index at 1. cbn [characters lookup list_lookup]. result_simpl. cbv zeta.
  generalize (py_split ", " (row_accessions df_row)) as accessions.
  generalize (@nil (list cell)) as start.
  intros start accessions. revert start.
  assert (∀ start,
            result_foldl
              (λ all_rows_data accession,
                 protein_data ← get_protein_data accession genbank_input;
                 result_foldl (add_protein_row df_row protein_data) all_rows_data
                              (seq 0 (length protein_data)))
              start accessions = Raise e
            ↔ ∃ earlier accession later,
                accessions = earlier ++ accession :: later
                ∧ Forall (λ accession, is_Ok (get_protein_data accession genbank_input))
                         earlier
                ∧ get_protein_data accession genbank_input = Raise e) as Hloop.
  { induction accessions as [|accession accessions IH]; intros start; cbn [result_foldl].
    - split; [done|]. intros (earlier & a & later & Hsplit & _). by destruct earlier.
    - destruct (get_protein_data accession genbank_input) as [data|e1] eqn:Hdata;
        result_simpl.
      + rewrite add_protein_rows by done. result_simpl. rewrite IH. split.
        * intros (earlier & a & later & -> & Hearlier & Hraise).
          exists (accession :: earlier), a, later. split; [done|]. split; [|done].
          constructor; [by exists data|done].
        * intros (earlier & a & later & Hsplit & Hearlier & Hraise).
          destruct earlier as [|first earlier]; simpl in Hsplit.
          { injection Hsplit as <- <-. congruence. }
          injection Hsplit as <- ->. apply Forall_cons in Hearlier as [_ Hearlier].
          by exists earlier, a, later.
      + split.
        * intros [= <-]. exists [], accession, accessions. by repeat split.
        * intros (earlier & a & later & Hsplit & Hearlier & Hraise).
          destruct earlier as [|first earlier]; simpl in Hsplit.
          { injection Hsplit as <- <-. congruence. }
          injection Hsplit as <- ->. apply Forall_cons in Hearlier as [[data Hok] _].
          congruence. }
  intros start. rewrite Hloop. split.
  - intros Hraise. right. by split.
  - by intros [[? _]|[_ Hraise]].
Qed.

(** ** [make_output_directory] *)

